(** * Activity session tracker: a shallow embedding and its properties

    The development follows the Python backend under
    [ScreenTimeAnalyzerPro/backend]:

    - [tracker/utils.py]            : [normalize_app_name], [get_app_category],
                                      [sanitize_window_title];
    - [tracker/idle_detector.py]    : class [IdleDetector];
    - [tracker/realtime_tracker.py] : class [RealtimeTracker];
    - [db/database.py]              : [save_usage_with_retry];
    - [main.py]                     : class [ConnectionManager].

    Conventions of the embedding.

    - A Python [str] is a [string]: a sequence of 8-bit characters, that is
      the code points U+0000 to U+00FF.
    - A Python [float] holding a time or a duration is a rational number
      ([Q]); float arithmetic is taken to be exact.  [int(x)] truncates
      towards zero.
    - [Optional[T]] is [option T]; Python truthiness is written out
      ([truthy_str], [truthy_float]).
    - A coroutine body is a function in the monad [M]: it threads the object
      state and the history of calls made to the outside (the callbacks), and
      it either returns normally or lets an [Exception] escape.  The
      behaviour of the outside is a parameter.  A coroutine runs up to one
      of its awaits before another one takes its turn: the turns of [run]
      are whole passes, [run_slices] cuts a pass of the tracking loop at the
      save of its close, and [broadcast] takes what the other coroutines do
      to the registry during each of its sends. *)

From stdpp Require Import base strings list gmap.
From Stdlib Require Import QArith ZArith Ascii DecimalString DecimalZ DecimalPos Lia.

Open Scope string_scope.

(* ===================================================================== *)
(** ** Python strings *)
(* ===================================================================== *)

Module PyStr.

Definition code (c : ascii) : N := N_of_ascii c.

(** [len(s) == 0], the falsy string. *)
Definition truthy_str (s : string) : bool :=
  match s with
  | EmptyString => false
  | String _ _ => true
  end.

(** [str.isspace] on the code points below 256. *)
Definition isspace (c : ascii) : bool :=
  let n := code c in
  ((9 <=? n) && (n <=? 13) || (28 <=? n) && (n <=? 32)
   || (n =? 133) || (n =? 160))%N.

Definition is_upper_ascii (c : ascii) : bool :=
  let n := code c in ((65 <=? n) && (n <=? 90))%N.

Definition is_lower_ascii (c : ascii) : bool :=
  let n := code c in ((97 <=? n) && (n <=? 122))%N.

Definition is_digit (c : ascii) : bool :=
  let n := code c in ((48 <=? n) && (n <=? 57))%N.

(** Upper-case letters of Latin-1 other than A-Z: U+00C0..U+00DE but the
    multiplication sign U+00D7. *)
Definition is_upper_latin1 (c : ascii) : bool :=
  let n := code c in ((192 <=? n) && (n <=? 222) && negb (n =? 215))%N.

Definition lower_char (c : ascii) : ascii :=
  if is_upper_ascii c || is_upper_latin1 c
  then ascii_of_N (code c + 32) else c.

(** Only applied to ASCII letters and digits in this program. *)
Definition upper_char (c : ascii) : ascii :=
  if is_lower_ascii c then ascii_of_N (code c - 32) else c.

Fixpoint map_chars (f : ascii -> ascii) (s : string) : string :=
  match s with
  | EmptyString => EmptyString
  | String c r => String (f c) (map_chars f r)
  end.

(** [s.lower()] *)
Definition lower (s : string) : string := map_chars lower_char s.

(** [s.capitalize()] *)
Definition capitalize (s : string) : string :=
  match s with
  | EmptyString => EmptyString
  | String c r => String (upper_char c) (lower r)
  end.

Fixpoint lstrip (s : string) : string :=
  match s with
  | EmptyString => EmptyString
  | String c r => if isspace c then lstrip r else s
  end.

Fixpoint rstrip (s : string) : string :=
  match s with
  | EmptyString => EmptyString
  | String c r =>
      match rstrip r with
      | EmptyString => if isspace c then EmptyString else String c EmptyString
      | r' => String c r'
      end
  end.

(** [s.strip()] *)
Definition strip (s : string) : string := rstrip (lstrip s).

Fixpoint take (n : nat) (s : string) : string :=
  match n, s with
  | S n', String c r => String c (take n' r)
  | _, _ => EmptyString
  end.

(** [s[:k]] for a Python integer [k]: a negative [k] counts from the end. *)
Definition slice_to (k : Z) (s : string) : string :=
  if (k <? 0)%Z
  then take (Z.to_nat (Z.of_nat (String.length s) + k)) s
  else take (Z.to_nat k) s.

(** [s.endswith(suffix)] *)
Definition endswith (s suffix : string) : bool :=
  let n := String.length s in
  let m := String.length suffix in
  (m <=? n)%nat && String.eqb (String.substring (n - m) m s) suffix.

(** [needle in hay] *)
Fixpoint contains (needle hay : string) : bool :=
  String.prefix needle hay ||
  match hay with
  | EmptyString => false
  | String _ r => contains needle r
  end.

(** [s.split()]: the maximal runs of non-space characters.  [cur] is the
    word being read, in reverse. *)
Fixpoint split_go (cur : string) (s : string) : list string :=
  match s with
  | EmptyString =>
      if truthy_str cur then [String.rev cur] else []
  | String c r =>
      if isspace c
      then (if truthy_str cur then String.rev cur :: split_go "" r
            else split_go "" r)
      else split_go (String c cur) r
  end.

Definition split (s : string) : list string := split_go "" s.

(** [sep.join(ws)] *)
Fixpoint join (sep : string) (ws : list string) : string :=
  match ws with
  | [] => ""
  | [w] => w
  | w :: ws' => w ++ sep ++ join sep ws'
  end.

(** [str(n)] for an integer. *)
Definition str_of_int (n : Z) : string := NilZero.string_of_int (Z.to_int n).

(** The characters of [s] all satisfy [p]. *)
Fixpoint all_chars (p : ascii -> bool) (s : string) : bool :=
  match s with
  | EmptyString => true
  | String c r => p c && all_chars p r
  end.

Fixpoint repeat_char (c : ascii) (n : nat) : string :=
  match n with
  | O => EmptyString
  | S n' => String c (repeat_char c n')
  end.

(** The character is not the underscore that joins the two parts of a
    session key. *)
Definition not_underscore (c : ascii) : bool := negb (Ascii.eqb c "_").

(** Upper-casing the character gives the same with or without lower-casing
    it first: so it is for every character but the upper-case letters of
    Latin-1 that are not ASCII. *)
Definition case_stable (c : ascii) : bool :=
  Ascii.eqb (upper_char (lower_char c)) (upper_char c).

(** Neither an ASCII letter nor a digit. *)
Definition not_alnum (c : ascii) : bool :=
  negb (is_upper_ascii c || is_lower_ascii c || is_digit c).

End PyStr.

(* ===================================================================== *)
(** ** tracker/utils.py *)
(* ===================================================================== *)

Module Utils.
Import PyStr.

Definition APP_NAME_MAPPING : list (string * string) :=
  [ ("chrome.exe", "Google Chrome"); ("chrome", "Google Chrome");
    ("firefox.exe", "Firefox"); ("firefox", "Firefox");
    ("msedge.exe", "Microsoft Edge"); ("msedge", "Microsoft Edge");
    ("brave.exe", "Brave Browser"); ("brave", "Brave Browser");
    ("code.exe", "Visual Studio Code"); ("code", "Visual Studio Code");
    ("slack.exe", "Slack"); ("slack", "Slack");
    ("teams.exe", "Microsoft Teams"); ("teams", "Microsoft Teams");
    ("spotify.exe", "Spotify"); ("spotify", "Spotify");
    ("vlc.exe", "VLC Media Player"); ("vlc", "VLC Media Player");
    ("notepad++.exe", "Notepad++"); ("notepad++", "Notepad++");
    ("pycharm64.exe", "PyCharm"); ("pycharm", "PyCharm");
    ("idea64.exe", "IntelliJ IDEA"); ("idea", "IntelliJ IDEA");
    ("excel.exe", "Microsoft Excel"); ("excel", "Microsoft Excel");
    ("word.exe", "Microsoft Word"); ("word", "Microsoft Word");
    ("powerpoint.exe", "Microsoft PowerPoint");
    ("powerpoint", "Microsoft PowerPoint");
    ("outlook.exe", "Microsoft Outlook"); ("outlook", "Microsoft Outlook");
    ("discord.exe", "Discord"); ("discord", "Discord");
    ("zoom.exe", "Zoom"); ("zoom", "Zoom");
    ("notion.exe", "Notion"); ("notion", "Notion");
    ("figma.exe", "Figma"); ("figma", "Figma");
    ("photoshop.exe", "Adobe Photoshop"); ("photoshop", "Adobe Photoshop") ].

Definition APP_CATEGORIES : list (string * string) :=
  [ ("Google Chrome", "Browser"); ("Firefox", "Browser");
    ("Microsoft Edge", "Browser"); ("Brave Browser", "Browser");
    ("Safari", "Browser");
    ("Visual Studio Code", "Development"); ("PyCharm", "Development");
    ("IntelliJ IDEA", "Development"); ("Sublime Text", "Development");
    ("Atom", "Development");
    ("Slack", "Communication"); ("Microsoft Teams", "Communication");
    ("Discord", "Communication"); ("Zoom", "Communication");
    ("Skype", "Communication");
    ("Microsoft Excel", "Productivity"); ("Microsoft Word", "Productivity");
    ("Microsoft PowerPoint", "Productivity");
    ("Microsoft Outlook", "Productivity"); ("Notion", "Productivity");
    ("Evernote", "Productivity");
    ("Spotify", "Entertainment"); ("VLC Media Player", "Entertainment");
    ("Netflix", "Entertainment"); ("YouTube", "Entertainment");
    ("Figma", "Design"); ("Adobe Photoshop", "Design");
    ("Adobe Illustrator", "Design"); ("Sketch", "Design") ].

(** [d.get(k)] on a dictionary literal. *)
Fixpoint dict_get (d : list (string * string)) (k : string) : option string :=
  match d with
  | [] => None
  | (k', v) :: d' => if String.eqb k' k then Some v else dict_get d' k
  end.

(** [re.sub(r'[^a-zA-Z0-9\s]', ' ', s)] *)
Definition clean_char (c : ascii) : ascii :=
  if is_upper_ascii c || is_lower_ascii c || is_digit c || isspace c
  then c else " "%char.

Definition normalize_app_name (raw_name : string) : string :=
  if negb (truthy_str raw_name) then "UNKNOWN" else
  let lower_name := strip (lower raw_name) in
  let lower_name :=
    if endswith lower_name ".exe" then slice_to (-4) lower_name
    else lower_name in
  match dict_get APP_NAME_MAPPING lower_name with
  | Some friendly => friendly
  | None =>
      let clean_name := map_chars clean_char raw_name in
      join " " (map capitalize (split clean_name))
  end.

Definition get_app_category (app_name : string) : string :=
  default "Other" (dict_get APP_CATEGORIES app_name).

(** The class [\x00-\x1f\x7f-\x9f]. *)
Definition is_control (c : ascii) : bool :=
  let n := code c in ((n <=? 31) || (127 <=? n) && (n <=? 159))%N.

(** [re.sub(r'[\x00-\x1f\x7f-\x9f]', '', s)] *)
Fixpoint remove_control (s : string) : string :=
  match s with
  | EmptyString => EmptyString
  | String c r =>
      if is_control c then remove_control r else String c (remove_control r)
  end.

Definition sanitize_window_title (title : string) (max_length : Z) : string :=
  if negb (truthy_str title) then "" else
  let sanitized := remove_control title in
  let sanitized :=
    if (Z.of_nat (String.length sanitized) >? max_length)%Z
    then slice_to max_length sanitized ++ "..."
    else sanitized in
  strip sanitized.

(** The default value of [max_length]. *)
Definition default_max_length : Z := 200.

(** No character of [s] is in the control class. *)
Definition control_free (s : string) : bool :=
  all_chars (fun c => negb (is_control c)) s.

(** A title of 201 letters. *)
Definition long_title : string := repeat_char "a" 201.

(** [d.get(k)] on a dictionary literal with values of any type. *)
Fixpoint lookup_key {V : Type} (d : list (string * V)) (k : string) : option V :=
  match d with
  | [] => None
  | (k', v) :: d' => if String.eqb k' k then Some v else lookup_key d' k
  end.

Definition PRODUCTIVITY_WEIGHTS : list (string * Q) :=
  [ ("Development", 1%Q); ("Productivity", 1%Q); ("Design", 0.9%Q);
    ("Communication", 0.7%Q); ("Browser", 0.5%Q); ("Entertainment", 0%Q);
    ("Other", 0.3%Q) ].

Definition get_productivity_score (category : string) : Q :=
  default 0.3%Q (lookup_key PRODUCTIVITY_WEIGHTS category).

(** [format_duration(seconds)]; [//] and [%] round towards minus
    infinity, as [Z.div] and [Z.modulo] do for a positive divisor. *)
Definition format_duration (seconds : Z) : string :=
  if (seconds <? 60)%Z then str_of_int seconds ++ "s" else
  let minutes := (seconds / 60)%Z in
  if (minutes <? 60)%Z then
    let remaining_seconds := (seconds mod 60)%Z in
    if (remaining_seconds >? 0)%Z
    then str_of_int minutes ++ "m " ++ str_of_int remaining_seconds ++ "s"
    else str_of_int minutes ++ "m"
  else
    let hours := (minutes / 60)%Z in
    let remaining_minutes := (minutes mod 60)%Z in
    if (remaining_minutes >? 0)%Z
    then str_of_int hours ++ "h " ++ str_of_int remaining_minutes ++ "m"
    else str_of_int hours ++ "h".

(** The first and the last character of a string. *)
Definition first_char (s : string) : option ascii :=
  match s with
  | EmptyString => None
  | String c _ => Some c
  end.

Fixpoint last_char (s : string) : option ascii :=
  match s with
  | EmptyString => None
  | String c EmptyString => Some c
  | String _ r => last_char r
  end.

(** ASCII letters and digits. *)
Definition is_alnum (c : ascii) : bool :=
  is_upper_ascii c || is_lower_ascii c || is_digit c.

(** The category has a weight in the table, between 0 and 1. *)
Definition weighted (category : string) : bool :=
  match lookup_key PRODUCTIVITY_WEIGHTS category with
  | Some w => Qle_bool 0 w && Qle_bool w 1
  | None => false
  end.

End Utils.

Import PyStr Utils.


(* ===================================================================== *)
(** ** Python numbers: times and durations *)
(* ===================================================================== *)

Module PyNum.

(** [int(x)] for a float: truncation towards zero. *)
Definition py_int (x : Q) : Z := Z.quot (Qnum x) (Z.pos (Qden x)).

(** A float is falsy exactly when it is zero. *)
Definition truthy_float (x : Q) : bool := negb (Qnum x =? 0)%Z.

End PyNum.

(* ===================================================================== *)
(** ** Coroutine bodies: state, history of outside calls, exceptions *)
(* ===================================================================== *)

Module Coroutine.

(** How a call ends: it returns a value, or an [Exception] escapes. *)
Inductive outcome (A : Type) : Type :=
| Returned (a : A)
| Raised.
Arguments Returned {A} a.
Arguments Raised {A}.

Section Monad.
Context {S E : Type}.

(** [S] is the state of the object ([self]); the list is the history of the
    calls made to the outside so far, oldest first. *)
Definition M (A : Type) : Type := S -> list E -> outcome A * S * list E.

Definition ret {A} (a : A) : M A := fun s h => (Returned a, s, h).

Definition bind {A B} (m : M A) (f : A -> M B) : M B :=
  fun s h =>
    match m s h with
    | (Returned a, s', h') => f a s' h'
    | (Raised, s', h') => (Raised, s', h')
    end.

(** [raise Exception] *)
Definition raise {A} : M A := fun s h => (Raised, s, h).

(** [try: body / except Exception: handler] *)
Definition try_except {A} (body handler : M A) : M A :=
  fun s h =>
    match body s h with
    | (Returned a, s', h') => (Returned a, s', h')
    | (Raised, s', h') => handler s' h'
    end.

Definition get : M S := fun s h => (Returned s, s, h).
Definition put (s : S) : M unit := fun _ h => (Returned tt, s, h).
Definition modify (f : S -> S) : M unit := fun s h => (Returned tt, f s, h).

(** A call to the outside: [e] is appended to the history; [ok] tells
    whether the callee returns ([true]) or raises ([false]), given the
    history before the call. *)
Definition call (ok : list E -> bool) (e : bool -> E) : M unit :=
  fun s h =>
    if ok h then (Returned tt, s, (h ++ [e true])%list)
    else (Raised, s, (h ++ [e false])%list).

Definition result_of {A} (r : outcome A * S * list E) : outcome A := r.1.1.
Definition state_of {A} (r : outcome A * S * list E) : S := r.1.2.
Definition history_of {A} (r : outcome A * S * list E) : list E := r.2.

End Monad.

Arguments M : clear implicits.

Declare Scope coroutine_scope.
Delimit Scope coroutine_scope with coroutine.
Notation "x <- m ;; k" := (bind m (fun x => k))
  (at level 100, m at next level, right associativity) : coroutine_scope.
Notation "m ;; k" := (bind m (fun _ => k))
  (at level 100, right associativity) : coroutine_scope.

End Coroutine.

(* ===================================================================== *)
(** ** tracker/idle_detector.py *)
(* ===================================================================== *)

Module IdleDetector.
Import PyNum.

Record t : Type := mk {
  idle_threshold : Z;            (* seconds *)
  last_activity_time : Q;
  is_idle : bool;
  idle_callback : bool;          (* [true]: set; [false]: [None] *)
  active_callback : bool;
  _mouse_listener : bool;        (* [false]: [None] *)
  _keyboard_listener : bool;
  _monitor_task : bool;          (* [false]: [None] *)
  _running : bool
}.

(** [IdleDetector(idle_threshold_seconds)], built at time [now]. *)
Definition init (idle_threshold_seconds : Z) (now : Q) : t :=
  {| idle_threshold := idle_threshold_seconds;
     last_activity_time := now;
     is_idle := false;
     idle_callback := false;
     active_callback := false;
     _mouse_listener := false;
     _keyboard_listener := false;
     _monitor_task := false;
     _running := false |}.

(** [_on_activity] at time [current_time].  The second component tells
    whether [active_callback] is called (an exception it raises is caught
    and logged). *)
Definition _on_activity (current_time : Q) (d : t) : t * bool :=
  let was_idle := is_idle d in
  let d1 :=
    {| idle_threshold := idle_threshold d;
       last_activity_time := current_time;
       is_idle := is_idle d;
       idle_callback := idle_callback d;
       active_callback := active_callback d;
       _mouse_listener := _mouse_listener d;
       _keyboard_listener := _keyboard_listener d;
       _monitor_task := _monitor_task d;
       _running := _running d |} in
  if was_idle then
    ({| idle_threshold := idle_threshold d1;
        last_activity_time := last_activity_time d1;
        is_idle := false;
        idle_callback := idle_callback d1;
        active_callback := active_callback d1;
        _mouse_listener := _mouse_listener d1;
        _keyboard_listener := _keyboard_listener d1;
        _monitor_task := _monitor_task d1;
        _running := _running d1 |}, active_callback d1)
  else (d1, false).

(** One pass through the body of the loop of [_monitor_idle_state], the
    clock reading [current_time].  The second component is [Some
    idle_duration] when [idle_callback] is awaited with that argument (an
    exception it raises is caught and logged). *)
Definition _monitor_idle_state_body (current_time : Q) (d : t) : t * option Q :=
  let idle_duration := (current_time - last_activity_time d)%Q in
  if negb (is_idle d) && Qle_bool (inject_Z (idle_threshold d)) idle_duration
  then
    ({| idle_threshold := idle_threshold d;
        last_activity_time := last_activity_time d;
        is_idle := true;
        idle_callback := idle_callback d;
        active_callback := active_callback d;
        _mouse_listener := _mouse_listener d;
        _keyboard_listener := _keyboard_listener d;
        _monitor_task := _monitor_task d;
        _running := _running d |},
     if idle_callback d then Some idle_duration else None)
  else (d, None).

(** How hooking one input listener ends in [start]. *)
Inductive hook : Type :=
| Hooked               (* the listener is built and started *)
| CtorRaised           (* [Listener(...)] raises: the field stays [None] *)
| StartRaised.         (* [.start()] raises: the field holds the listener *)

Definition hook_field (h : hook) : bool :=
  match h with
  | Hooked | StartRaised => true
  | CtorRaised => false
  end.

(** [start(idle_callback, active_callback)].  [PYNPUT_AVAILABLE] is the
    module-level flag; [mouse] and [keyboard] tell how hooking the two
    listeners ends (each failure is caught and logged). *)
Definition start (PYNPUT_AVAILABLE : bool) (mouse keyboard : hook)
    (idle_cb active_cb : bool) (d : t) : t :=
  if negb PYNPUT_AVAILABLE then d
  else if _running d then d
  else
    {| idle_threshold := idle_threshold d;
       last_activity_time := last_activity_time d;
       is_idle := is_idle d;
       idle_callback := idle_cb;
       active_callback := active_cb;
       _mouse_listener := hook_field mouse;
       _keyboard_listener := hook_field keyboard;
       _monitor_task := true;
       _running := true |}.

Definition stop (d : t) : t :=
  if negb (_running d) then d
  else
    {| idle_threshold := idle_threshold d;
       last_activity_time := last_activity_time d;
       is_idle := is_idle d;
       idle_callback := idle_callback d;
       active_callback := active_callback d;
       _mouse_listener := false;
       _keyboard_listener := false;
       _monitor_task := false;
       _running := false |}.

Definition get_idle_duration (now : Q) (d : t) : Q :=
  (now - last_activity_time d)%Q.

Definition is_user_idle (d : t) : bool := is_idle d.

(** What can happen to a detector, in any order: the public methods, an
    input event delivered to [_on_activity], and a pass of the monitor
    loop, which runs only as the task made by [start] and while [_running]
    holds. *)
Inductive op : Type :=
| OpStart (mouse keyboard : hook) (idle_cb active_cb : bool)
| OpStop
| OpActivity (current_time : Q)
| OpMonitor (current_time : Q)
| OpGetIdleDuration (now : Q)
| OpIsUserIdle.

Definition run_op (PYNPUT_AVAILABLE : bool) (o : op) (d : t) : t :=
  match o with
  | OpStart m k i a => start PYNPUT_AVAILABLE m k i a d
  | OpStop => stop d
  | OpActivity now => (_on_activity now d).1
  | OpMonitor now =>
      if _monitor_task d && _running d
      then (_monitor_idle_state_body now d).1 else d
  | OpGetIdleDuration _ | OpIsUserIdle => d
  end.

Definition run_ops (PYNPUT_AVAILABLE : bool) (os : list op) (d : t) : t :=
  foldl (fun d o => run_op PYNPUT_AVAILABLE o d) d os.

(** Without pynput nothing ever starts the monitor, and only the monitor
    sets [is_idle]. *)
Definition never_started (d : t) : Prop :=
  is_idle d = false /\ _running d = false /\ _monitor_task d = false.

(** The four handlers given to the pynput listeners. *)
Definition _on_mouse_move (current_time : Q) (d : t) : t * bool :=
  _on_activity current_time d.

Definition _on_mouse_click (pressed : bool) (current_time : Q) (d : t)
    : t * bool :=
  if pressed then _on_activity current_time d else (d, false).

Definition _on_mouse_scroll (current_time : Q) (d : t) : t * bool :=
  _on_activity current_time d.

Definition _on_keyboard_press (current_time : Q) (d : t) : t * bool :=
  _on_activity current_time d.

(** Whether the operation awaits [idle_callback]. *)
Definition fires (o : op) (d : t) : bool :=
  match o with
  | OpMonitor now =>
      _monitor_task d && _running d &&
      match (_monitor_idle_state_body now d).2 with
      | Some _ => true
      | None => false
      end
  | _ => false
  end.

(** How often [idle_callback] is awaited along the operations. *)
Fixpoint count_fires (PYNPUT_AVAILABLE : bool) (os : list op) (d : t) : nat :=
  match os with
  | [] => 0
  | o :: rest =>
      ((if fires o d then 1 else 0)
       + count_fires PYNPUT_AVAILABLE rest (run_op PYNPUT_AVAILABLE o d))%nat
  end.

Definition is_activity (o : op) : bool :=
  match o with
  | OpActivity _ => true
  | _ => false
  end.

End IdleDetector.

(* ===================================================================== *)
(** ** tracker/realtime_tracker.py *)
(* ===================================================================== *)

Module Tracker.
Import PyStr PyNum Utils Coroutine.
Local Open Scope coroutine_scope.

(** What [get_active_window] returns when it does not return [None]. *)
Record window_info : Type := mk_window {
  wi_app_name : string;
  wi_window_title : string
}.

(** The keyword arguments of [db_save].  The two [datetime] values are kept
    as the timestamps they are built from. *)
Record save_args : Type := mk_save {
  sa_app_name : string;
  sa_window_title : string;
  sa_start_time : Q;
  sa_end_time : Q;
  sa_duration_sec : Z;
  sa_category : string
}.

(** The messages handed to [ws_broadcast].  An ISO-formatted time is kept as
    the timestamp it is built from. *)
Inductive event : Type :=
| session_end (app window_title : string) (duration_sec : Z)
    (start end_ : Q) (source_os category : string)
| session_start (app window_title category : string) (timestamp : Q)
| idle (idle_sec : Z) (timestamp : Q).

(** The calls made to the two callbacks; the flag tells whether the call
    returned ([true]) or raised ([false]). *)
Inductive effect : Type :=
| DbSave (a : save_args) (returned : bool)
| WsBroadcast (e : event) (returned : bool).

(** The behaviour of the two callbacks, free to depend on all the calls made
    before. *)
Record callbacks : Type := mk_callbacks {
  db_save_returns : list effect -> save_args -> bool;
  ws_broadcast_returns : list effect -> event -> bool
}.

Record RealtimeTracker : Type := mk {
  current_app : option string;
  current_window_title : option string;
  session_start_time : option Q;
  last_heartbeat_time : option Q;
  is_tracking : bool;
  idle_detector : IdleDetector.t;
  platform : string;
  last_saved_session : option string   (* the ["key"] of the dict, or [None] *)
}.

Definition set_current_app (v : option string) (t : RealtimeTracker) :=
  mk v (current_window_title t) (session_start_time t) (last_heartbeat_time t)
     (is_tracking t) (idle_detector t) (platform t) (last_saved_session t).

Definition set_current_window_title (v : option string) (t : RealtimeTracker) :=
  mk (current_app t) v (session_start_time t) (last_heartbeat_time t)
     (is_tracking t) (idle_detector t) (platform t) (last_saved_session t).

Definition set_session_start_time (v : option Q) (t : RealtimeTracker) :=
  mk (current_app t) (current_window_title t) v (last_heartbeat_time t)
     (is_tracking t) (idle_detector t) (platform t) (last_saved_session t).

Definition set_last_heartbeat_time (v : option Q) (t : RealtimeTracker) :=
  mk (current_app t) (current_window_title t) (session_start_time t) v
     (is_tracking t) (idle_detector t) (platform t) (last_saved_session t).

Definition set_is_tracking (v : bool) (t : RealtimeTracker) :=
  mk (current_app t) (current_window_title t) (session_start_time t)
     (last_heartbeat_time t) v (idle_detector t) (platform t)
     (last_saved_session t).

Definition set_idle_detector (v : IdleDetector.t) (t : RealtimeTracker) :=
  mk (current_app t) (current_window_title t) (session_start_time t)
     (last_heartbeat_time t) (is_tracking t) v (platform t)
     (last_saved_session t).

Definition set_last_saved_session (v : option string) (t : RealtimeTracker) :=
  mk (current_app t) (current_window_title t) (session_start_time t)
     (last_heartbeat_time t) (is_tracking t) (idle_detector t) (platform t) v.

(** [RealtimeTracker(db_save_callback, ws_broadcast_callback)], built at
    time [now] on the platform [platform_system]. *)
Definition init (platform_system : string) (now : Q) : RealtimeTracker :=
  {| current_app := None;
     current_window_title := None;
     session_start_time := None;
     last_heartbeat_time := None;
     is_tracking := false;
     idle_detector := IdleDetector.init 180 now;
     platform := platform_system;
     last_saved_session := None |}.

(** [x or ""] *)
Definition or_empty (x : option string) : string :=
  match x with
  | Some s => s
  | None => ""
  end.

(** [a != b] on [Optional[str]] *)
Definition opt_str_neq (a b : option string) : bool :=
  match a, b with
  | Some x, Some y => negb (String.eqb x y)
  | None, None => false
  | _, _ => true
  end.

(** [f"{normalized_app}_{int(start_time)}"] *)
Definition session_key (normalized_app : string) (start_time : Q) : string :=
  normalized_app ++ "_" ++ str_of_int (py_int start_time).

(** [last and last.get("key") == session_key] *)
Definition is_duplicate (last : option string) (key : string) : bool :=
  match last with
  | Some k => String.eqb k key
  | None => false
  end.

(** [self.current_app and self.session_start_time]: the session that is
    open, if one is. *)
Definition open_session (t : RealtimeTracker) : option (string * Q) :=
  match current_app t, session_start_time t with
  | Some a, Some s =>
      if truthy_str a && truthy_float s then Some (a, s) else None
  | _, _ => None
  end.

Section WithCallbacks.
Variable cb : callbacks.

Abbreviation M := (Coroutine.M RealtimeTracker effect).

(** [await self.db_save(...)] *)
Definition db_save (a : save_args) : M unit :=
  call (fun h => db_save_returns cb h a) (DbSave a).

(** [await self.ws_broadcast(...)] *)
Definition ws_broadcast (e : event) : M unit :=
  call (fun h => ws_broadcast_returns cb h e) (WsBroadcast e).

Definition _save_and_broadcast_session (app_name window_title : string)
    (start_time end_time : Q) : M unit :=
  let duration_sec := py_int (end_time - start_time) in
  if (duration_sec <? 1)%Z then ret tt else
  let normalized_app := normalize_app_name app_name in
  let category := get_app_category normalized_app in
  let sanitized_title := sanitize_window_title window_title default_max_length in
  let key := session_key normalized_app start_time in
  self <- get ;;
  if is_duplicate (last_saved_session self) key then ret tt else
  modify (set_last_saved_session (Some key)) ;;
  try_except
    (db_save {| sa_app_name := normalized_app;
                sa_window_title := sanitized_title;
                sa_start_time := start_time;
                sa_end_time := end_time;
                sa_duration_sec := duration_sec;
                sa_category := category |})
    (ret tt) ;;
  try_except
    (ws_broadcast (session_end normalized_app sanitized_title duration_sec
                     start_time end_time (platform self) category))
    (ret tt).

(** [_handle_idle(idle_duration)]; [end_time] is the reading of
    [time.time()] and [timestamp] that of [datetime.now]. *)
Definition _handle_idle (idle_duration : Q) (end_time timestamp : Q) : M unit :=
  self <- get ;;
  match open_session self with
  | Some (app, start) =>
      _save_and_broadcast_session app (or_empty (current_window_title self))
        start end_time ;;
      modify (set_current_app None) ;;
      modify (set_current_window_title None) ;;
      modify (set_session_start_time None)
  | None => ret tt
  end ;;
  try_except (ws_broadcast (idle (py_int idle_duration) timestamp)) (ret tt).

(** One pass through the body of the loop of [_tracking_loop].
    [window_info] is what [get_active_window()] returns and [current_time]
    what [time.time()] returns, were they called in this pass. *)
Definition _tracking_loop_body (window_info : option window_info)
    (current_time : Q) : M unit :=
  try_except
    (self <- get ;;
     if IdleDetector.is_user_idle (idle_detector self) then ret tt else
     match window_info with
     | None => ret tt
     | Some wi =>
         let app_name := wi_app_name wi in
         let window_title := wi_window_title wi in
         if opt_str_neq (Some app_name) (current_app self) then
           match open_session self with
           | Some (app, start) =>
               _save_and_broadcast_session app
                 (or_empty (current_window_title self)) start current_time
           | None => ret tt
           end ;;
           modify (set_current_app (Some app_name)) ;;
           modify (set_current_window_title (Some window_title)) ;;
           modify (set_session_start_time (Some current_time)) ;;
           modify (set_last_heartbeat_time (Some current_time)) ;;
           let normalized_app := normalize_app_name app_name in
           let category := get_app_category normalized_app in
           try_except
             (ws_broadcast
                (session_start normalized_app
                   (sanitize_window_title window_title default_max_length)
                   category current_time))
             (ret tt)
         else if opt_str_neq (Some window_title) (current_window_title self)
         then modify (set_current_window_title (Some window_title))
         else ret tt
     end)
    (ret tt).

(** [_tracking_loop], fed with what the probe and the clock give in each
    pass. *)
Fixpoint _tracking_loop (passes : list (option window_info * Q)) : M unit :=
  match passes with
  | [] => ret tt
  | (wi, now) :: rest =>
      self <- get ;;
      if is_tracking self
      then _tracking_loop_body wi now ;; _tracking_loop rest
      else ret tt
  end.

(** [start_tracking()]; the three first arguments are those of
    [IdleDetector.start]. *)
Definition start_tracking (PYNPUT_AVAILABLE : bool)
    (mouse keyboard : IdleDetector.hook) : M unit :=
  self <- get ;;
  if is_tracking self then ret tt else
  modify (set_is_tracking true) ;;
  modify (fun t =>
    set_idle_detector
      (IdleDetector.start PYNPUT_AVAILABLE mouse keyboard true true
         (idle_detector t)) t).

(** [stop_tracking()], up to the cancellation of the two tasks. *)
Definition stop_tracking (end_time : Q) : M unit :=
  self <- get ;;
  if negb (is_tracking self) then ret tt else
  modify (set_is_tracking false) ;;
  match open_session self with
  | Some (app, start) =>
      _save_and_broadcast_session app (or_empty (current_window_title self))
        start end_time
  | None => ret tt
  end ;;
  modify (fun t => set_idle_detector (IdleDetector.stop (idle_detector t)) t).

(** One pass of the monitor loop of the tracker's idle detector, whose
    [idle_callback] is [_handle_idle]. *)
Definition idle_monitor_pass (current_time end_time timestamp : Q) : M unit :=
  self <- get ;;
  let d := idle_detector self in
  if IdleDetector._monitor_task d && IdleDetector._running d then
    let r := IdleDetector._monitor_idle_state_body current_time d in
    modify (set_idle_detector r.1) ;;
    match r.2 with
    | Some idle_duration =>
        try_except (_handle_idle idle_duration end_time timestamp) (ret tt)
    | None => ret tt
    end
  else ret tt.

(** An input event reaches the idle detector ([active_callback] only
    logs). *)
Definition input_activity (current_time : Q) : M unit :=
  modify (fun t =>
    set_idle_detector
      (IdleDetector._on_activity current_time (idle_detector t)).1 t).

(** The coroutines of a tracker take turns. *)
Inductive turn : Type :=
| Tick (window_info : option window_info) (current_time : Q)
| IdleMonitor (current_time end_time timestamp : Q)
| Activity (current_time : Q)
| Stop (end_time : Q).

Definition run_turn (x : turn) : M unit :=
  match x with
  | Tick wi now =>
      self <- get ;;
      if is_tracking self then _tracking_loop_body wi now else ret tt
  | IdleMonitor now end_time ts => idle_monitor_pass now end_time ts
  | Activity now => input_activity now
  | Stop end_time => stop_tracking end_time
  end.

Fixpoint run (xs : list turn) : M unit :=
  match xs with
  | [] => ret tt
  | x :: rest => run_turn x ;; run rest
  end.

(** Another coroutine of the tracker can run while a pass of the loop
    waits in [await self.db_save(...)], the first await of its close.
    [_save_and_broadcast_session] up to that await: the result is the
    record about to be saved, or [None] when the close has returned
    before. *)
Definition _save_and_broadcast_session_until_db_save
    (app_name window_title : string) (start_time end_time : Q)
    : M (option save_args) :=
  let duration_sec := py_int (end_time - start_time) in
  if (duration_sec <? 1)%Z then ret None else
  let normalized_app := normalize_app_name app_name in
  let category := get_app_category normalized_app in
  let sanitized_title := sanitize_window_title window_title default_max_length in
  let key := session_key normalized_app start_time in
  self <- get ;;
  if is_duplicate (last_saved_session self) key then ret None else
  modify (set_last_saved_session (Some key)) ;;
  ret (Some {| sa_app_name := normalized_app;
               sa_window_title := sanitized_title;
               sa_start_time := start_time;
               sa_end_time := end_time;
               sa_duration_sec := duration_sec;
               sa_category := category |}).

(** [_save_and_broadcast_session] from that await on. *)
Definition _save_and_broadcast_session_from_db_save (a : save_args) : M unit :=
  try_except (db_save a) (ret tt) ;;
  self <- get ;;
  try_except
    (ws_broadcast (session_end (sa_app_name a) (sa_window_title a)
                     (sa_duration_sec a) (sa_start_time a) (sa_end_time a)
                     (platform self) (sa_category a)))
    (ret tt).

(** The statements of a pass that follow the close of the session of the
    application left: the session of the application seen is opened and
    announced. *)
Definition _tracking_loop_body_after_close (wi : window_info)
    (current_time : Q) : M unit :=
  let app_name := wi_app_name wi in
  let window_title := wi_window_title wi in
  modify (set_current_app (Some app_name)) ;;
  modify (set_current_window_title (Some window_title)) ;;
  modify (set_session_start_time (Some current_time)) ;;
  modify (set_last_heartbeat_time (Some current_time)) ;;
  let normalized_app := normalize_app_name app_name in
  let category := get_app_category normalized_app in
  try_except
    (ws_broadcast
       (session_start normalized_app
          (sanitize_window_title window_title default_max_length)
          category current_time))
    (ret tt).

(** The local variables of a pass that waits in the save of its close. *)
Record suspended : Type := mk_suspended {
  su_saving : save_args;
  su_window_info : window_info;
  su_current_time : Q
}.

(** A pass of the loop up to the save of its close: the result is [None]
    when the pass has come to its end without waiting there. *)
Definition _tracking_loop_body_until_db_save
    (window_info : option window_info) (current_time : Q)
    : M (option suspended) :=
  try_except
    (self <- get ;;
     if IdleDetector.is_user_idle (idle_detector self) then ret None else
     match window_info with
     | None => ret None
     | Some wi =>
         let app_name := wi_app_name wi in
         let window_title := wi_window_title wi in
         if opt_str_neq (Some app_name) (current_app self) then
           match open_session self with
           | Some (app, start) =>
               saving <- _save_and_broadcast_session_until_db_save app
                           (or_empty (current_window_title self)) start
                           current_time ;;
               match saving with
               | Some a =>
                   ret (Some {| su_saving := a;
                                su_window_info := wi;
                                su_current_time := current_time |})
               | None =>
                   _tracking_loop_body_after_close wi current_time ;;
                   ret None
               end
           | None =>
               _tracking_loop_body_after_close wi current_time ;; ret None
           end
         else if opt_str_neq (Some window_title) (current_window_title self)
         then modify (set_current_window_title (Some window_title)) ;; ret None
         else ret None
     end)
    (ret None).

(** The rest of a pass that waited in the save of its close. *)
Definition _tracking_loop_body_from_db_save (su : suspended) : M unit :=
  try_except
    (_save_and_broadcast_session_from_db_save (su_saving su) ;;
     _tracking_loop_body_after_close (su_window_info su) (su_current_time su))
    (ret tt).

(** The turns of the coroutines when a pass of the loop can be cut at the
    save of its close.  The loop is one coroutine: while a pass waits, no
    other pass of the loop runs; [stop_tracking], when it goes through,
    cancels the loop and the pass that waits with it. *)
Inductive slice : Type :=
| Whole (x : turn)
| TickUntilDbSave (window_info : option window_info) (current_time : Q)
| TickFromDbSave.

Definition run_slice (x : slice) (waiting : option suspended)
    : M (option suspended) :=
  match x, waiting with
  | Whole (Tick _ _), Some _ => ret waiting
  | Whole (Stop end_time), Some _ =>
      self <- get ;;
      stop_tracking end_time ;;
      ret (if is_tracking self then None else waiting)
  | Whole x, _ => run_turn x ;; ret waiting
  | TickUntilDbSave wi now, None =>
      self <- get ;;
      if is_tracking self then _tracking_loop_body_until_db_save wi now
      else ret None
  | TickUntilDbSave _ _, Some _ => ret waiting
  | TickFromDbSave, Some su => _tracking_loop_body_from_db_save su ;; ret None
  | TickFromDbSave, None => ret None
  end.

Fixpoint run_slices (xs : list slice) (waiting : option suspended)
    : M (option suspended) :=
  match xs with
  | [] => ret waiting
  | x :: rest => w <- run_slice x waiting ;; run_slices rest w
  end.

End WithCallbacks.

(** What is handed to [db_save] and to [ws_broadcast] when the session of
    [app_name] from [start_time] to [end_time] is closed on [self]. *)
Definition close_args (app_name window_title : string)
    (start_time end_time : Q) : save_args :=
  let normalized_app := normalize_app_name app_name in
  {| sa_app_name := normalized_app;
     sa_window_title := sanitize_window_title window_title default_max_length;
     sa_start_time := start_time;
     sa_end_time := end_time;
     sa_duration_sec := py_int (end_time - start_time);
     sa_category := get_app_category normalized_app |}.

Definition close_event (self : RealtimeTracker) (app_name window_title : string)
    (start_time end_time : Q) : event :=
  let normalized_app := normalize_app_name app_name in
  session_end normalized_app
    (sanitize_window_title window_title default_max_length)
    (py_int (end_time - start_time)) start_time end_time (platform self)
    (get_app_category normalized_app).

Definition close_key (app_name : string) (start_time : Q) : string :=
  session_key (normalize_app_name app_name) start_time.

(** The calls of a close that goes through. *)
Definition close_calls (cb : callbacks) (self : RealtimeTracker) (h : list effect)
    (app_name window_title : string) (start_time end_time : Q) : list effect :=
  let saved :=
    DbSave (close_args app_name window_title start_time end_time)
      (db_save_returns cb h
         (close_args app_name window_title start_time end_time)) in
  [ saved;
    WsBroadcast (close_event self app_name window_title start_time end_time)
      (ws_broadcast_returns cb (h ++ [saved])%list
         (close_event self app_name window_title start_time end_time)) ].

(** The tracker once the session of the window [wi] is opened at
    [current_time], and the [session_start] message sent for it. *)
Definition opened (wi : window_info) (current_time : Q)
    (self : RealtimeTracker) : RealtimeTracker :=
  set_last_heartbeat_time (Some current_time)
    (set_session_start_time (Some current_time)
       (set_current_window_title (Some (wi_window_title wi))
          (set_current_app (Some (wi_app_name wi)) self))).

Definition start_event (wi : window_info) (current_time : Q) : event :=
  let normalized_app := normalize_app_name (wi_app_name wi) in
  session_start normalized_app
    (sanitize_window_title (wi_window_title wi) default_max_length)
    (get_app_category normalized_app) current_time.

(** The tracker once its session is reset by [_handle_idle]. *)
Definition reset_session (self : RealtimeTracker) : RealtimeTracker :=
  set_session_start_time None
    (set_current_window_title None (set_current_app None self)).

(** The interval of the closed session that a call carries. *)
Definition closed_interval (e : effect) : option (Q * Q) :=
  match e with
  | DbSave a _ => Some (sa_start_time a, sa_end_time a)
  | WsBroadcast (session_end _ _ _ start end_ _ _) _ => Some (start, end_)
  | WsBroadcast _ _ => None
  end.

(** The passes of the tracking loop as turns. *)
Definition ticks (passes : list (option window_info * Q)) : list turn :=
  map (fun p => Tick p.1 p.2) passes.

(** What [get_current_session()] returns when it is not [None]; the clock
    reads [current_time]. *)
Record session_view : Type := mk_view {
  sv_app : string;
  sv_window_title : string;
  sv_elapsed_sec : Z;
  sv_category : string;
  sv_start_time : Q;
  sv_is_idle : bool
}.

Definition get_current_session (current_time : Q) (self : RealtimeTracker)
    : option session_view :=
  match open_session self with
  | None => None
  | Some (app, start) =>
      let normalized_app := normalize_app_name app in
      Some {| sv_app := normalized_app;
              sv_window_title :=
                sanitize_window_title (or_empty (current_window_title self))
                  default_max_length;
              sv_elapsed_sec := py_int (current_time - start);
              sv_category := get_app_category normalized_app;
              sv_start_time := start;
              sv_is_idle := IdleDetector.is_user_idle (idle_detector self) |}
  end.

(** The [heartbeat] message and the calls of [ws_broadcast] that carry
    one. *)
Record heartbeat : Type := mk_heartbeat {
  hb_app : string;
  hb_window_title : string;
  hb_elapsed_sec : Z;
  hb_category : string;
  hb_timestamp : Q
}.

Inductive heartbeat_call : Type :=
| WsHeartbeat (p : heartbeat) (returned : bool).

(** One pass through the body of the loop of [_heartbeat_loop], after its
    sleep; [returns] is the behaviour of [ws_broadcast] on heartbeats. *)
Definition _heartbeat_loop_body
    (returns : list heartbeat_call -> heartbeat -> bool) (current_time : Q)
    : Coroutine.M RealtimeTracker heartbeat_call unit :=
  try_except
    (self <- get ;;
     match open_session self with
     | Some (app, start) =>
         if negb (IdleDetector.is_user_idle (idle_detector self)) then
           let normalized_app := normalize_app_name app in
           let p :=
             {| hb_app := normalized_app;
                hb_window_title :=
                  sanitize_window_title (or_empty (current_window_title self))
                    default_max_length;
                hb_elapsed_sec := py_int (current_time - start);
                hb_category := get_app_category normalized_app;
                hb_timestamp := current_time |} in
           try_except (call (fun h => returns h p) (WsHeartbeat p)) (ret tt)
         else ret tt
     | None => ret tt
     end)
    (ret tt).

(** The steps the coroutines of a tracker are made of: a run of the close
    path, the announcement of a session that starts or of an idle episode,
    and an assignment to fields other than [last_saved_session] and
    [platform]. *)
Inductive step (cb : callbacks)
    : RealtimeTracker * list effect -> RealtimeTracker * list effect -> Prop :=
| step_close app title start end_ self h :
    step cb (self, h)
      (state_of (_save_and_broadcast_session cb app title start end_ self h),
       history_of (_save_and_broadcast_session cb app title start end_ self h))
| step_start wi now b self h :
    step cb (self, h) (self, (h ++ [WsBroadcast (start_event wi now) b])%list)
| step_idle sec ts b self h :
    step cb (self, h) (self, (h ++ [WsBroadcast (idle sec ts) b])%list)
| step_assign (f : RealtimeTracker -> RealtimeTracker) self h :
    last_saved_session (f self) = last_saved_session self ->
    platform (f self) = platform self ->
    step cb (self, h) (f self, h).

(** A call is sound when its fields are those of a session: a recorded
    duration of at least one second, a title without control characters and
    of at most 203 characters, and the category of the application. *)
Definition sound_title (title : string) : Prop :=
  control_free title = true /\ (String.length title <= 203)%nat.

Definition sound_call (e : effect) : Prop :=
  match e with
  | DbSave a _ =>
      (1 <= sa_duration_sec a)%Z /\
      sound_title (sa_window_title a) /\
      sa_category a = get_app_category (sa_app_name a)
  | WsBroadcast (session_end app title duration _ _ _ category) _ =>
      (1 <= duration)%Z /\
      sound_title title /\ category = get_app_category app
  | WsBroadcast (session_start app title category _) _ =>
      sound_title title /\ category = get_app_category app
  | WsBroadcast (idle _ _) _ => True
  end.

(** The [session_end] message that matches a saved record. *)
Definition matches (a : save_args) (e : event) : Prop :=
  match e with
  | session_end app title duration start end_ _ category =>
      app = sa_app_name a /\ title = sa_window_title a /\
      duration = sa_duration_sec a /\ start = sa_start_time a /\
      end_ = sa_end_time a /\ category = sa_category a
  | _ => False
  end.

(** In a history that comes after the saves of the records [saved], every
    [session_end] that is broadcast matches a record saved before it. *)
Fixpoint announced (saved : list save_args) (h : list effect) : Prop :=
  match h with
  | [] => True
  | DbSave a _ :: rest => announced (a :: saved) rest
  | WsBroadcast e _ :: rest =>
      match e with
      | session_end _ _ _ _ _ _ _ => exists a, a ∈ saved /\ matches a e
      | _ => True
      end /\ announced saved rest
  end.

(** The session key of a saved record, and the keys saved along a history,
    oldest first. *)
Definition saved_key (a : save_args) : string :=
  session_key (sa_app_name a) (sa_start_time a).

Definition saved_keys (h : list effect) : list string :=
  omap (fun e => match e with
                 | DbSave a _ => Some (saved_key a)
                 | WsBroadcast _ _ => None
                 end) h.

Fixpoint no_repeat (keys : list string) : Prop :=
  match keys with
  | [] => True
  | k :: rest =>
      match rest with
      | [] => True
      | k' :: _ => k <> k' /\ no_repeat rest
      end
  end.

(** The recorded key is the key of the last save, and no two saves in a
    row carry the same key. *)
Definition keys_consistent (x : RealtimeTracker * list effect) : Prop :=
  last_saved_session x.1 = last (saved_keys x.2) /\ no_repeat (saved_keys x.2).

End Tracker.

(* ===================================================================== *)
(** ** db/database.py *)
(* ===================================================================== *)

Module Database.
Import PyStr.

(** How one pass through the [try] block (build the record, [db.add],
    [db.commit], [db.refresh]) ends. *)
Inductive attempt_result : Type :=
| Committed
| OperationalError (message : string)     (* [str(e)] *)
| OtherException.

(** What the function does to the session and to the clock. *)
Inductive db_call : Type :=
| TryCommit (attempt : nat)
| Rollback
| Sleep (wait_time : Q).

(** ["database is locked" in str(e).lower()] *)
Definition is_locked (message : string) : bool :=
  contains "database is locked" (lower message).

(** [(2 ** attempt) * 0.1] *)
Definition backoff (attempt : nat) : Q :=
  (inject_Z (2 ^ Z.of_nat attempt) * (1 # 10))%Q.

(** The [for] loop over the attempts still to make.  [db] tells how the
    [try] block ends at each attempt. *)
Fixpoint retry_loop (db : nat -> attempt_result) (max_retries : Z)
    (attempts : list nat) : bool * list db_call :=
  match attempts with
  | [] => (false, [])
  | attempt :: rest =>
      match db attempt with
      | Committed => (true, [TryCommit attempt])
      | OperationalError message =>
          if is_locked message then
            let wait_time := backoff attempt in
            if (Z.of_nat attempt =? max_retries - 1)%Z
            then (false, [TryCommit attempt; Rollback; Sleep wait_time])
            else
              let r := retry_loop db max_retries rest in
              (r.1, TryCommit attempt :: Rollback :: Sleep wait_time :: r.2)
          else (false, [TryCommit attempt; Rollback])
      | OtherException => (false, [TryCommit attempt; Rollback])
      end
  end.

(** [save_usage_with_retry(db, ..., max_retries)]: the record fields play no
    part in the control flow. *)
Definition save_usage_with_retry (db : nat -> attempt_result)
    (max_retries : Z) : bool * list db_call :=
  retry_loop db max_retries (seq 0 (Z.to_nat max_retries)).

(** The default value of [max_retries]. *)
Definition default_max_retries : Z := 3.

Definition is_try (c : db_call) : bool :=
  match c with
  | TryCommit _ => true
  | _ => false
  end.

(** The number of attempts made. *)
Definition attempts_made (calls : list db_call) : nat :=
  length (filter (fun c => is_try c = true) calls).

(** The delays slept, in order. *)
Fixpoint delays (calls : list db_call) : list Q :=
  match calls with
  | [] => []
  | Sleep w :: rest => w :: delays rest
  | _ :: rest => delays rest
  end.

(** An oracle from the list of the first results; later attempts commit. *)
Definition results (rs : list attempt_result) (attempt : nat) : attempt_result :=
  default Committed (rs !! attempt).

(** The attempt fails on a busy lock. *)
Definition lock_busy (r : attempt_result) : bool :=
  match r with
  | OperationalError message => is_locked message
  | _ => false
  end.

(** The attempt fails for another reason: another [OperationalError], or any
    other exception. *)
Definition hard_failure (r : attempt_result) : bool :=
  match r with
  | Committed => false
  | OperationalError message => negb (is_locked message)
  | OtherException => true
  end.

(** The attempts that failed on a busy lock, among the calls made. *)
Definition is_busy_try (db : nat -> attempt_result) (c : db_call) : bool :=
  match c with
  | TryCommit attempt => lock_busy (db attempt)
  | _ => false
  end.

Definition busy_attempts (db : nat -> attempt_result) (calls : list db_call)
    : nat :=
  length (filter (fun c => is_busy_try db c = true) calls).

Definition is_rollback (c : db_call) : bool :=
  match c with
  | Rollback => true
  | _ => false
  end.

(** The number of rollbacks. *)
Definition rollbacks (calls : list db_call) : nat :=
  length (filter (fun c => is_rollback c = true) calls).

End Database.

(* ===================================================================== *)
(** ** main.py: ConnectionManager *)
(* ===================================================================== *)

Module ConnectionManager.
Import Coroutine.
Local Open Scope coroutine_scope.

(** A connection object, known by its identity. *)
Definition WebSocket : Type := positive.

Section WithMessages.
Context {message : Type}.

(** A call [connection.send_json(message)]; the flag tells whether it
    returned ([true]) or raised ([false]). *)
Inductive send : Type :=
| SendJson (connection : WebSocket) (m : message) (returned : bool).

(** The behaviour of the connections, free to depend on the calls made
    before. *)
Variable send_json_returns : list send -> WebSocket -> message -> bool.

(** The state is [self.active_connections]. *)
Abbreviation M := (Coroutine.M (gset WebSocket) send).

Definition send_json (connection : WebSocket) (m : message) : M unit :=
  call (fun h => send_json_returns h connection m) (SendJson connection m).

(** [disconnect(websocket)]: [set.discard] *)
Definition disconnect (websocket : WebSocket) : M unit :=
  modify (fun active => active ∖ {[websocket]}).

(** [for x in xs: acc = body(x, acc)] *)
Fixpoint for_each {A B} (xs : list A) (acc : B) (body : A -> B -> M B) : M B :=
  match xs with
  | [] => ret acc
  | x :: rest => acc' <- body x acc ;; for_each rest acc' body
  end.

(** [connect(websocket)]: [accepted] tells whether [websocket.accept()]
    returns; when it raises, nothing catches it. *)
Definition connect (accepted : bool) (websocket : WebSocket) : M unit :=
  if accepted then modify (fun active => active ∪ {[websocket]}) else raise.

(** What another coroutine does to the registry while [broadcast] is
    suspended in the await of a send: nothing ([None]), the [disconnect] of
    a connection, as the endpoint of a client that goes away does in its
    [finally], or the [connect] of an accepted one.  At most one of them is
    taken per await. *)
Inductive change : Type :=
| Disconnects (websocket : WebSocket)
| Connects (websocket : WebSocket).

Definition meanwhile (other : option change) : M unit :=
  match other with
  | Some (Disconnects websocket) => disconnect websocket
  | Some (Connects websocket) => connect true websocket
  | None => ret tt
  end.

(** [for connection in self.active_connections: ...], the loop over the
    set itself.  [todo] are the connections the iterator has still to
    give, in the order of [elements]; [used] is the size of the set when
    the iterator was made: every request for the next connection, the last
    one included, first compares it with the size of the set and raises
    [RuntimeError] when they differ, outside of any [try].  [others] tells,
    send after send, what happens to the registry during the await. *)
Fixpoint send_to_each (m : message) (todo : list WebSocket) (used : nat)
    (others : list (option change)) (disconnected : gset WebSocket)
    : M (gset WebSocket) :=
  active <- get ;;
  if negb (size active =? used)%nat then raise else
  match todo with
  | [] => ret disconnected
  | connection :: rest =>
      disconnected' <-
        try_except
          (meanwhile (hd None others) ;; send_json connection m ;;
           ret disconnected)
          (ret ({[connection]} ∪ disconnected)) ;;
      send_to_each m rest used (tl others) disconnected'
  end.

(** [broadcast(message)], the registry being changed by [others] during
    the sends. *)
Definition broadcast (others : list (option change)) (m : message) : M unit :=
  active <- get ;;
  if bool_decide (active = ∅) then ret tt else
  disconnected <-
    send_to_each m (elements active) (size active) others
      (∅ : gset WebSocket) ;;
  _ <- for_each (elements disconnected) tt
         (fun conn _ => disconnect conn) ;;
  ret tt.

End WithMessages.

Arguments send : clear implicits.

(** The connections a list of calls delivered to, and those it failed on. *)
Definition delivered {message} (calls : list (send message)) : list WebSocket :=
  omap (fun c => match c with SendJson w _ true => Some w | _ => None end) calls.

Definition failed {message} (calls : list (send message)) : list WebSocket :=
  omap (fun c => match c with SendJson w _ false => Some w | _ => None end) calls.

Definition connection_of {message} (c : send message) : WebSocket :=
  match c with SendJson w _ _ => w end.


(** The calls made when [m] is sent to the connections [l] in turn, on top
    of the history [h]. *)
Fixpoint sends_to {message}
    (send_json_returns : list (send message) -> WebSocket -> message -> bool)
    (m : message) (l : list WebSocket) (h : list (send message))
    : list (send message) :=
  match l with
  | [] => []
  | w :: rest =>
      let c := SendJson w m (send_json_returns h w m) in
      c :: sends_to send_json_returns m rest (h ++ [c])%list
  end.

(** The registry after a change. *)
Definition changed (active : gset WebSocket) (c : change) : gset WebSocket :=
  match c with
  | Disconnects w => active ∖ {[w]}
  | Connects w => active ∪ {[w]}
  end.

(** The registry after the await of one send. *)
Definition after (other : option change) (active : gset WebSocket)
    : gset WebSocket :=
  match other with
  | Some c => changed active c
  | None => active
  end.

(** A change that leaves the registry [active] as it is: the [disconnect]
    of a connection that is not in it, the [connect] of one that is. *)
Definition without_effect (active : gset WebSocket) (c : change) : Prop :=
  match c with
  | Disconnects w => w ∉ active
  | Connects w => w ∈ active
  end.

(** The registry [active] is left as it is by all of [others]. *)
Definition undisturbed (active : gset WebSocket)
    (others : list (option change)) : Prop :=
  Forall (fun other => match other with
                       | Some c => without_effect active c
                       | None => True
                       end) others.

(** Connections that fail or not whatever was sent before. *)
Definition stable {message} (fails : WebSocket -> bool)
    (h : list (send message)) (w : WebSocket) (m : message) : bool :=
  negb (fails w).

End ConnectionManager.

(* ===================================================================== *)
(** ** main.py: the callbacks given to the tracker *)
(* ===================================================================== *)

Module Main.
Import Coroutine ConnectionManager Database.
Local Open Scope coroutine_scope.

Section WithMessages.
Context {message : Type}.
Variable send_json_returns : list (send message) -> WebSocket -> message -> bool.

(** [ws_broadcast_callback(message)] *)
Definition ws_broadcast_callback (others : list (option change))
    (m : message) : Coroutine.M (gset WebSocket) (send message) unit :=
  broadcast send_json_returns others m.

(** [save_usage_callback(...)], on the state of [manager].
    [session_local_returns] and [close_returns] tell whether [SessionLocal()]
    and [db.close()] return; [db] is the behaviour of the attempts made by
    [save_usage_with_retry]; [summary_update] is the message built from the
    three analytics queries, which catch their own exceptions; [others] is
    what happens to the registry during the sends of the broadcast.  The
    value returned is what was done to the database session. *)
Definition save_usage_callback (session_local_returns : bool)
    (db : nat -> attempt_result) (summary_update : message)
    (close_returns : bool) (others : list (option change))
    : Coroutine.M (gset WebSocket) (send message) (list db_call) :=
  if negb session_local_returns then raise else
  fun active h =>
    let saved := save_usage_with_retry db default_max_retries in
    let body :=
      if saved.1
      then broadcast send_json_returns others summary_update ;; ret saved.2
      else ret saved.2 in
    match body active h with
    | (o, active', h') =>
        (* finally: db.close() *)
        if close_returns then (o, active', h') else (Raised, active', h')
    end.

End WithMessages.

End Main.

(* ===================================================================== *)
(** ** Concrete trackers, callbacks and inputs *)
(* ===================================================================== *)

Module Scenario.
Import Tracker.

(** Callbacks that always return. *)
Definition cb_ok : callbacks :=
  {| db_save_returns := fun _ _ => true;
     ws_broadcast_returns := fun _ _ => true |}.

(** The persistence callback always raises. *)
Definition cb_db_down : callbacks :=
  {| db_save_returns := fun _ _ => false;
     ws_broadcast_returns := fun _ _ => true |}.

(** A tracker built at time 1000 on Linux. *)
Definition fresh : RealtimeTracker := init "Linux" 1000.

Definition code_window : window_info :=
  {| wi_app_name := "Code.exe"; wi_window_title := "main.py" |}.

Definition chrome_window : window_info :=
  {| wi_app_name := "chrome.exe"; wi_window_title := "Inbox" |}.

(** The same tracker once [start_tracking()] has run, pynput there and both
    listeners hooked, and the first pass of the loop has seen [chrome.exe]
    at time 1010: tracking, not idle, the session of [chrome.exe] open. *)
Definition on_chrome : RealtimeTracker :=
  Coroutine.state_of
    (Coroutine.bind
       (start_tracking true IdleDetector.Hooked IdleDetector.Hooked)
       (fun _ => _tracking_loop cb_ok [(Some chrome_window, 1010%Q)])
       fresh []).

(** A tracker built at time 820 and started; the user touches nothing
    afterwards.  The turns are the passes of the loop at one second each,
    seeing [chrome.exe] twice and [Code.exe] three times, the pass of the
    monitor that finds the user idle at 1005, two idle passes, an input
    event, and a pass that sees [Code.exe] again. *)
Definition started : RealtimeTracker :=
  Coroutine.state_of
    (start_tracking true IdleDetector.Hooked IdleDetector.Hooked
       (init "Linux" 820) []).

Definition day : list turn :=
  [ Tick (Some chrome_window) 1000; Tick (Some chrome_window) 1001;
    Tick (Some code_window) 1002; Tick (Some code_window) 1003;
    Tick (Some code_window) 1004;
    IdleMonitor 1005 1005 1005;
    Tick (Some code_window) 1005; Tick (Some code_window) 1006;
    Activity (1006.5)%Q;
    Tick (Some code_window) 1007 ].

(** Five subscribers; the third one always fails. *)
Definition five : gset ConnectionManager.WebSocket :=
  {[ 1%positive; 2%positive; 3%positive; 4%positive; 5%positive ]}.

Definition third_fails {message}
    (h : list (ConnectionManager.send message))
    (w : ConnectionManager.WebSocket) (m : message) : bool :=
  negb (w =? 3)%positive.

(** Results of the attempts of [save_usage_with_retry]. *)
Definition locked : Database.attempt_result :=
  Database.OperationalError
    "(sqlite3.OperationalError) database is locked".

Definition disk_full : Database.attempt_result :=
  Database.OperationalError
    "(sqlite3.OperationalError) database or disk is full".

End Scenario.

(* ===================================================================== *)
(** * Properties *)
(* ===================================================================== *)

Import PyStr PyNum Utils Coroutine.

(* --------------------------------------------------------------------- *)
(** ** The embedding on the inputs of the repository's tests *)
(* --------------------------------------------------------------------- *)

Example test_normalize_chrome :
  normalize_app_name "chrome.exe" = "Google Chrome" /\
  normalize_app_name "Chrome.exe" = "Google Chrome" /\
  normalize_app_name "chrome" = "Google Chrome".
Proof. repeat split. Qed.

Example test_normalize_vscode :
  normalize_app_name "code.exe" = "Visual Studio Code" /\
  normalize_app_name "Code.exe" = "Visual Studio Code".
Proof. repeat split. Qed.

Example test_normalize_empty : normalize_app_name "" = "UNKNOWN".
Proof. reflexivity. Qed.

Example test_categories :
  get_app_category "Google Chrome" = "Browser" /\
  get_app_category "PyCharm" = "Development" /\
  get_app_category "Unknown App" = "Other".
Proof. repeat split. Qed.

Example test_sanitize_normal :
  sanitize_window_title "main.py - Visual Studio Code" default_max_length
  = "main.py - Visual Studio Code".
Proof. reflexivity. Qed.

Example test_sanitize_long :
  let result := sanitize_window_title (repeat_char "a" 300) 200 in
  (String.length result <= 203)%nat /\ endswith result "..." = true.
Proof. vm_compute. split; [lia | reflexivity]. Qed.

Example test_sanitize_empty : sanitize_window_title "" default_max_length = "".
Proof. reflexivity. Qed.

(** The scenario of a tracked day: what the callbacks see. *)
Example day_history :
  history_of (Tracker.run Scenario.cb_ok Scenario.day Scenario.started [])
  = [ Tracker.WsBroadcast
        (Tracker.session_start "Google Chrome" "Inbox" "Browser" 1000) true;
      Tracker.DbSave
        (Tracker.mk_save "Google Chrome" "Inbox" 1000 1002 2 "Browser") true;
      Tracker.WsBroadcast
        (Tracker.session_end "Google Chrome" "Inbox" 2 1000 1002 "Linux"
           "Browser") true;
      Tracker.WsBroadcast
        (Tracker.session_start "Visual Studio Code" "main.py" "Development"
           1002) true;
      Tracker.DbSave
        (Tracker.mk_save "Visual Studio Code" "main.py" 1002 1005 3
           "Development") true;
      Tracker.WsBroadcast
        (Tracker.session_end "Visual Studio Code" "main.py" 3 1002 1005
           "Linux" "Development") true;
      Tracker.WsBroadcast (Tracker.idle 185 1005) true;
      Tracker.WsBroadcast
        (Tracker.session_start "Visual Studio Code" "main.py" "Development"
           1007) true ].
Proof. vm_compute. reflexivity. Qed.

(* --------------------------------------------------------------------- *)
(** ** Strings *)
(* --------------------------------------------------------------------- *)

Section StringFacts.

Lemma length_append (s1 s2 : string) :
  String.length (s1 ++ s2) = (String.length s1 + String.length s2)%nat.
Proof.
  induction s1 as [|c s1 IH]; simpl; [reflexivity | now rewrite IH].
Qed.

Lemma length_take_le (n : nat) (s : string) :
  (String.length (take n s) <= n)%nat.
Proof.
  revert s; induction n as [|n IH]; intros [|c s]; simpl; try lia.
  specialize (IH s). lia.
Qed.

Lemma length_lstrip_le (s : string) :
  (String.length (lstrip s) <= String.length s)%nat.
Proof.
  induction s as [|c s IH]; simpl; [lia|].
  destruct (isspace c); simpl; lia.
Qed.

Lemma length_rstrip_le (s : string) :
  (String.length (rstrip s) <= String.length s)%nat.
Proof.
  induction s as [|c s IH]; simpl; [lia|].
  destruct (rstrip s) as [|c' r'] eqn:E.
  - destruct (isspace c); simpl; lia.
  - simpl in *. lia.
Qed.

Lemma length_strip_le (s : string) :
  (String.length (strip s) <= String.length s)%nat.
Proof.
  unfold strip. etransitivity; [apply length_rstrip_le | apply length_lstrip_le].
Qed.

Lemma length_slice_to_le (k : Z) (s : string) :
  (0 <= k)%Z -> (Z.of_nat (String.length (slice_to k s)) <= k)%Z.
Proof.
  intros Hk. unfold slice_to.
  destruct (k <? 0)%Z eqn:E; [apply Z.ltb_lt in E; lia|].
  pose proof (length_take_le (Z.to_nat k) s). lia.
Qed.

Variable p : ascii -> bool.

Lemma all_chars_append (s1 s2 : string) :
  all_chars p (s1 ++ s2) = all_chars p s1 && all_chars p s2.
Proof.
  induction s1 as [|c s1 IH]; simpl; [reflexivity|].
  now rewrite IH, andb_assoc.
Qed.

Lemma all_chars_take (n : nat) (s : string) :
  all_chars p s = true -> all_chars p (take n s) = true.
Proof.
  revert s; induction n as [|n IH]; intros [|c s]; simpl; auto.
  intros [Hc Hs]%andb_true_iff. rewrite Hc; simpl. now apply IH.
Qed.

Lemma all_chars_slice_to (k : Z) (s : string) :
  all_chars p s = true -> all_chars p (slice_to k s) = true.
Proof.
  intros H. unfold slice_to. destruct (k <? 0)%Z; now apply all_chars_take.
Qed.

Lemma all_chars_lstrip (s : string) :
  all_chars p s = true -> all_chars p (lstrip s) = true.
Proof.
  induction s as [|c s IH]; simpl; auto.
  intros H. destruct (isspace c); [|exact H].
  apply andb_true_iff in H as [_ H]. now apply IH.
Qed.

Lemma all_chars_rstrip (s : string) :
  all_chars p s = true -> all_chars p (rstrip s) = true.
Proof.
  induction s as [|c s IH]; simpl; auto.
  intros [Hc Hs]%andb_true_iff. specialize (IH Hs).
  destruct (rstrip s) as [|c' r'].
  - destruct (isspace c); simpl; [reflexivity | now rewrite Hc].
  - simpl in *. now rewrite Hc, IH.
Qed.

Lemma all_chars_strip (s : string) :
  all_chars p s = true -> all_chars p (strip s) = true.
Proof.
  intros H. unfold strip. now apply all_chars_rstrip, all_chars_lstrip.
Qed.

End StringFacts.

(* --------------------------------------------------------------------- *)
(** ** sanitize_window_title *)
(* --------------------------------------------------------------------- *)

Lemma control_free_remove_control (s : string) :
  control_free (remove_control s) = true.
Proof.
  unfold control_free.
  induction s as [|c s IH]; simpl; [reflexivity|].
  destruct (is_control c) eqn:E; simpl; [exact IH | now rewrite E, IH].
Qed.

Lemma sanitize_window_title_control_free (title : string) (max_length : Z) :
  control_free (sanitize_window_title title max_length) = true.
Proof.
  unfold sanitize_window_title.
  destruct (negb (truthy_str title)); [reflexivity|].
  apply all_chars_strip.
  destruct (_ >? _)%Z; [|apply control_free_remove_control].
  unfold control_free. rewrite all_chars_append.
  apply andb_true_iff; split; [|reflexivity].
  apply all_chars_slice_to, control_free_remove_control.
Qed.

Lemma sanitize_window_title_length (title : string) (max_length : Z) :
  (0 <= max_length)%Z ->
  (Z.of_nat (String.length (sanitize_window_title title max_length))
   <= max_length + 3)%Z.
Proof.
  intros Hm. unfold sanitize_window_title.
  destruct (negb (truthy_str title)); [simpl; lia|].
  pose proof (length_strip_le
    (if (Z.of_nat (String.length (remove_control title)) >? max_length)%Z
     then slice_to max_length (remove_control title) ++ "..."
     else remove_control title)) as Hs.
  destruct (_ >? _)%Z eqn:E.
  - rewrite length_append in Hs. simpl in Hs.
    pose proof (length_slice_to_le max_length (remove_control title) Hm). lia.
  - assert (Z.of_nat (String.length (remove_control title)) <= max_length)%Z
      by (destruct (Z.gtb_spec (Z.of_nat (String.length (remove_control title)))
                      max_length); [discriminate | lia]).
    lia.
Qed.

(** C9, as stated, fails: on a title of 201 letters the result is the first
    200 letters followed by three dots, 203 characters in all. *)
Lemma C9_counterexample :
  ~ (String.length (sanitize_window_title long_title default_max_length)
     <= 200)%nat.
Proof.
  assert (String.length (sanitize_window_title long_title default_max_length)
          = 203%nat) as -> by (vm_compute; reflexivity).
  lia.
Qed.

(** C9, amended: for every input string, [sanitize_window_title] with the
    default [max_length] of 200 returns a string without any control
    character (U+0000 to U+001F, U+007F to U+009F) and of at most 203
    characters: 200 kept characters and the three dots that mark the cut. *)
Theorem C9_sanitize_window_title_default (title : string) :
  control_free (sanitize_window_title title default_max_length) = true /\
  (String.length (sanitize_window_title title default_max_length) <= 203)%nat.
Proof.
  split; [apply sanitize_window_title_control_free|].
  pose proof (sanitize_window_title_length title default_max_length) as H.
  unfold default_max_length in *. lia.
Qed.

(* --------------------------------------------------------------------- *)
(** ** Truncation of durations *)
(* --------------------------------------------------------------------- *)

Lemma quot_lt_1 (n d : Z) : (0 < d)%Z -> (Z.quot n d < 1)%Z <-> (n < d)%Z.
Proof.
  intros Hd. destruct (Z.lt_ge_cases n 0) as [Hn|Hn].
  - split; [lia|]. intros _.
    assert (Z.quot n d <= 0)%Z; [|lia].
    replace n with (- (- n))%Z by lia.
    rewrite Z.quot_opp_l by lia.
    pose proof (Z.quot_pos (- n) d). lia.
  - rewrite Z.quot_div_nonneg by lia. split; intros H.
    + destruct (Z.lt_ge_cases n d) as [|Hge]; [assumption|].
      pose proof (Z.div_le_lower_bound n d 1). lia.
    + rewrite Z.div_small; lia.
Qed.

Lemma py_int_lt_1 (x : Q) : (py_int x <? 1)%Z = true <-> (x < 1)%Q.
Proof.
  rewrite Z.ltb_lt. unfold py_int, Qlt. simpl.
  rewrite quot_lt_1 by reflexivity. lia.
Qed.

Lemma py_int_ge_1 (x : Q) : (py_int x <? 1)%Z = false <-> (1 <= x)%Q.
Proof.
  rewrite <- not_true_iff_false, py_int_lt_1. split.
  - apply Qnot_lt_le.
  - apply Qle_not_lt.
Qed.

(* --------------------------------------------------------------------- *)
(** ** The close path: _save_and_broadcast_session *)
(* --------------------------------------------------------------------- *)

Section ClosePath.
Import Tracker.
Variable cb : callbacks.

Lemma try_ws_broadcast (e : event) self h :
  try_except (ws_broadcast cb e) (ret tt) self h =
  (Returned tt, self, (h ++ [WsBroadcast e (ws_broadcast_returns cb h e)])%list).
Proof.
  unfold try_except, ws_broadcast, call, ret.
  now destruct (ws_broadcast_returns cb h e).
Qed.

Lemma try_db_save (a : save_args) self h :
  try_except (db_save cb a) (ret tt) self h =
  (Returned tt, self, (h ++ [DbSave a (db_save_returns cb h a)])%list).
Proof.
  unfold try_except, db_save, call, ret.
  now destruct (db_save_returns cb h a).
Qed.

Lemma close_short app_name window_title start_time end_time self h :
  (py_int (end_time - start_time) <? 1)%Z = true ->
  _save_and_broadcast_session cb app_name window_title start_time end_time
    self h = (Returned tt, self, h).
Proof.
  intros H. unfold _save_and_broadcast_session. now rewrite H.
Qed.

Lemma close_duplicate app_name window_title start_time end_time self h :
  is_duplicate (last_saved_session self) (close_key app_name start_time) = true ->
  _save_and_broadcast_session cb app_name window_title start_time end_time
    self h = (Returned tt, self, h).
Proof.
  intros H. unfold _save_and_broadcast_session.
  destruct (_ <? 1)%Z; [reflexivity|].
  unfold bind, get. unfold close_key in H. now rewrite H.
Qed.

Lemma close_fresh app_name window_title start_time end_time self h :
  (py_int (end_time - start_time) <? 1)%Z = false ->
  is_duplicate (last_saved_session self) (close_key app_name start_time) = false ->
  _save_and_broadcast_session cb app_name window_title start_time end_time
    self h =
  (Returned tt,
   set_last_saved_session (Some (close_key app_name start_time)) self,
   (h ++ close_calls cb self h app_name window_title start_time end_time)%list).
Proof.
  intros Hd Hk. unfold _save_and_broadcast_session. rewrite Hd.
  unfold close_key in Hk. unfold bind at 1. unfold get. rewrite Hk.
  unfold close_calls, close_args, close_event, close_key.
  unfold bind, modify, try_except, db_save, ws_broadcast, call, ret.
  destruct (db_save_returns cb h _); simpl;
    destruct (ws_broadcast_returns cb _ _); simpl;
    rewrite <- app_assoc; reflexivity.
Qed.

(** Whatever the callbacks do, the close path returns normally and leaves
    all fields but [last_saved_session] as they were. *)
Lemma close_returns app_name window_title start_time end_time self h :
  let r := _save_and_broadcast_session cb app_name window_title start_time
             end_time self h in
  result_of r = Returned tt /\
  (exists k, state_of r = set_last_saved_session k self) /\
  (exists calls, history_of r = (h ++ calls)%list).
Proof.
  destruct (py_int (end_time - start_time) <? 1)%Z eqn:Hd.
  { rewrite close_short by assumption. simpl. split; [reflexivity|].
    split; [exists (last_saved_session self); now destruct self
           | exists []; now rewrite app_nil_r]. }
  destruct (is_duplicate (last_saved_session self)
              (close_key app_name start_time)) eqn:Hk.
  { rewrite close_duplicate by assumption. simpl. split; [reflexivity|].
    split; [exists (last_saved_session self); now destruct self
           | exists []; now rewrite app_nil_r]. }
  rewrite close_fresh by assumption. simpl. eauto.
Qed.

End ClosePath.

Section ClosePathClaims.
Import Tracker.

(** C2: a close whose [end_time - start_time] is strictly below one second
    is a silent drop: [db_save] is not called, no [session_end] is
    broadcast, and the tracker is left as it was. *)
Theorem C2_short_session_dropped (cb : callbacks)
    (app_name window_title : string) (start_time end_time : Q)
    (self : RealtimeTracker) (h : list effect) :
  (end_time - start_time < 1)%Q ->
  _save_and_broadcast_session cb app_name window_title start_time end_time
    self h = (Returned tt, self, h).
Proof.
  intros H. apply close_short. now apply py_int_lt_1.
Qed.

Lemma C2_short_session_dropped_witness :
  (1010.5 - 1010 < 1)%Q /\
  _save_and_broadcast_session Scenario.cb_ok "chrome.exe" "Inbox" 1010 1010.5
    Scenario.fresh [] = (Returned tt, Scenario.fresh, []).
Proof.
  split; [reflexivity|].
  apply (C2_short_session_dropped Scenario.cb_ok "chrome.exe" "Inbox" 1010
           1010.5 Scenario.fresh []).
  reflexivity.
Defined.

(** After a close of at least one second, the key of the session is the
    recorded one. *)
Lemma close_records_key cb app_name window_title start_time end_time self h :
  (py_int (end_time - start_time) <? 1)%Z = false ->
  last_saved_session
    (state_of (_save_and_broadcast_session cb app_name window_title
                 start_time end_time self h))
  = Some (close_key app_name start_time).
Proof.
  intros Hd.
  destruct (is_duplicate (last_saved_session self)
              (close_key app_name start_time)) eqn:Hk.
  - rewrite close_duplicate by assumption. unfold state_of; simpl.
    destruct (last_saved_session self) as [k|]; [|discriminate].
    simpl in Hk. apply String.eqb_eq in Hk. now subst.
  - rewrite close_fresh by assumption. reflexivity.
Qed.

Lemma is_duplicate_same (k : string) : is_duplicate (Some k) k = true.
Proof. simpl. apply String.eqb_refl. Qed.

(** C5, as stated, fails: a first close dropped as shorter than one second
    does not record the key, so a second close of the same session (same
    application, same start) that lasts two seconds is saved and broadcast. *)
Lemma C5_counterexample :
  ~ (forall (cb : callbacks) (app1 title1 app2 title2 : string)
       (start1 end1 start2 end2 : Q) (self : RealtimeTracker)
       (h : list effect),
       close_key app1 start1 = close_key app2 start2 ->
       let r1 := _save_and_broadcast_session cb app1 title1 start1 end1
                   self h in
       _save_and_broadcast_session cb app2 title2 start2 end2
         (state_of r1) (history_of r1)
       = (Returned tt, state_of r1, history_of r1)).
Proof.
  intros H.
  specialize (H Scenario.cb_ok "chrome.exe" "Inbox" "chrome.exe" "Inbox"
                1010%Q 1010.5%Q 1010%Q 1012%Q Scenario.fresh [] eq_refl).
  vm_compute in H. discriminate H.
Qed.

(** C5, amended: when the close path is invoked twice in succession with
    the same session key (normalized application name and start time
    truncated to whole seconds) and the first invocation is of a session of
    at least one second, the second invocation is a no-op: it calls neither
    [db_save] nor [ws_broadcast] and leaves the tracker as it was. *)
Theorem C5_second_close_is_noop (cb : callbacks)
    (app1 title1 app2 title2 : string) (start1 end1 start2 end2 : Q)
    (self : RealtimeTracker) (h : list effect) :
  close_key app1 start1 = close_key app2 start2 ->
  (1 <= end1 - start1)%Q ->
  let r1 := _save_and_broadcast_session cb app1 title1 start1 end1 self h in
  _save_and_broadcast_session cb app2 title2 start2 end2
    (state_of r1) (history_of r1)
  = (Returned tt, state_of r1, history_of r1).
Proof.
  intros Hkey Hd r1. apply py_int_ge_1 in Hd.
  apply close_duplicate. subst r1.
  rewrite close_records_key by assumption.
  rewrite Hkey. apply is_duplicate_same.
Qed.

Lemma C5_second_close_is_noop_witness :
  let r1 := _save_and_broadcast_session Scenario.cb_ok "chrome.exe" "Inbox"
              1010 1012 Scenario.fresh [] in
  close_key "chrome.exe" 1010 = close_key "Chrome" 1010.7 /\
  (1 <= 1012 - 1010)%Q /\
  length (history_of r1) = 2%nat /\
  _save_and_broadcast_session Scenario.cb_ok "Chrome" "Inbox - 2" 1010.7 1020
    (state_of r1) (history_of r1)
  = (Returned tt, state_of r1, history_of r1).
Proof.
  intros r1. split; [reflexivity|]. split; [discriminate|].
  split; [reflexivity|].
  apply (C5_second_close_is_noop Scenario.cb_ok "chrome.exe" "Inbox"
           "Chrome" "Inbox - 2" 1010 1012 1010.7 1020 Scenario.fresh []).
  - reflexivity.
  - discriminate.
Defined.

(** C10: when [db_save] raises during the close of a session of at least
    one second with a fresh key, the close path returns normally; the calls
    it makes are the failed [db_save] followed by the broadcast of
    [session_end]; the key is already recorded in the state from which the
    save is attempted; and any further close with the same key is a no-op,
    although nothing was saved. *)
Theorem C10_save_failure_is_absorbed (cb : callbacks)
    (app_name window_title : string) (start_time end_time : Q)
    (self : RealtimeTracker) (h : list effect) :
  (1 <= end_time - start_time)%Q ->
  is_duplicate (last_saved_session self) (close_key app_name start_time)
    = false ->
  db_save_returns cb h (close_args app_name window_title start_time end_time)
    = false ->
  let args := close_args app_name window_title start_time end_time in
  let ev := close_event self app_name window_title start_time end_time in
  let keyed := set_last_saved_session
                 (Some (close_key app_name start_time)) self in
  let r := _save_and_broadcast_session cb app_name window_title start_time
             end_time self h in
  result_of r = Returned tt /\
  r = (try_except (db_save cb args) (ret tt) ;;
       try_except (ws_broadcast cb ev) (ret tt))%coroutine keyed h /\
  (exists b, history_of r = (h ++ [DbSave args false; WsBroadcast ev b])%list) /\
  state_of r = keyed /\
  (forall app' title' start' end',
      close_key app' start' = close_key app_name start_time ->
      _save_and_broadcast_session cb app' title' start' end'
        (state_of r) (history_of r)
      = (Returned tt, state_of r, history_of r)).
Proof.
  intros Hd Hk Hdb args ev keyed r.
  pose proof Hd as Hd'. apply py_int_ge_1 in Hd'.
  assert (Hr : r = (Returned tt, keyed,
                    (h ++ close_calls cb self h app_name window_title
                            start_time end_time)%list))
    by (apply close_fresh; assumption).
  split; [now rewrite Hr|]. split.
  { subst r. unfold _save_and_broadcast_session. rewrite Hd'.
    unfold close_key in Hk. unfold bind at 1. unfold get. rewrite Hk.
    reflexivity. }
  split.
  { rewrite Hr. unfold close_calls. rewrite Hdb.
    eexists. reflexivity. }
  split; [now rewrite Hr|].
  intros app' title' start' end' Hsame.
  apply close_duplicate. rewrite Hr. simpl. rewrite Hsame.
  apply String.eqb_refl.
Qed.

Lemma C10_save_failure_is_absorbed_witness :
  let r := _save_and_broadcast_session Scenario.cb_db_down "chrome.exe"
             "Inbox" 1010 1012 Scenario.fresh [] in
  result_of r = Returned tt /\
  history_of r =
    [ DbSave (close_args "chrome.exe" "Inbox" 1010 1012) false;
      WsBroadcast (close_event Scenario.fresh "chrome.exe" "Inbox" 1010 1012)
        true ] /\
  last_saved_session (state_of r) = Some "Google Chrome_1010" /\
  _save_and_broadcast_session Scenario.cb_db_down "chrome.exe" "Inbox" 1010
    1013 (state_of r) (history_of r)
  = (Returned tt, state_of r, history_of r).
Proof.
  intros r.
  destruct (C10_save_failure_is_absorbed Scenario.cb_db_down "chrome.exe"
              "Inbox" 1010 1012 Scenario.fresh [])
    as (Hres & _ & _ & _ & Hagain); try reflexivity; try discriminate.
  split; [exact Hres|]. split; [reflexivity|]. split; [reflexivity|].
  apply (Hagain "chrome.exe" "Inbox" 1010%Q 1013%Q). reflexivity.
Defined.

End ClosePathClaims.

(* --------------------------------------------------------------------- *)
(** ** The tracking loop *)
(* --------------------------------------------------------------------- *)

Section TrackingLoop.
Import Tracker.
Variable cb : callbacks.

(** The close path run on the open session of [self], as the three callers
    do. *)
Lemma close_cases app_name window_title start_time end_time self h :
  let r := _save_and_broadcast_session cb app_name window_title start_time
             end_time self h in
  r = (Returned tt, self, h) \/
  ((1 <= end_time - start_time)%Q /\
   is_duplicate (last_saved_session self) (close_key app_name start_time)
     = false /\
   r = (Returned tt,
        set_last_saved_session (Some (close_key app_name start_time)) self,
        (h ++ close_calls cb self h app_name window_title start_time
                end_time)%list)).
Proof.
  intros r. subst r.
  destruct (py_int (end_time - start_time) <? 1)%Z eqn:Hd.
  { left. now apply close_short. }
  destruct (is_duplicate (last_saved_session self)
              (close_key app_name start_time)) eqn:Hk.
  { left. now apply close_duplicate. }
  right. split; [now apply py_int_ge_1|]. split; [reflexivity|].
  now apply close_fresh.
Qed.

Lemma tick_idle wi now self h :
  IdleDetector.is_user_idle (idle_detector self) = true ->
  _tracking_loop_body cb wi now self h = (Returned tt, self, h).
Proof.
  intros H. unfold _tracking_loop_body, try_except, bind, get. now rewrite H.
Qed.

Lemma tick_no_window now self h :
  IdleDetector.is_user_idle (idle_detector self) = false ->
  _tracking_loop_body cb None now self h = (Returned tt, self, h).
Proof.
  intros H. unfold _tracking_loop_body, try_except, bind, get. now rewrite H.
Qed.

(** A pass that sees another application than [current_app]: the open
    session, if any, goes through the close path with the time of the pass
    as its end, then the new session is opened at that same time. *)
Lemma tick_new_app wi now self h :
  IdleDetector.is_user_idle (idle_detector self) = false ->
  opt_str_neq (Some (wi_app_name wi)) (current_app self) = true ->
  let closing :=
    match open_session self with
    | Some (app, start) =>
        _save_and_broadcast_session cb app
          (or_empty (current_window_title self)) start now self h
    | None => (Returned tt, self, h)
    end in
  _tracking_loop_body cb (Some wi) now self h =
  (Returned tt, opened wi now (state_of closing),
   (history_of closing ++
    [WsBroadcast (start_event wi now)
       (ws_broadcast_returns cb (history_of closing) (start_event wi now))])%list).
Proof.
  intros Hidle Hneq closing.
  unfold _tracking_loop_body, try_except at 1. unfold bind at 1. unfold get.
  rewrite Hidle, Hneq.
  assert (Hc : exists st hc, closing = (Returned tt, st, hc)).
  { subst closing. destruct (open_session self) as [[app start]|]; [|eauto].
    destruct (close_cases app (or_empty (current_window_title self)) start
                now self h) as [->|(_ & _ & ->)]; eauto. }
  destruct Hc as (st & hc & Hc).
  unfold bind at 1.
  replace (match open_session self with
           | Some (app, start) =>
               _save_and_broadcast_session cb app
                 (or_empty (current_window_title self)) start now
           | None => ret ()
           end self h) with closing
    by (subst closing; now destruct (open_session self) as [[? ?]|]).
  rewrite Hc. unfold state_of, history_of; simpl.
  unfold bind, modify, try_except, ws_broadcast, call, opened, start_event.
  destruct (ws_broadcast_returns cb hc _); reflexivity.
Qed.

(** A pass that sees the application of [current_app] again. *)
Lemma tick_same_app wi now self h :
  IdleDetector.is_user_idle (idle_detector self) = false ->
  opt_str_neq (Some (wi_app_name wi)) (current_app self) = false ->
  _tracking_loop_body cb (Some wi) now self h =
  (Returned tt,
   (if opt_str_neq (Some (wi_window_title wi)) (current_window_title self)
    then set_current_window_title (Some (wi_window_title wi)) self
    else self),
   h).
Proof.
  intros Hidle Hsame.
  unfold _tracking_loop_body, try_except, bind, get. rewrite Hidle, Hsame.
  now destruct (opt_str_neq (Some (wi_window_title wi))
                  (current_window_title self)).
Qed.

Lemma open_session_app self app start :
  open_session self = Some (app, start) ->
  current_app self = Some app /\ session_start_time self = Some start /\
  truthy_str app = true /\ truthy_float start = true.
Proof.
  unfold open_session.
  destruct (current_app self) as [a|]; [|discriminate].
  destruct (session_start_time self) as [s|]; [|discriminate].
  destruct (truthy_str a && truthy_float s) eqn:E; [|discriminate].
  intros [= -> ->]. apply andb_true_iff in E as [? ?]. auto.
Qed.

Lemma opt_str_neq_Some (a b : string) :
  a <> b -> opt_str_neq (Some a) (Some b) = true.
Proof.
  intros H. simpl. apply negb_true_iff, String.eqb_neq, H.
Qed.

Lemma closed_interval_close_calls self h app title start end_ :
  Forall (fun e => closed_interval e = Some (start, end_))
    (close_calls cb self h app title start end_).
Proof. unfold close_calls. repeat constructor. Qed.

(** C1: a pass that is not idle and sees an application [B] other than the
    application [A] of the open session hands [A]'s session to the close
    path with the time of the pass as [end_time], and opens [B]'s session
    with that same time as [start_time].  Every call the close makes
    carries the interval from [A]'s start to the time of the pass; when the
    session lasted a second and its key is fresh, these calls are the save
    and the [session_end] broadcast; [session_start] for [B] follows. *)
Theorem C1_switch_closes_and_opens_at_same_time
    (self : RealtimeTracker) (h : list effect) (A : string) (start : Q)
    (wi : window_info) (now : Q) :
  IdleDetector.is_user_idle (idle_detector self) = false ->
  open_session self = Some (A, start) ->
  wi_app_name wi <> A ->
  let title := or_empty (current_window_title self) in
  let closing := _save_and_broadcast_session cb A title start now self h in
  let r := _tracking_loop_body cb (Some wi) now self h in
  result_of r = Returned tt /\
  (exists calls b,
      history_of closing = (h ++ calls)%list /\
      Forall (fun e => closed_interval e = Some (start, now)) calls /\
      ((1 <= now - start)%Q ->
       is_duplicate (last_saved_session self) (close_key A start) = false ->
       calls = close_calls cb self h A title start now) /\
      history_of r =
        (h ++ calls ++ [WsBroadcast (start_event wi now) b])%list) /\
  state_of r = opened wi now (state_of closing) /\
  current_app (state_of r) = Some (wi_app_name wi) /\
  session_start_time (state_of r) = Some now.
Proof.
  intros Hidle Hopen Hneq title closing r.
  destruct (open_session_app _ _ _ Hopen) as (Happ & _).
  assert (Hr : r = (Returned tt, opened wi now (state_of closing),
                    (history_of closing ++
                     [WsBroadcast (start_event wi now)
                        (ws_broadcast_returns cb (history_of closing)
                           (start_event wi now))])%list)).
  { subst r. rewrite tick_new_app; try assumption.
    - now rewrite Hopen.
    - rewrite Happ. now apply opt_str_neq_Some. }
  rewrite Hr. unfold result_of, state_of at 1 3 4; simpl.
  split; [reflexivity|]. split; [|auto].
  destruct (close_cases A title start now self h) as [Hc|(Hd & Hk & Hc)];
    fold closing in Hc; rewrite Hc; unfold history_of; simpl.
  - exists [], (ws_broadcast_returns cb h (start_event wi now)).
    split; [now rewrite app_nil_r|]. split; [constructor|]. split; [|reflexivity].
    intros Hd Hk. exfalso.
    apply py_int_ge_1 in Hd.
    pose proof (close_fresh cb A title start now self h Hd Hk) as Hf.
    fold closing in Hf. rewrite Hc in Hf.
    injection Hf as _ Hf. apply (f_equal length) in Hf.
    rewrite length_app in Hf. simpl in Hf. lia.
  - eexists _, _. split; [reflexivity|].
    split; [apply closed_interval_close_calls|].
    split; [reflexivity|]. now rewrite <- app_assoc.
Qed.

End TrackingLoop.

Lemma C1_switch_closes_and_opens_at_same_time_witness :
  let r := Tracker._tracking_loop_body Scenario.cb_ok
             (Some Scenario.code_window) 1015 Scenario.on_chrome [] in
  history_of r =
    [ Tracker.DbSave (Tracker.close_args "chrome.exe" "Inbox" 1010 1015) true;
      Tracker.WsBroadcast
        (Tracker.close_event Scenario.on_chrome "chrome.exe" "Inbox" 1010 1015)
        true;
      Tracker.WsBroadcast (Tracker.start_event Scenario.code_window 1015) true ]
  /\ Tracker.current_app (state_of r) = Some "Code.exe"
  /\ Tracker.session_start_time (state_of r) = Some 1015%Q.
Proof.
  intros r.
  destruct (C1_switch_closes_and_opens_at_same_time Scenario.cb_ok
              Scenario.on_chrome [] "chrome.exe" 1010 Scenario.code_window 1015)
    as (_ & _ & _ & Happ & Hstart);
    [reflexivity | reflexivity | discriminate |].
  split; [reflexivity|]. split; [exact Happ | exact Hstart].
Defined.

Section IdleEpisode.
Import Tracker.
Variable cb : callbacks.

(** C8: on a pass where the user is not idle and the probe returns [None],
    the pass returns with the tracker as it was ([current_app],
    [current_window_title], [session_start_time] and all other fields) and
    without any call to [ws_broadcast] or [db_save]. *)
Theorem C8_probe_none_changes_nothing
    (self : RealtimeTracker) (h : list effect) (now : Q) :
  IdleDetector.is_user_idle (idle_detector self) = false ->
  let r := _tracking_loop_body cb None now self h in
  r = (Returned tt, self, h) /\
  current_app (state_of r) = current_app self /\
  current_window_title (state_of r) = current_window_title self /\
  session_start_time (state_of r) = session_start_time self /\
  history_of r = h.
Proof.
  intros H r. subst r. rewrite tick_no_window by assumption.
  repeat split.
Qed.

Lemma idle_passes_noop passes self h :
  IdleDetector.is_user_idle (idle_detector self) = true ->
  _tracking_loop cb passes self h = (Returned tt, self, h).
Proof.
  intros H. induction passes as [|[wi now] rest IH]; simpl; [reflexivity|].
  unfold bind, get. destruct (is_tracking self); [|reflexivity].
  now rewrite tick_idle.
Qed.

Lemma idle_ticks_noop passes self h :
  IdleDetector.is_user_idle (idle_detector self) = true ->
  run cb (ticks passes) self h = (Returned tt, self, h).
Proof.
  intros H. induction passes as [|[wi now] rest IH]; simpl; [reflexivity|].
  unfold bind at 1. unfold bind at 1. unfold get.
  destruct (is_tracking self); [now rewrite tick_idle | exact IH].
Qed.

(** The pass of the monitor that starts an idle episode while a session is
    open: the session goes through the close path and is reset, then the
    [idle] message is sent. *)
Lemma idle_monitor_fires self h app start t_idle end_idle ts_idle :
  open_session self = Some (app, start) ->
  let d := idle_detector self in
  IdleDetector.is_idle d = false ->
  IdleDetector._monitor_task d && IdleDetector._running d = true ->
  IdleDetector.idle_callback d = true ->
  (inject_Z (IdleDetector.idle_threshold d)
   <= t_idle - IdleDetector.last_activity_time d)%Q ->
  exists k calls b,
    idle_monitor_pass cb t_idle end_idle ts_idle self h =
    (Returned tt,
     reset_session
       (set_last_saved_session k
          (set_idle_detector
             (IdleDetector._monitor_idle_state_body t_idle d).1 self)),
     (h ++ calls ++
      [WsBroadcast
         (idle (py_int (t_idle - IdleDetector.last_activity_time d)) ts_idle)
         b])%list) /\
    IdleDetector.is_idle (IdleDetector._monitor_idle_state_body t_idle d).1
      = true /\
    Forall (fun e => closed_interval e = Some (start, end_idle)) calls.
Proof.
  intros Hopen d Hidle Hrun Hcb Hthr.
  apply Qle_bool_iff in Hthr.
  unfold idle_monitor_pass. unfold bind at 1. unfold get. fold d. rewrite Hrun.
  unfold IdleDetector._monitor_idle_state_body.
  rewrite Hidle, Hthr, Hcb. simpl negb. simpl andb. cbv iota. simpl fst. simpl snd.
  set (d' := IdleDetector.mk _ _ true _ _ _ _ _ _).
  unfold bind at 1. unfold modify at 1.
  unfold try_except, _handle_idle. unfold bind at 1. unfold bind at 1.
  unfold get.
  replace (open_session (set_idle_detector d' self))
    with (Some (app, start)) by (rewrite <- Hopen; reflexivity).
  unfold bind at 1.
  destruct (close_cases cb app
              (or_empty (current_window_title (set_idle_detector d' self)))
              start end_idle (set_idle_detector d' self) h)
    as [Hc|(_ & _ & Hc)]; rewrite Hc.
  - unfold bind, modify. rewrite try_ws_broadcast.
    exists (last_saved_session self), [], (ws_broadcast_returns cb h
      (idle (py_int (t_idle - IdleDetector.last_activity_time d)) ts_idle)).
    split; [|split; [reflexivity|constructor]].
    destruct self; reflexivity.
  - unfold bind, modify. rewrite try_ws_broadcast.
    eexists _, _, _.
    split; [|split; [reflexivity|apply closed_interval_close_calls]].
    rewrite <- app_assoc. reflexivity.
Qed.

End IdleEpisode.

Section IdleEpisodeClaim.
Import Tracker.
Variable cb : callbacks.

Lemma on_activity_not_idle now d :
  IdleDetector.is_idle (IdleDetector._on_activity now d).1 = false.
Proof.
  unfold IdleDetector._on_activity.
  destruct (IdleDetector.is_idle d) eqn:E; simpl; [reflexivity | now rewrite ?E].
Qed.

(** An idle episode that starts between two passes of the loop.  While
    the idle detector reports idle, the passes of the tracking loop change
    nothing and call nothing, whatever the probe returns.  And when the
    episode starts with a session of [A] open, then the user comes back
    with [A] still in front, the pass that sees it opens a session whose
    [start_time] is the time of that pass, and announces it with
    [session_start]: the session from before the episode, closed and reset
    when the episode started, is not resumed. *)
Lemma idle_episode_between_passes
    (self : RealtimeTracker) (h : list effect) (A : string) (start0 : Q)
    (t_idle end_idle ts_idle : Q)
    (idle_passes : list (option window_info * Q))
    (t_active : Q) (wi : window_info) (t_back : Q) :
  is_tracking self = true ->
  open_session self = Some (A, start0) ->
  wi_app_name wi = A ->
  let d := idle_detector self in
  IdleDetector.is_idle d = false ->
  IdleDetector._monitor_task d && IdleDetector._running d = true ->
  IdleDetector.idle_callback d = true ->
  (inject_Z (IdleDetector.idle_threshold d)
   <= t_idle - IdleDetector.last_activity_time d)%Q ->
  let r1 := run cb [IdleMonitor t_idle end_idle ts_idle] self h in
  let r2 := run cb (ticks idle_passes) (state_of r1) (history_of r1) in
  let r3 := run cb [Activity t_active; Tick (Some wi) t_back]
              (state_of r2) (history_of r2) in
  (forall self' h' passes,
      IdleDetector.is_user_idle (idle_detector self') = true ->
      _tracking_loop cb passes self' h' = (Returned tt, self', h') /\
      run cb (ticks passes) self' h' = (Returned tt, self', h')) /\
  IdleDetector.is_user_idle (idle_detector (state_of r1)) = true /\
  open_session (state_of r1) = None /\
  r2 = (Returned tt, state_of r1, history_of r1) /\
  result_of r3 = Returned tt /\
  IdleDetector.is_user_idle (idle_detector (state_of r3)) = false /\
  current_app (state_of r3) = Some A /\
  session_start_time (state_of r3) = Some t_back /\
  history_of r3 =
    (history_of r1 ++
     [WsBroadcast (start_event wi t_back)
        (ws_broadcast_returns cb (history_of r1) (start_event wi t_back))])%list.
Proof.
  intros Htrack Hopen HA d Hidle Hrun Hcb Hthr r1 r2 r3.
  split.
  { intros self' h' passes H'. split;
      [now apply idle_passes_noop | now apply idle_ticks_noop]. }
  destruct (idle_monitor_fires cb self h A start0 t_idle end_idle ts_idle
              Hopen Hidle Hrun Hcb Hthr)
    as (k & calls & b & Hpass & Hidle' & _).
  fold d in Hpass, Hidle'.
  set (d' := (IdleDetector._monitor_idle_state_body t_idle d).1) in *.
  set (st1 := reset_session (set_last_saved_session k
                               (set_idle_detector d' self))) in *.
  assert (Hr1 : r1 = (Returned tt, st1,
                      (h ++ calls ++
                       [WsBroadcast
                          (idle (py_int (t_idle
                                         - IdleDetector.last_activity_time d))
                             ts_idle) b])%list)).
  { subst r1. simpl. unfold bind. simpl. now rewrite Hpass. }
  assert (Hst1 : IdleDetector.is_user_idle (idle_detector st1) = true)
    by exact Hidle'.
  assert (Hr2 : r2 = (Returned tt, state_of r1, history_of r1)).
  { subst r2. apply idle_ticks_noop. now rewrite Hr1. }
  split; [now rewrite Hr1|]. split; [now rewrite Hr1|]. split; [exact Hr2|].
  set (h1 := (h ++ calls ++ _)%list) in Hr1.
  set (st2 := set_idle_detector
                (IdleDetector._on_activity t_active (idle_detector st1)).1 st1).
  assert (Hrun3 : run cb [Activity t_active; Tick (Some wi) t_back] st1 h1
                  = (Returned tt, opened wi t_back st2,
                     (h1 ++ [WsBroadcast (start_event wi t_back)
                               (ws_broadcast_returns cb h1
                                  (start_event wi t_back))])%list)).
  { simpl. unfold bind at 1. unfold input_activity, modify. fold st2.
    unfold bind at 1. unfold bind at 1. unfold get.
    replace (is_tracking st2) with true by (symmetry; exact Htrack).
    rewrite tick_new_app.
    - reflexivity.
    - apply on_activity_not_idle.
    - reflexivity. }
  assert (Hr3 : r3 = (Returned tt, opened wi t_back st2,
                      (h1 ++ [WsBroadcast (start_event wi t_back)
                                (ws_broadcast_returns cb h1
                                   (start_event wi t_back))])%list)).
  { subst r3. rewrite Hr2, Hr1. exact Hrun3. }
  rewrite Hr3, Hr1. unfold result_of, state_of, history_of.
  cbn [fst snd].
  split; [reflexivity|]. split; [apply on_activity_not_idle|].
  split; [now rewrite <- HA|]. split; reflexivity.
Qed.

(** The two halves of the close make the close. *)
Lemma close_cut app title start end_ self h :
  _save_and_broadcast_session cb app title start end_ self h =
  (saving <- _save_and_broadcast_session_until_db_save app title start end_ ;;
   match saving with
   | Some a => _save_and_broadcast_session_from_db_save cb a
   | None => ret tt
   end)%coroutine self h.
Proof.
  unfold _save_and_broadcast_session,
    _save_and_broadcast_session_until_db_save,
    _save_and_broadcast_session_from_db_save.
  destruct (py_int (end_ - start) <? 1)%Z; [reflexivity|].
  unfold bind, get, modify, ret.
  destruct (is_duplicate (last_saved_session self) _); [reflexivity|].
  cbn [sa_app_name sa_window_title sa_duration_sec sa_start_time sa_end_time
       sa_category].
  fold (@ret RealtimeTracker effect unit tt). rewrite try_db_save.
  reflexivity.
Qed.

(** A pass that waits in the save of its close: the key of the session is
    recorded, nothing is called yet. *)
Lemma tick_until_db_save_waits wi now self h A start0 :
  IdleDetector.is_user_idle (idle_detector self) = false ->
  open_session self = Some (A, start0) ->
  wi_app_name wi <> A ->
  (py_int (now - start0) <? 1)%Z = false ->
  is_duplicate (last_saved_session self) (close_key A start0) = false ->
  _tracking_loop_body_until_db_save cb (Some wi) now self h =
  (Returned
     (Some {| su_saving :=
                close_args A (or_empty (current_window_title self)) start0 now;
              su_window_info := wi;
              su_current_time := now |}),
   set_last_saved_session (Some (close_key A start0)) self, h).
Proof.
  intros Hidle Hopen Hneq Hd Hk.
  destruct (open_session_app _ _ _ Hopen) as (Happ & _).
  unfold _tracking_loop_body_until_db_save, try_except.
  unfold bind at 1. unfold get at 1. rewrite Hidle, Hopen, Happ.
  rewrite (opt_str_neq_Some _ _ Hneq).
  unfold bind at 1. unfold _save_and_broadcast_session_until_db_save.
  rewrite Hd. unfold bind at 1. unfold get. unfold close_key in Hk.
  rewrite Hk. reflexivity.
Qed.

(** The rest of a pass that waited: the save, the [session_end] message,
    then the session of the application seen before the wait is opened and
    announced, whatever has happened to the tracker meanwhile. *)
Lemma tick_from_db_save su self h :
  let a := su_saving su in
  let ended :=
    session_end (sa_app_name a) (sa_window_title a) (sa_duration_sec a)
      (sa_start_time a) (sa_end_time a) (platform self) (sa_category a) in
  let started := start_event (su_window_info su) (su_current_time su) in
  let h1 := (h ++ [DbSave a (db_save_returns cb h a)])%list in
  let h2 := (h1 ++ [WsBroadcast ended (ws_broadcast_returns cb h1 ended)])%list in
  _tracking_loop_body_from_db_save cb su self h =
  (Returned tt, opened (su_window_info su) (su_current_time su) self,
   (h2 ++ [WsBroadcast started (ws_broadcast_returns cb h2 started)])%list).
Proof.
  intros a ended started h1 h2.
  unfold _tracking_loop_body_from_db_save,
    _save_and_broadcast_session_from_db_save, _tracking_loop_body_after_close.
  unfold try_except at 1. unfold bind at 1. unfold bind at 1.
  rewrite try_db_save. unfold bind at 1. unfold get.
  rewrite try_ws_broadcast.
  unfold bind, modify. rewrite try_ws_broadcast. reflexivity.
Qed.

(** The pass of the monitor that starts an idle episode right after the
    key of the open session has been recorded: the close is skipped as a
    duplicate, the session is reset and the [idle] message sent. *)
Lemma idle_monitor_fires_after_key self h A start0 t_idle end_idle ts_idle :
  open_session self = Some (A, start0) ->
  last_saved_session self = Some (close_key A start0) ->
  let d := idle_detector self in
  IdleDetector.is_idle d = false ->
  IdleDetector._monitor_task d && IdleDetector._running d = true ->
  IdleDetector.idle_callback d = true ->
  (inject_Z (IdleDetector.idle_threshold d)
   <= t_idle - IdleDetector.last_activity_time d)%Q ->
  let gone := idle (py_int (t_idle - IdleDetector.last_activity_time d))
                ts_idle in
  idle_monitor_pass cb t_idle end_idle ts_idle self h =
  (Returned tt,
   reset_session
     (set_idle_detector (IdleDetector._monitor_idle_state_body t_idle d).1
        self),
   (h ++ [WsBroadcast gone (ws_broadcast_returns cb h gone)])%list).
Proof.
  intros Hopen Hkey d Hidle Hrun Hcb Hthr gone.
  apply Qle_bool_iff in Hthr.
  unfold idle_monitor_pass. unfold bind at 1. unfold get. fold d. rewrite Hrun.
  unfold IdleDetector._monitor_idle_state_body.
  rewrite Hidle, Hthr, Hcb. simpl negb. simpl andb. cbv iota.
  simpl fst. simpl snd.
  set (d' := IdleDetector.mk _ _ true _ _ _ _ _ _).
  unfold bind at 1. unfold modify at 1.
  unfold try_except, _handle_idle. unfold bind at 1. unfold bind at 1.
  unfold get.
  replace (open_session (set_idle_detector d' self))
    with (Some (A, start0)) by (rewrite <- Hopen; reflexivity).
  unfold bind at 1.
  rewrite close_duplicate.
  - unfold bind, modify. rewrite try_ws_broadcast. reflexivity.
  - replace (last_saved_session (set_idle_detector d' self))
      with (Some (close_key A start0)) by (rewrite <- Hkey; reflexivity).
    apply is_duplicate_same.
Qed.

Lemma run_one_tick wi now self h s' h' :
  is_tracking self = true ->
  _tracking_loop_body cb wi now self h = (Returned tt, s', h') ->
  run cb [Tick wi now] self h = (Returned tt, s', h').
Proof.
  intros Ht E. cbn [run run_turn]. unfold bind, get. now rewrite Ht, E.
Qed.

Lemma run_cut_tick wi now self h o s1 h1 s' h' :
  is_tracking self = true ->
  _tracking_loop_body_until_db_save cb wi now self h = (Returned o, s1, h1) ->
  match o with
  | Some su => _tracking_loop_body_from_db_save cb su s1 h1
  | None => (Returned tt, s1, h1)
  end = (Returned tt, s', h') ->
  run_slices cb [TickUntilDbSave wi now; TickFromDbSave] None self h
  = (Returned None, s', h').
Proof.
  intros Ht E1 E2. cbn [run_slices run_slice]. unfold bind at 1.
  unfold bind at 1. unfold get. rewrite Ht, E1.
  destruct o as [su|].
  - unfold bind. rewrite E2. reflexivity.
  - injection E2 as -> ->. reflexivity.
Qed.

(** A pass cut at the save of its close and resumed at once is the pass. *)
Lemma tick_cut wi now self h :
  let r := run cb [Tick wi now] self h in
  run_slices cb [TickUntilDbSave wi now; TickFromDbSave] None self h
  = (Returned None, state_of r, history_of r).
Proof.
  intros r. subst r.
  destruct (is_tracking self) eqn:Ht.
  2:{ cbn [run run_turn run_slices run_slice]. unfold bind, get.
      now rewrite Ht. }
  destruct (IdleDetector.is_user_idle (idle_detector self)) eqn:Hidle.
  { rewrite (run_one_tick wi now self h self h Ht)
      by (now apply tick_idle).
    apply (run_cut_tick wi now self h None self h); [assumption| |reflexivity].
    unfold _tracking_loop_body_until_db_save, try_except, bind, get.
    now rewrite Hidle. }
  destruct wi as [wi|].
  2:{ rewrite (run_one_tick None now self h self h Ht)
        by (now apply tick_no_window).
      apply (run_cut_tick None now self h None self h);
        [assumption| |reflexivity].
      unfold _tracking_loop_body_until_db_save, try_except, bind, get.
      now rewrite Hidle. }
  destruct (opt_str_neq (Some (wi_app_name wi)) (current_app self)) eqn:Hneq.
  2:{ rewrite (run_one_tick _ _ _ _ _ _ Ht (tick_same_app cb wi now self h
                                              Hidle Hneq)).
      eapply (run_cut_tick (Some wi) now self h None); [assumption| |reflexivity].
      unfold _tracking_loop_body_until_db_save, try_except, bind, get.
      rewrite Hidle, Hneq.
      now destruct (opt_str_neq (Some (wi_window_title wi))
                      (current_window_title self)). }
  rewrite (run_one_tick _ _ _ _ _ _ Ht (tick_new_app cb wi now self h
                                          Hidle Hneq)).
  unfold state_of at 1, history_of at 1. cbn [fst snd].
  assert (Hafter : forall s0 h0,
             _tracking_loop_body_after_close cb wi now s0 h0
             = (Returned tt, opened wi now s0,
                (h0 ++ [WsBroadcast (start_event wi now)
                          (ws_broadcast_returns cb h0 (start_event wi now))])%list)).
  { intros s0 h0. unfold _tracking_loop_body_after_close.
    unfold bind, modify. rewrite try_ws_broadcast. reflexivity. }
  destruct (open_session self) as [[app start]|] eqn:Hopen.
  2:{ eapply (run_cut_tick (Some wi) now self h None);
        [assumption| |reflexivity].
      unfold _tracking_loop_body_until_db_save, try_except.
      unfold bind at 1. unfold get. rewrite Hidle, Hneq, Hopen.
      unfold bind. rewrite Hafter. reflexivity. }
  destruct (py_int (now - start) <? 1)%Z eqn:Hd.
  { rewrite close_short by assumption.
    eapply (run_cut_tick (Some wi) now self h None);
      [assumption| |reflexivity].
    unfold _tracking_loop_body_until_db_save, try_except.
    unfold bind at 1. unfold get. rewrite Hidle, Hneq, Hopen.
    unfold _save_and_broadcast_session_until_db_save. rewrite Hd.
    unfold bind, ret. rewrite Hafter. reflexivity. }
  destruct (is_duplicate (last_saved_session self) (close_key app start))
    eqn:Hk.
  { rewrite close_duplicate by assumption.
    eapply (run_cut_tick (Some wi) now self h None);
      [assumption| |reflexivity].
    unfold _tracking_loop_body_until_db_save, try_except.
    unfold bind at 1. unfold get. rewrite Hidle, Hneq, Hopen.
    unfold _save_and_broadcast_session_until_db_save. rewrite Hd.
    unfold close_key in Hk.
    unfold bind, ret, get. rewrite Hk. rewrite Hafter. reflexivity. }
  rewrite close_fresh by assumption.
  assert (Hneq' : wi_app_name wi <> app).
  { destruct (open_session_app _ _ _ Hopen) as (Happ & _).
    rewrite Happ in Hneq. simpl in Hneq.
    apply negb_true_iff, String.eqb_neq in Hneq. exact Hneq. }
  eapply run_cut_tick; [assumption| |].
  - now apply (tick_until_db_save_waits wi now self h app start).
  - cbv iota. rewrite tick_from_db_save.
    unfold state_of, history_of. cbn [fst snd].
    unfold close_calls, close_event, close_args.
    cbn [su_saving su_window_info su_current_time sa_app_name sa_window_title
         sa_duration_sec sa_start_time sa_end_time sa_category].
    rewrite <- !app_assoc. reflexivity.
Qed.

(** C3 (the code fails the claim): a pass of the loop sees the application
    [B] in front while the session of [A] is open, and waits in the save of
    [A]'s session; the monitor finds the user idle meanwhile.  The monitor
    resets the session; then the pass resumes and opens the session of [B],
    with the time of the pass as its start, while the detector reports
    idle.  When the user is back with [B] still in front, after any passes
    of the loop during the episode, the pass that sees [B] opens nothing and
    announces nothing: the session opened during the episode goes on, with
    its start from before the episode. *)
Theorem C3_pass_waiting_in_close_opens_session_while_idle
    (self : RealtimeTracker) (h : list effect) (A : string) (start0 : Q)
    (wi : window_info) (now : Q) (t_idle end_idle ts_idle : Q)
    (idle_passes : list (option window_info * Q))
    (t_active t_back : Q) :
  is_tracking self = true ->
  open_session self = Some (A, start0) ->
  wi_app_name wi <> A ->
  (1 <= py_int (now - start0))%Z ->
  is_duplicate (last_saved_session self) (close_key A start0) = false ->
  let d := idle_detector self in
  IdleDetector.is_idle d = false ->
  IdleDetector._monitor_task d && IdleDetector._running d = true ->
  IdleDetector.idle_callback d = true ->
  (inject_Z (IdleDetector.idle_threshold d)
   <= t_idle - IdleDetector.last_activity_time d)%Q ->
  let r1 := run_slices cb
              [TickUntilDbSave (Some wi) now;
               Whole (IdleMonitor t_idle end_idle ts_idle);
               TickFromDbSave] None self h in
  let r2 := run cb (ticks idle_passes) (state_of r1) (history_of r1) in
  let r3 := run cb [Activity t_active; Tick (Some wi) t_back]
              (state_of r2) (history_of r2) in
  result_of r1 = Returned None /\
  IdleDetector.is_user_idle (idle_detector (state_of r1)) = true /\
  current_app (state_of r1) = Some (wi_app_name wi) /\
  session_start_time (state_of r1) = Some now /\
  (exists calls b,
      history_of r1
      = (h ++ calls ++ [WsBroadcast (start_event wi now) b])%list) /\
  r2 = (Returned tt, state_of r1, history_of r1) /\
  result_of r3 = Returned tt /\
  IdleDetector.is_user_idle (idle_detector (state_of r3)) = false /\
  current_app (state_of r3) = Some (wi_app_name wi) /\
  session_start_time (state_of r3) = Some now /\
  history_of r3 = history_of r1.
Proof.
  intros Htrack Hopen Hneq Hd Hk d Hidle Hrun Hcb Hthr r1 r2 r3.
  apply Z.ltb_ge in Hd.
  set (self1 := set_last_saved_session (Some (close_key A start0)) self).
  set (d' := (IdleDetector._monitor_idle_state_body t_idle d).1).
  set (self2 := reset_session (set_idle_detector d' self1)).
  set (su := {| su_saving :=
                  close_args A (or_empty (current_window_title self)) start0
                    now;
                su_window_info := wi;
                su_current_time := now |}).
  assert (Hd' : IdleDetector.is_idle d' = true).
  { subst d'. unfold IdleDetector._monitor_idle_state_body.
    apply Qle_bool_iff in Hthr. now rewrite Hidle, Hthr. }
  assert (Hpass : exists h2,
             idle_monitor_pass cb t_idle end_idle ts_idle self1 h
             = (Returned tt, self2, (h ++ h2)%list)).
  { eexists.
    apply (idle_monitor_fires_after_key self1 h A start0 t_idle end_idle
             ts_idle); try assumption; reflexivity. }
  destruct Hpass as (h2 & Hpass).
  assert (Hr1 : exists h3 b,
             r1 = (Returned None, opened wi now self2,
                   (h ++ (h2 ++ h3) ++ [WsBroadcast (start_event wi now) b])%list)).
  { subst r1. cbn [run_slices run_slice run_turn].
    unfold bind at 1. unfold bind at 1. unfold get.
    rewrite Htrack.
    rewrite (tick_until_db_save_waits wi now self h A start0)
      by assumption.
    fold self1. fold su.
    unfold bind at 1. unfold bind at 1. rewrite Hpass.
    unfold ret at 1. unfold bind at 1. unfold bind at 1.
    rewrite tick_from_db_save. unfold ret.
    eexists [_; _], _. cbn [su_window_info su_current_time].
    rewrite <- !app_assoc. reflexivity. }
  destruct Hr1 as (h3 & b & Hr1).
  assert (Hst1 : IdleDetector.is_user_idle (idle_detector (state_of r1)) = true).
  { rewrite Hr1. exact Hd'. }
  assert (Hr2 : r2 = (Returned tt, state_of r1, history_of r1)).
  { subst r2. now apply idle_ticks_noop. }
  set (st := opened wi now self2) in *.
  set (st' := set_idle_detector
                (IdleDetector._on_activity t_active (idle_detector st)).1 st).
  assert (Hr3 : r3 = (Returned tt, st', history_of r1)).
  { subst r3. rewrite Hr2. unfold state_of at 1, history_of at 1.
    cbn [fst snd]. rewrite Hr1. unfold state_of, history_of. cbn [fst snd].
    cbn [run run_turn]. unfold bind at 1. unfold input_activity, modify.
    fold st'. unfold bind at 1. unfold bind at 1. unfold get.
    replace (is_tracking st') with true by (symmetry; exact Htrack).
    rewrite tick_same_app.
    - replace (opt_str_neq (Some (wi_window_title wi))
                 (current_window_title st')) with false; [reflexivity|].
      symmetry. simpl. apply negb_false_iff, String.eqb_refl.
    - apply on_activity_not_idle.
    - simpl. apply negb_false_iff, String.eqb_refl. }
  split; [now rewrite Hr1|]. split; [exact Hst1|].
  split; [now rewrite Hr1|]. split; [now rewrite Hr1|].
  split; [exists (h2 ++ h3)%list, b; now rewrite Hr1|].
  split; [exact Hr2|].
  rewrite Hr3. unfold result_of, state_of, history_of. cbn [fst snd].
  split; [reflexivity|]. split; [apply on_activity_not_idle|].
  split; [reflexivity|]. split; reflexivity.
Qed.

End IdleEpisodeClaim.

Lemma C3_pass_waiting_in_close_opens_session_while_idle_witness :
  let r1 := Tracker.run_slices Scenario.cb_ok
              [Tracker.TickUntilDbSave (Some Scenario.code_window) 1200;
               Tracker.Whole (Tracker.IdleMonitor 1200 1200 1200);
               Tracker.TickFromDbSave] None Scenario.on_chrome [] in
  let r2 := Tracker.run Scenario.cb_ok
              (Tracker.ticks [(Some Scenario.chrome_window, 1201%Q);
                              (None, 1202%Q)])
              (state_of r1) (history_of r1) in
  let r3 := Tracker.run Scenario.cb_ok
              [Tracker.Activity 1300;
               Tracker.Tick (Some Scenario.code_window) 1301]
              (state_of r2) (history_of r2) in
  IdleDetector.is_user_idle (Tracker.idle_detector (state_of r1)) = true /\
  Tracker.current_app (state_of r1) = Some "Code.exe" /\
  Tracker.session_start_time (state_of r1) = Some 1200%Q /\
  IdleDetector.is_user_idle (Tracker.idle_detector (state_of r3)) = false /\
  Tracker.session_start_time (state_of r3) = Some 1200%Q /\
  history_of r3 = history_of r1 /\
  length (history_of r1) = 4%nat.
Proof.
  intros r1 r2 r3.
  destruct (C3_pass_waiting_in_close_opens_session_while_idle Scenario.cb_ok
              Scenario.on_chrome [] "chrome.exe" 1010
              Scenario.code_window 1200 1200 1200 1200
              [(Some Scenario.chrome_window, 1201%Q); (None, 1202%Q)]
              1300 1301)
    as (_ & Hidle & Happ & Hstart & _ & _ & _ & Hback & _ & Hstart' & Hh);
    try reflexivity; try discriminate.
  split; [exact Hidle|]. split; [exact Happ|]. split; [exact Hstart|].
  split; [exact Hback|]. split; [exact Hstart'|]. split; [exact Hh|].
  reflexivity.
Defined.

Lemma C8_probe_none_changes_nothing_witness :
  IdleDetector.is_user_idle (Tracker.idle_detector Scenario.on_chrome) = false /\
  Tracker._tracking_loop_body Scenario.cb_ok None 1015 Scenario.on_chrome []
  = (Returned tt, Scenario.on_chrome, []).
Proof.
  split; [reflexivity|].
  apply (C8_probe_none_changes_nothing Scenario.cb_ok Scenario.on_chrome []
           1015).
  reflexivity.
Defined.

(* --------------------------------------------------------------------- *)
(** ** The idle detector without pynput *)
(* --------------------------------------------------------------------- *)

Section IdleDetectorClaims.
Import IdleDetector.

Lemma never_started_run_op (o : op) (d : t) :
  never_started d -> never_started (run_op false o d).
Proof.
  intros (Hi & Hr & Hm). destruct o; simpl; try (now repeat split).
  - unfold stop. rewrite Hr. now repeat split.
  - unfold _on_activity. rewrite Hi. now repeat split.
  - rewrite Hm. now repeat split.
Qed.

Lemma never_started_run_ops (os : list op) (d : t) :
  never_started d -> never_started (run_ops false os d).
Proof.
  revert d. induction os as [|o os IH]; intros d H; [exact H|].
  apply IH, never_started_run_op, H.
Qed.

(** Only an input event ends an idle episode. *)
Lemma run_op_keeps_idle p o d :
  is_activity o = false -> is_idle d = true -> is_idle (run_op p o d) = true.
Proof.
  intros Ha Hi. destruct o; simpl in *; try discriminate; try assumption.
  - unfold start. destruct (negb p); [assumption|].
    now destruct (_running d).
  - unfold stop. now destruct (negb (_running d)).
  - destruct (_monitor_task d && _running d); [|assumption].
    unfold _monitor_idle_state_body. now rewrite Hi.
Qed.

Lemma run_ops_keep_idle p os d :
  Forall (fun o => is_activity o = false) os ->
  is_idle d = true -> is_idle (run_ops p os d) = true.
Proof.
  intros Hos. revert d. induction Hos as [|o os Ho Hos IH]; intros d Hi;
    [exact Hi|].
  apply IH. now apply run_op_keeps_idle.
Qed.

(** The branch of [start] taken when pynput is missing does what C7 says:
    [start] returns without any effect, and whatever operations follow, at
    whatever times, [is_user_idle()] returns [False]. *)
Lemma without_pynput_never_idle
    (idle_threshold_seconds : Z) (t0 : Q) (os : list op) :
  (forall mouse keyboard idle_cb active_cb d,
      start false mouse keyboard idle_cb active_cb d = d) /\
  is_user_idle (run_ops false os (init idle_threshold_seconds t0)) = false.
Proof.
  split; [reflexivity|].
  apply (never_started_run_ops os). now repeat split.
Qed.

(** C7 (the code fails the claim): pynput is there but neither listener
    can be hooked.  [start] catches both failures and returns, yet it has
    launched the monitor: the first pass of the monitor that comes once the
    threshold has elapsed sets the idle state, and since no listener
    delivers any input event, [is_user_idle()] returns [True] from then on,
    whatever else is done to the detector.  The same operations without
    pynput read as active throughout. *)
Theorem C7_hook_failure_reads_idle
    (idle_threshold_seconds : Z) (t0 now : Q) (mouse keyboard : hook)
    (idle_cb active_cb : bool) (os : list op) :
  mouse <> Hooked -> keyboard <> Hooked ->
  (inject_Z idle_threshold_seconds <= now - t0)%Q ->
  Forall (fun o => is_activity o = false) os ->
  let ops := OpStart mouse keyboard idle_cb active_cb :: OpMonitor now :: os in
  let d := init idle_threshold_seconds t0 in
  _running (run_op true (OpStart mouse keyboard idle_cb active_cb) d) = true /\
  is_user_idle (run_ops true ops d) = true /\
  is_user_idle (run_ops false ops d) = false.
Proof.
  intros _ _ Hnow Hos ops d. subst ops d.
  split; [reflexivity|]. split.
  - unfold is_user_idle. cbn [run_ops foldl].
    apply (run_ops_keep_idle true os); [exact Hos|].
    cbn [run_op start init negb _running _monitor_task andb].
    unfold _monitor_idle_state_body.
    cbn [is_idle last_activity_time idle_threshold init negb andb].
    apply Qle_bool_iff in Hnow. now rewrite Hnow.
  - apply (never_started_run_ops _ (init idle_threshold_seconds t0)).
    now repeat split.
Qed.

End IdleDetectorClaims.

Lemma C7_hook_failure_reads_idle_witness :
  let ops :=
    [IdleDetector.OpStart IdleDetector.CtorRaised IdleDetector.StartRaised
       true true;
     IdleDetector.OpMonitor 1180; IdleDetector.OpIsUserIdle;
     IdleDetector.OpMonitor 1185; IdleDetector.OpGetIdleDuration 4000] in
  IdleDetector.is_user_idle
    (IdleDetector.run_ops true ops (IdleDetector.init 180 1000)) = true /\
  IdleDetector.is_user_idle
    (IdleDetector.run_ops false ops (IdleDetector.init 180 1000)) = false.
Proof.
  intros ops.
  destruct (C7_hook_failure_reads_idle 180 1000 1180
              IdleDetector.CtorRaised IdleDetector.StartRaised true true
              [IdleDetector.OpIsUserIdle; IdleDetector.OpMonitor 1185;
               IdleDetector.OpGetIdleDuration 4000])
    as (_ & Hidle & Hnever).
  - discriminate.
  - discriminate.
  - vm_compute. discriminate.
  - repeat constructor.
  - split; [exact Hidle | exact Hnever].
Defined.

(* --------------------------------------------------------------------- *)
(** ** save_usage_with_retry *)
(* --------------------------------------------------------------------- *)

Section RetryClaims.
Import Database.

Lemma attempts_made_cons (c : db_call) (calls : list db_call) :
  attempts_made (c :: calls) =
  ((if is_try c then 1 else 0) + attempts_made calls)%nat.
Proof.
  unfold attempts_made. rewrite filter_cons.
  destruct (is_try c) eqn:E; simpl.
  - destruct (decide (true = true)); [reflexivity | congruence].
  - destruct (decide (false = true)); [discriminate | reflexivity].
Qed.

(** The loop makes at most one attempt per element of its range. *)
Lemma retry_loop_bounded db max_retries attempts :
  (attempts_made (retry_loop db max_retries attempts).2 <= length attempts)%nat.
Proof.
  induction attempts as [|a rest IH]; simpl; [unfold attempts_made; simpl; lia|].
  destruct (db a) as [|message|]; simpl.
  - rewrite attempts_made_cons. unfold attempts_made; simpl. lia.
  - destruct (is_locked message); simpl.
    + destruct (Z.of_nat a =? max_retries - 1)%Z; simpl;
        rewrite !attempts_made_cons; simpl.
      * unfold attempts_made; simpl. lia.
      * lia.
    + rewrite !attempts_made_cons. unfold attempts_made; simpl. lia.
  - rewrite !attempts_made_cons. unfold attempts_made; simpl. lia.
Qed.

Lemma lock_busy_inv r :
  lock_busy r = true ->
  exists message, r = OperationalError message /\ is_locked message = true.
Proof. destruct r; simpl; try discriminate. eauto. Qed.

Lemma hard_failure_step db max_retries a rest :
  hard_failure (db a) = true ->
  retry_loop db max_retries (a :: rest) = (false, [TryCommit a; Rollback]).
Proof.
  simpl. destruct (db a) as [|message|]; simpl; try discriminate; [|reflexivity].
  intros H. apply negb_true_iff in H. now rewrite H.
Qed.

Lemma lock_busy_step db max_retries a rest :
  lock_busy (db a) = true ->
  retry_loop db max_retries (a :: rest) =
  if (Z.of_nat a =? max_retries - 1)%Z
  then (false, [TryCommit a; Rollback; Sleep (backoff a)])
  else ((retry_loop db max_retries rest).1,
        TryCommit a :: Rollback :: Sleep (backoff a)
          :: (retry_loop db max_retries rest).2).
Proof.
  intros (message & E & L)%lock_busy_inv. simpl. now rewrite E, L.
Qed.

Lemma committed_step db max_retries a rest :
  db a = Committed ->
  retry_loop db max_retries (a :: rest) = (true, [TryCommit a]).
Proof. intros E. simpl. now rewrite E. Qed.

(** C4: with the default [max_retries] of 3, [save_usage_with_retry] makes
    at most 3 attempts.  Two lock-busy failures followed by a success give
    a commit at the third attempt and [True], after sleeping 0.1 s and
    0.2 s.  Three lock-busy failures give [False] after the third attempt,
    the delays being 0.1 s, 0.2 s and 0.4 s, and no fourth attempt.  Any
    other failure, after any number of lock-busy ones, gives [False] at
    once: that attempt is the last, it is rolled back, and no sleep
    follows. *)
Theorem C4_retry_policy (db : nat -> attempt_result) :
  let r := save_usage_with_retry db default_max_retries in
  (attempts_made r.2 <= 3)%nat /\
  (lock_busy (db 0%nat) = true -> lock_busy (db 1%nat) = true ->
   db 2%nat = Committed ->
   r = (true, [TryCommit 0; Rollback; Sleep 0.1; TryCommit 1; Rollback;
               Sleep 0.2; TryCommit 2])) /\
  (lock_busy (db 0%nat) = true -> lock_busy (db 1%nat) = true ->
   lock_busy (db 2%nat) = true ->
   r = (false, [TryCommit 0; Rollback; Sleep 0.1; TryCommit 1; Rollback;
                Sleep 0.2; TryCommit 2; Rollback; Sleep 0.4]) /\
   attempts_made r.2 = 3%nat /\ delays r.2 = [0.1; 0.2; 0.4]%Q) /\
  (forall k : nat,
      (k < 3)%nat ->
      (forall j : nat, (j < k)%nat -> lock_busy (db j) = true) ->
      hard_failure (db k) = true ->
      r.1 = false /\ attempts_made r.2 = S k /\
      exists before, r.2 = (before ++ [TryCommit k; Rollback])%list).
Proof.
  intros r. subst r. unfold save_usage_with_retry, default_max_retries.
  change (seq 0 (Z.to_nat 3)) with [0; 1; 2]%nat.
  split; [apply (retry_loop_bounded db 3 [0; 1; 2]%nat)|].
  split; [|split].
  - intros H0 H1 H2.
    rewrite (lock_busy_step _ _ _ _ H0). simpl Z.eqb. cbv iota.
    rewrite (lock_busy_step _ _ _ _ H1). simpl Z.eqb. cbv iota.
    rewrite (committed_step _ _ _ _ H2). reflexivity.
  - intros H0 H1 H2.
    rewrite (lock_busy_step _ _ _ _ H0). simpl Z.eqb. cbv iota.
    rewrite (lock_busy_step _ _ _ _ H1). simpl Z.eqb. cbv iota.
    rewrite (lock_busy_step _ _ _ _ H2). simpl Z.eqb. cbv iota.
    repeat split; reflexivity.
  - intros k Hk Hbusy Hhard.
    destruct k as [|[|[|k]]]; [| | |lia].
    + rewrite (hard_failure_step _ _ _ _ Hhard).
      repeat split. now exists [].
    + rewrite (lock_busy_step _ _ _ _ (Hbusy 0%nat ltac:(lia))).
      simpl Z.eqb. cbv iota.
      rewrite (hard_failure_step _ _ _ _ Hhard).
      repeat split. now exists [TryCommit 0; Rollback; Sleep (backoff 0)].
    + rewrite (lock_busy_step _ _ _ _ (Hbusy 0%nat ltac:(lia))).
      simpl Z.eqb. cbv iota.
      rewrite (lock_busy_step _ _ _ _ (Hbusy 1%nat ltac:(lia))).
      simpl Z.eqb. cbv iota.
      rewrite (hard_failure_step _ _ _ _ Hhard).
      repeat split.
      now exists [TryCommit 0; Rollback; Sleep (backoff 0);
                  TryCommit 1; Rollback; Sleep (backoff 1)].
Qed.

End RetryClaims.

Lemma C4_retry_policy_witness :
  Database.save_usage_with_retry
    (Database.results [Scenario.locked; Scenario.locked; Database.Committed])
    Database.default_max_retries
  = (true, [Database.TryCommit 0; Database.Rollback; Database.Sleep 0.1;
            Database.TryCommit 1; Database.Rollback; Database.Sleep 0.2;
            Database.TryCommit 2]) /\
  Database.attempts_made
    (Database.save_usage_with_retry
       (Database.results [Scenario.locked; Scenario.locked; Scenario.locked])
       Database.default_max_retries).2 = 3%nat /\
  (Database.save_usage_with_retry
     (Database.results [Scenario.locked; Scenario.disk_full])
     Database.default_max_retries).1 = false /\
  Database.attempts_made
    (Database.save_usage_with_retry
       (Database.results [Scenario.locked; Scenario.disk_full])
       Database.default_max_retries).2 = 2%nat.
Proof.
  split; [|split].
  - destruct (C4_retry_policy
                (Database.results
                   [Scenario.locked; Scenario.locked; Database.Committed]))
      as (_ & Hok & _).
    apply Hok; reflexivity.
  - destruct (C4_retry_policy
                (Database.results
                   [Scenario.locked; Scenario.locked; Scenario.locked]))
      as (_ & _ & Hbusy & _).
    destruct Hbusy as (_ & Hn & _); [reflexivity ..|exact Hn].
  - destruct (C4_retry_policy
                (Database.results [Scenario.locked; Scenario.disk_full]))
      as (_ & _ & _ & Hhard).
    destruct (Hhard 1%nat) as (Hres & Hn & _).
    + lia.
    + intros j Hj. assert (j = 0%nat) as -> by lia. reflexivity.
    + reflexivity.
    + split; [exact Hres | exact Hn].
Defined.

(* --------------------------------------------------------------------- *)
(** ** ConnectionManager.broadcast *)
(* --------------------------------------------------------------------- *)

Section BroadcastClaims.
Import ConnectionManager.
Context {message : Type}.
Variable send_json_returns : list (send message) -> WebSocket -> message -> bool.
Variable m : message.

Lemma connection_of_sends_to l h :
  map connection_of (sends_to send_json_returns m l h) = l.
Proof.
  revert h. induction l as [|w l IH]; intros h; simpl; [reflexivity|].
  now rewrite IH.
Qed.


Lemma delivered_or_failed l h w :
  w ∈ l <->
  w ∈ delivered (sends_to send_json_returns m l h) \/
  w ∈ failed (sends_to send_json_returns m l h).
Proof.
  revert h. induction l as [|c l IH]; intros h; simpl.
  - unfold delivered, failed; simpl. rewrite !elem_of_nil. tauto.
  - rewrite elem_of_cons,
      (IH (h ++ [SendJson c m (send_json_returns h c m)])%list).
    unfold delivered, failed; simpl.
    destruct (send_json_returns h c m); simpl; rewrite elem_of_cons; tauto.
Qed.

Lemma delivered_not_failed l h w :
  NoDup l ->
  w ∈ delivered (sends_to send_json_returns m l h) ->
  w ∈ failed (sends_to send_json_returns m l h) -> False.
Proof.
  intros Hnd. revert h. induction Hnd as [|c l Hc Hnd IH]; intros h; simpl.
  - unfold delivered; simpl. now rewrite elem_of_nil.
  - pose proof (delivered_or_failed l (h ++ [SendJson c m
                  (send_json_returns h c m)])%list c) as Hin.
    unfold delivered, failed in *; simpl.
    destruct (send_json_returns h c m); simpl; rewrite elem_of_cons;
      intros H1 H2.
    + destruct H1 as [->|H1]; [tauto | eauto].
    + destruct H2 as [->|H2]; [tauto | eauto].
Qed.

Lemma sends_to_app l1 l2 h :
  sends_to send_json_returns m (l1 ++ l2) h
  = (sends_to send_json_returns m l1 h
     ++ sends_to send_json_returns m l2
          (h ++ sends_to send_json_returns m l1 h))%list.
Proof.
  revert h. induction l1 as [|c l1 IH]; intros h; simpl.
  - now rewrite app_nil_r.
  - rewrite IH, <- app_assoc. reflexivity.
Qed.

Lemma meanwhile_spec other (active : gset WebSocket) (h : list (send message)) :
  meanwhile other active h = (Returned tt, after other active, h).
Proof. destruct other as [[w|w]|]; reflexivity. Qed.

Lemma changed_without_effect (active : gset WebSocket) c :
  without_effect active c -> changed active c = active.
Proof.
  destruct c as [w|w]; simpl; intros Hw.
  - apply set_eq. intros x. rewrite elem_of_difference, elem_of_singleton.
    split; [tauto|]. intros Hx. split; [exact Hx|]. now intros ->.
  - apply set_eq. intros x. rewrite elem_of_union, elem_of_singleton.
    split; [|tauto]. now intros [Hx| ->].
Qed.

Lemma changed_size (active : gset WebSocket) c :
  ~ without_effect active c -> size (changed active c) <> size active.
Proof.
  destruct c as [w|w]; simpl; intros Hw.
  - assert (Hin : w ∈ active) by (destruct (decide (w ∈ active)); tauto).
    assert (Hsub : ({[w]} : gset WebSocket) ⊆ active)
      by (now apply singleton_subseteq_l).
    pose proof (size_union_alt ({[w]} : gset WebSocket) active) as Hs.
    rewrite (subseteq_union_1_L _ _ Hsub), size_singleton in Hs. lia.
  - rewrite size_union by (now apply disjoint_singleton_r).
    rewrite size_singleton. lia.
Qed.

(** The iterator refuses a set whose size has changed. *)
Lemma send_to_each_changed_size todo used others D
    (active : gset WebSocket) (h : list (send message)) :
  size active <> used ->
  send_to_each send_json_returns m todo used others D active h
  = (Raised, active, h).
Proof.
  intros Hs. destruct todo; simpl; unfold bind, get;
    apply Nat.eqb_neq in Hs; now rewrite Hs.
Qed.

(** One turn of the loop. *)
Lemma send_to_each_cons c todo others D
    (active : gset WebSocket) (h : list (send message)) :
  let b := send_json_returns h c m in
  send_to_each send_json_returns m (c :: todo) (size active) others D active h
  = send_to_each send_json_returns m todo (size active) (tl others)
      (if b then D else {[c]} ∪ D)
      (after (hd None others) active) (h ++ [SendJson c m b])%list.
Proof.
  intros b. subst b. cbn [send_to_each]. unfold bind at 1. unfold get.
  rewrite Nat.eqb_refl. cbn [negb].
  unfold bind at 1. unfold try_except at 1. unfold bind at 1.
  rewrite meanwhile_spec. unfold bind at 1. unfold send_json at 1.
  unfold call.
  destruct (send_json_returns h c m); reflexivity.
Qed.

(** The first loop on a registry left alone: one call per connection, the
    failed ones collected. *)
Lemma send_loop l others (D active : gset WebSocket) h :
  undisturbed active others ->
  send_to_each send_json_returns m l (size active) others D active h
  = (Returned (list_to_set (failed (sends_to send_json_returns m l h)) ∪ D),
     active, (h ++ sends_to send_json_returns m l h)%list).
Proof.
  revert others D h. induction l as [|c l IH]; intros others D h Hu.
  - simpl. unfold bind, get. rewrite Nat.eqb_refl. simpl.
    unfold ret, failed; simpl.
    now rewrite app_nil_r, (left_id_L ∅ (∪)).
  - rewrite send_to_each_cons.
    assert (Hafter : after (hd None others) active = active).
    { destruct Hu as [|[ch|] others' Hch Hu]; simpl; auto.
      now apply changed_without_effect. }
    assert (Htl : undisturbed active (tl others)).
    { destruct Hu; simpl; [constructor | assumption]. }
    rewrite Hafter, (IH _ _ _ Htl). simpl.
    destruct (send_json_returns h c m); unfold failed; simpl;
      rewrite <- app_assoc; simpl; [reflexivity|].
    now rewrite (assoc_L (∪)), (comm_L (∪) _ {[c]}).
Qed.

(** The first loop when the await of the send number [k] changes the
    registry: the loop raises when it asks for the next connection. *)
Lemma send_loop_aborted l k ch rest D (active : gset WebSocket) h :
  (k < List.length l)%nat ->
  ~ without_effect active ch ->
  send_to_each send_json_returns m l (size active)
    (replicate k None ++ Some ch :: rest) D active h
  = (Raised, changed active ch,
     (h ++ sends_to send_json_returns m (firstn (S k) l) h)%list).
Proof.
  revert k D h. induction l as [|c l IH]; intros k D h Hk Hch;
    [simpl in Hk; lia|].
  rewrite send_to_each_cons. destruct k as [|k].
  - simpl. rewrite send_to_each_changed_size by (now apply changed_size).
    reflexivity.
  - simpl in Hk. simpl replicate. simpl hd. simpl tl. simpl after.
    rewrite IH by (auto; lia). simpl. now rewrite <- app_assoc.
Qed.


(** The second loop: the collected connections leave the registry. *)
Lemma disconnect_loop (l : list WebSocket) (active : gset WebSocket)
    (h : list (send message)) :
  for_each l tt (fun conn _ => disconnect conn) active h
  = (Returned tt, active ∖ list_to_set l, h).
Proof.
  revert active. induction l as [|c l IH]; intros active; simpl.
  - unfold ret. now rewrite difference_empty_L.
  - unfold bind, disconnect, modify. rewrite IH.
    now rewrite difference_difference_l_L.
Qed.

(** [broadcast] on a registry that the other coroutines leave alone. *)
Lemma broadcast_spec others (active : gset WebSocket)
    (h : list (send message)) :
  undisturbed active others ->
  let sends := sends_to send_json_returns m (elements active) h in
  broadcast send_json_returns others m active h
  = (Returned tt, active ∖ list_to_set (failed sends), (h ++ sends)%list).
Proof.
  intros Hu sends. subst sends. unfold broadcast. unfold bind at 1. unfold get.
  case_bool_decide as Hempty.
  - subst active. rewrite elements_empty. unfold ret, failed; simpl.
    now rewrite app_nil_r, difference_empty_L.
  - unfold bind at 1. rewrite send_loop by assumption.
    unfold bind at 1. rewrite disconnect_loop. unfold ret.
    now rewrite (right_id_L ∅ (∪)), list_to_set_elements_L.
Qed.

(** [broadcast] when the await of the send number [k] changes the
    registry. *)
Lemma broadcast_aborted k ch rest (active : gset WebSocket)
    (h : list (send message)) :
  (k < size active)%nat ->
  ~ without_effect active ch ->
  broadcast send_json_returns (replicate k None ++ Some ch :: rest) m active h
  = (Raised, changed active ch,
     (h ++ sends_to send_json_returns m (firstn (S k) (elements active)) h)%list).
Proof.
  intros Hk Hch. unfold broadcast. unfold bind at 1. unfold get.
  case_bool_decide as Hempty.
  - subst active. rewrite size_empty in Hk. lia.
  - unfold bind at 1. now rewrite send_loop_aborted.
Qed.


(** C6 (the code fails the claim): let a registered connection leave, or
    a new one be accepted, while [broadcast] awaits the send number [k].
    Then [broadcast] raises instead of returning: the connections that come
    later in the iteration are sent nothing, and the connections whose send
    failed are not removed from the registry, which is what the other
    coroutine made of it. *)
Theorem C6_registry_changed_during_send_aborts_broadcast
    (active : gset WebSocket) (h : list (send message))
    (k : nat) (ch : change) (rest : list (option change)) :
  (k < size active)%nat ->
  ~ without_effect active ch ->
  let r := broadcast send_json_returns (replicate k None ++ Some ch :: rest)
             m active h in
  let sends := sends_to send_json_returns m (firstn (S k) (elements active)) h in
  result_of r = Raised /\
  state_of r = changed active ch /\
  history_of r = (h ++ sends)%list /\
  map connection_of sends = firstn (S k) (elements active) /\
  (forall w, w ∈ skipn (S k) (elements active) ->
             forall b, SendJson w m b ∉ sends) /\
  (forall w, w ∈ failed sends -> w ∈ active).
Proof.
  intros Hk Hch r sends. subst r.
  rewrite broadcast_aborted by assumption.
  unfold result_of, state_of, history_of; simpl fst; simpl snd.
  split; [reflexivity|]. split; [reflexivity|]. split; [reflexivity|].
  split; [apply connection_of_sends_to|].
  split.
  - intros w Hw b Hin.
    assert (Hconn : w ∈ map connection_of sends).
    { apply list_elem_of_In.
      apply (in_map connection_of sends (SendJson w m b)).
      now apply list_elem_of_In. }
    subst sends. rewrite connection_of_sends_to in Hconn.
    pose proof (NoDup_elements active) as Hnd.
    rewrite <- (take_drop (S k) (elements active)) in Hnd.
    apply NoDup_app in Hnd as (_ & Hdisj & _).
    exact (Hdisj w Hconn Hw).
  - intros w Hw. apply elem_of_elements.
    assert (Hin : w ∈ firstn (S k) (elements active)).
    { apply (delivered_or_failed _ h w). now right. }
    rewrite <- (take_drop (S k) (elements active)).
    apply elem_of_app. now left.
Qed.

End BroadcastClaims.

Lemma C6_registry_changed_during_send_aborts_broadcast_witness :
  let own := ConnectionManager.broadcast Scenario.third_fails
               [None; Some (ConnectionManager.Disconnects 3%positive)]
               "session_start" Scenario.five [] in
  let other := ConnectionManager.broadcast Scenario.third_fails
                 [None; Some (ConnectionManager.Disconnects 4%positive)]
                 "session_start" Scenario.five [] in
  let calls :=
    [ConnectionManager.SendJson 5%positive "session_start" true;
     ConnectionManager.SendJson 3%positive "session_start" false] in
  elements Scenario.five
  = [5%positive; 3%positive; 4%positive; 2%positive; 1%positive] /\
  result_of own = Raised /\ history_of own = calls /\
  state_of own = {[ 1%positive; 2%positive; 4%positive; 5%positive ]} /\
  result_of other = Raised /\ history_of other = calls /\
  state_of other = {[ 1%positive; 2%positive; 3%positive; 5%positive ]}.
Proof.
  intros own other calls.
  destruct (C6_registry_changed_during_send_aborts_broadcast
              Scenario.third_fails "session_start" Scenario.five []
              1%nat (ConnectionManager.Disconnects 3%positive) [])
    as (Hres & _).
  { vm_compute. lia. }
  { simpl. intros Hn. apply Hn. vm_compute. reflexivity. }
  destruct (C6_registry_changed_during_send_aborts_broadcast
              Scenario.third_fails "session_start" Scenario.five []
              1%nat (ConnectionManager.Disconnects 4%positive) [])
    as (Hres' & _).
  { vm_compute. lia. }
  { simpl. intros Hn. apply Hn. vm_compute. reflexivity. }
  split; [vm_compute; reflexivity|].
  split; [exact Hres|]. split; [vm_compute; reflexivity|].
  split; [vm_compute; reflexivity|].
  split; [exact Hres'|]. split; vm_compute; reflexivity.
Defined.

(* ===================================================================== *)
(** * Further properties *)
(* ===================================================================== *)

(* --------------------------------------------------------------------- *)
(** ** The coroutines of the tracker as sequences of steps *)
(* --------------------------------------------------------------------- *)

Section TrackerSteps.
Import Tracker.
Variable cb : callbacks.

Local Hint Constructors rtc : core.
Local Hint Resolve rtc_once rtc_r : core.

(** The close path as the callers run it: on the open session, if any. *)
Lemma close_open_reach (self : RealtimeTracker) (h : list effect) (end_ : Q) :
  let closing :=
    match open_session self with
    | Some (app, start) =>
        _save_and_broadcast_session cb app
          (or_empty (current_window_title self)) start end_ self h
    | None => (Returned tt, self, h)
    end in
  result_of closing = Returned tt /\
  rtc (step cb) (self, h) (state_of closing, history_of closing).
Proof.
  destruct (open_session self) as [[app start]|]; simpl; [|split; auto].
  split; [apply close_returns|]. apply rtc_once, step_close.
Qed.

Lemma tick_reach wi now self h :
  exists s' h',
    _tracking_loop_body cb wi now self h = (Returned tt, s', h') /\
    rtc (step cb) (self, h) (s', h').
Proof.
  destruct (IdleDetector.is_user_idle (idle_detector self)) eqn:Hidle.
  { rewrite tick_idle by assumption. eauto. }
  destruct wi as [wi|]; [|rewrite tick_no_window by assumption; eauto].
  destruct (opt_str_neq (Some (wi_app_name wi)) (current_app self)) eqn:Hneq.
  - rewrite tick_new_app by assumption.
    destruct (close_open_reach self h now) as [_ Hc].
    eexists _, _. split; [reflexivity|].
    eapply rtc_r; [eapply rtc_r; [exact Hc|]|apply step_start].
    now apply (step_assign cb (opened wi now)).
  - rewrite tick_same_app by assumption.
    eexists _, _. split; [reflexivity|].
    destruct (opt_str_neq _ (current_window_title self)); [|auto].
    now apply rtc_once,
      (step_assign cb (set_current_window_title (Some (wi_window_title wi)))).
Qed.

(** [_handle_idle] in full. *)
Lemma handle_idle_spec idle_duration end_ ts self h :
  let closing :=
    match open_session self with
    | Some (app, start) =>
        _save_and_broadcast_session cb app
          (or_empty (current_window_title self)) start end_ self h
    | None => (Returned tt, self, h)
    end in
  let ev := idle (py_int idle_duration) ts in
  _handle_idle cb idle_duration end_ ts self h =
  (Returned tt,
   match open_session self with
   | Some _ => reset_session (state_of closing)
   | None => self
   end,
   (history_of closing
    ++ [WsBroadcast ev (ws_broadcast_returns cb (history_of closing) ev)])%list).
Proof.
  intros closing ev. unfold _handle_idle. unfold bind at 1. unfold get.
  unfold bind at 1. subst closing.
  destruct (open_session self) as [[app start]|].
  - unfold bind at 1.
    destruct (close_cases cb app (or_empty (current_window_title self)) start
                end_ self h) as [Hc|(_ & _ & Hc)]; rewrite Hc;
      unfold bind, modify; rewrite try_ws_broadcast; reflexivity.
  - unfold ret at 1. rewrite try_ws_broadcast. reflexivity.
Qed.

Lemma handle_idle_reach idle_duration end_ ts self h :
  exists s' h',
    _handle_idle cb idle_duration end_ ts self h = (Returned tt, s', h') /\
    rtc (step cb) (self, h) (s', h').
Proof.
  rewrite handle_idle_spec. eexists _, _. split; [reflexivity|].
  destruct (close_open_reach self h end_) as [_ Hc].
  eapply rtc_r; [|apply step_idle].
  destruct (open_session self) as [[app start]|]; [|exact Hc].
  eapply rtc_r; [exact Hc|]. now apply (step_assign cb reset_session).
Qed.

Lemma idle_monitor_reach now end_ ts self h :
  exists s' h',
    idle_monitor_pass cb now end_ ts self h = (Returned tt, s', h') /\
    rtc (step cb) (self, h) (s', h').
Proof.
  unfold idle_monitor_pass. unfold bind at 1. unfold get.
  destruct (_ && _); [|unfold ret; eauto].
  set (r := IdleDetector._monitor_idle_state_body now (idle_detector self)).
  unfold bind at 1. unfold modify at 1.
  assert (Hset : rtc (step cb) (self, h) (set_idle_detector r.1 self, h))
    by now apply rtc_once, (step_assign cb (set_idle_detector r.1)).
  destruct r.2 as [idle_duration|]; [|unfold ret; eauto].
  unfold try_except.
  destruct (handle_idle_reach idle_duration end_ ts
              (set_idle_detector r.1 self) h) as (s' & h' & -> & Hr).
  eexists _, _. split; [reflexivity|]. etransitivity; eassumption.
Qed.

Lemma stop_reach end_ self h :
  exists s' h',
    stop_tracking cb end_ self h = (Returned tt, s', h') /\
    rtc (step cb) (self, h) (s', h').
Proof.
  unfold stop_tracking. unfold bind at 1. unfold get.
  destruct (negb (is_tracking self)); [unfold ret; eauto|].
  unfold bind at 1. unfold modify at 1. unfold bind at 1.
  assert (Hset : rtc (step cb) (self, h) (set_is_tracking false self, h))
    by now apply rtc_once, (step_assign cb (set_is_tracking false)).
  assert (Hc : exists s1 h1,
             match open_session self with
             | Some (app, start) =>
                 _save_and_broadcast_session cb app
                   (or_empty (current_window_title self)) start end_
             | None => ret tt
             end (set_is_tracking false self) h = (Returned tt, s1, h1) /\
             rtc (step cb) (set_is_tracking false self, h) (s1, h1)).
  { destruct (open_session self) as [[app start]|]; [|unfold ret; eauto].
    pose proof (close_returns cb app (or_empty (current_window_title self))
                  start end_ (set_is_tracking false self) h) as (Hres & _).
    pose proof (step_close cb app (or_empty (current_window_title self))
                  start end_ (set_is_tracking false self) h) as Hstep.
    destruct (_save_and_broadcast_session cb app _ start end_ _ h)
      as [[o s1] h1]. unfold result_of in Hres. simpl in Hres. subst o.
    exists s1, h1. split; [reflexivity|]. apply rtc_once, Hstep. }
  destruct Hc as (s1 & h1 & -> & Hr).
  unfold modify. eexists _, _. split; [reflexivity|].
  etransitivity; [exact Hset|]. eapply rtc_r; [exact Hr|].
  now apply (step_assign cb
               (fun t => set_idle_detector
                           (IdleDetector.stop (idle_detector t)) t)).
Qed.

Lemma turn_reach x self h :
  exists s' h',
    run_turn cb x self h = (Returned tt, s', h') /\
    rtc (step cb) (self, h) (s', h').
Proof.
  destruct x as [wi now|now end_ ts|now|end_]; simpl.
  - unfold bind, get. destruct (is_tracking self); [|unfold ret; eauto].
    apply tick_reach.
  - apply idle_monitor_reach.
  - unfold input_activity, modify. eexists _, _. split; [reflexivity|].
    now apply rtc_once,
      (step_assign cb
         (fun t => set_idle_detector
                     (IdleDetector._on_activity now (idle_detector t)).1 t)).
  - apply stop_reach.
Qed.

Lemma run_reach xs self h :
  exists s' h',
    run cb xs self h = (Returned tt, s', h') /\
    rtc (step cb) (self, h) (s', h').
Proof.
  revert self h. induction xs as [|x xs IH]; intros self h; simpl.
  - unfold ret. eauto.
  - unfold bind.
    destruct (turn_reach x self h) as (s1 & h1 & -> & H1).
    destruct (IH s1 h1) as (s2 & h2 & -> & H2).
    eexists _, _. split; [reflexivity|]. etransitivity; eassumption.
Qed.

End TrackerSteps.

(* --------------------------------------------------------------------- *)
(** ** What a tracker hands to its callbacks *)
(* --------------------------------------------------------------------- *)

Section TrackerCalls.
Import Tracker.
Variable cb : callbacks.

Lemma sound_title_sanitize (title : string) :
  sound_title (sanitize_window_title title default_max_length).
Proof.
  split; [apply sanitize_window_title_control_free|].
  pose proof (sanitize_window_title_length title default_max_length) as H.
  unfold default_max_length in *. lia.
Qed.

Lemma sound_close_calls self h app title start end_ :
  (py_int (end_ - start) <? 1)%Z = false ->
  Forall sound_call (close_calls cb self h app title start end_) /\
  announced [] (close_calls cb self h app title start end_).
Proof.
  intros Hd. apply Z.ltb_ge in Hd. unfold close_calls. split.
  - constructor; [|constructor; [|constructor]].
    + simpl. split; [exact Hd|].
      split; [apply sound_title_sanitize | reflexivity].
    + simpl. split; [exact Hd|].
      split; [apply sound_title_sanitize | reflexivity].
  - simpl. split; [|exact I].
    eexists. split; [apply list_elem_of_here|]. repeat split.
Qed.

Lemma announced_mono (saved saved' : list save_args) (h : list effect) :
  (forall a, a ∈ saved -> a ∈ saved') ->
  announced saved h -> announced saved' h.
Proof.
  revert saved saved'.
  induction h as [|[a r|e r] h IH]; intros saved saved' Hsub; simpl;
    [auto| |].
  - apply IH. intros x [->|Hx]%elem_of_cons;
      [apply list_elem_of_here | apply list_elem_of_further; auto].
  - intros [He Hh]. split; [|now apply (IH saved)].
    destruct e; try exact I.
    destruct He as (a & Ha & Hm). exists a. auto.
Qed.

Lemma announced_app (saved : list save_args) (a b : list effect) :
  announced saved a -> announced [] b -> announced saved (a ++ b).
Proof.
  revert saved. induction a as [|[x r|e r] a IH]; intros saved Ha Hb; simpl.
  - apply (announced_mono [] saved); [|exact Hb].
    intros x Hx. now apply elem_of_nil in Hx.
  - now apply IH.
  - destruct Ha as [He Ha]. split; [exact He | now apply IH].
Qed.

(** What one step appends to the history. *)
Lemma step_appends x y :
  step cb x y ->
  exists new, y.2 = (x.2 ++ new)%list /\
              Forall sound_call new /\ announced [] new.
Proof.
  intros [app title start end_ self h|wi now b self h|sec ts b self h
         |f self h _ _]; simpl.
  - destruct (py_int (end_ - start) <? 1)%Z eqn:Hd.
    { rewrite close_short by assumption. exists []. simpl.
      now rewrite app_nil_r. }
    destruct (is_duplicate (last_saved_session self) (close_key app start))
      eqn:Hk.
    { rewrite close_duplicate by assumption. exists []. simpl.
      now rewrite app_nil_r. }
    rewrite close_fresh by assumption.
    eexists. split; [reflexivity|]. now apply sound_close_calls.
  - eexists. split; [reflexivity|]. split; [|now split].
    constructor; [|constructor].
    simpl. split; [apply sound_title_sanitize | reflexivity].
  - eexists. split; [reflexivity|]. split; [|now split].
    constructor; [exact I | constructor].
  - exists []. simpl. now rewrite app_nil_r.
Qed.

Lemma reach_appends x y :
  rtc (step cb) x y ->
  exists new, y.2 = (x.2 ++ new)%list /\
              Forall sound_call new /\ announced [] new.
Proof.
  induction 1 as [x|x y z Hxy _ IH].
  - exists []. simpl. now rewrite app_nil_r.
  - destruct (step_appends _ _ Hxy) as (n1 & E1 & S1 & P1).
    destruct IH as (n2 & E2 & S2 & P2).
    exists (n1 ++ n2)%list. rewrite E2, E1, app_assoc.
    split; [reflexivity|]. split; [now apply Forall_app|].
    now apply announced_app.
Qed.

(** X1: whatever the two callbacks do, a sequence of turns of the tracker
    (passes of the tracking loop, passes of the idle monitor, input events,
    [stop_tracking]) returns normally, and the calls made before stay in the
    history: no exception raised by [db_save] or [ws_broadcast] escapes. *)
Theorem run_never_raises (xs : list turn) (self : RealtimeTracker)
    (h : list effect) :
  result_of (run cb xs self h) = Returned tt /\
  exists new, history_of (run cb xs self h) = (h ++ new)%list.
Proof.
  destruct (run_reach cb xs self h) as (s' & h' & -> & Hr).
  split; [reflexivity|].
  destruct (reach_appends _ _ Hr) as (new & E & _). eauto.
Qed.

(** X2: every call a sequence of turns makes is sound.  A record handed to
    [db_save] has a duration of at least one second, a title without control
    characters and of at most 203 characters, and the category of its
    application; the same holds of the [session_end] messages, and of the
    [session_start] messages but for the duration, which they do not have.
    No [session_end] is broadcast without the save, earlier in the same
    turns, of a record with the same fields. *)
Theorem run_calls_sound (xs : list turn) (self : RealtimeTracker)
    (h : list effect) :
  exists new,
    history_of (run cb xs self h) = (h ++ new)%list /\
    Forall sound_call new /\ announced [] new.
Proof.
  destruct (run_reach cb xs self h) as (s' & h' & -> & Hr).
  exact (reach_appends _ _ Hr).
Qed.

End TrackerCalls.

(* --------------------------------------------------------------------- *)
(** ** The session key along a run *)
(* --------------------------------------------------------------------- *)

Section TrackerKeys.
Import Tracker.
Variable cb : callbacks.

Lemma saved_keys_app (h1 h2 : list effect) :
  saved_keys (h1 ++ h2) = (saved_keys h1 ++ saved_keys h2)%list.
Proof. apply omap_app. Qed.

Lemma no_repeat_snoc (keys : list string) (k : string) :
  no_repeat keys -> last keys <> Some k -> no_repeat (keys ++ [k]).
Proof.
  induction keys as [|k1 keys IH]; simpl; [auto|].
  destruct keys as [|k2 keys]; simpl in *.
  - intros _ H. split; [congruence | exact I].
  - intros [Hne Hrest] Hlast. split; [exact Hne|]. now apply IH.
Qed.

Lemma is_duplicate_false last k :
  is_duplicate last k = false -> last <> Some k.
Proof.
  destruct last as [k'|]; simpl; [|discriminate].
  intros H [= ->]. now rewrite String.eqb_refl in H.
Qed.

Lemma step_keys x y : step cb x y -> keys_consistent x -> keys_consistent y.
Proof.
  unfold keys_consistent.
  intros [app title start end_ self h|wi now b self h|sec ts b self h
         |f self h Hf _]; simpl; intros [Hlast Hnr].
  - destruct (py_int (end_ - start) <? 1)%Z eqn:Hd.
    { now rewrite close_short by assumption. }
    destruct (is_duplicate (last_saved_session self) (close_key app start))
      eqn:Hk.
    { now rewrite close_duplicate by assumption. }
    rewrite close_fresh by assumption. unfold state_of, history_of; simpl.
    rewrite saved_keys_app. unfold close_calls, saved_keys at 2 4; simpl.
    change (saved_key (close_args app title start end_))
      with (close_key app start).
    split; [now rewrite last_snoc|].
    apply no_repeat_snoc; [exact Hnr|].
    rewrite <- Hlast. now apply is_duplicate_false.
  - rewrite saved_keys_app. simpl. now rewrite app_nil_r.
  - rewrite saved_keys_app. simpl. now rewrite app_nil_r.
  - now rewrite Hf.
Qed.

Lemma reach_keys x y :
  rtc (step cb) x y -> keys_consistent x -> keys_consistent y.
Proof. induction 1; eauto using step_keys. Qed.

(** X3: along any sequence of turns, a tracker whose recorded key is the
    key of its last save keeps it so, and never hands [db_save] two records
    in a row with the same session key (normalized application name and
    start time truncated to the second). *)
Theorem run_never_saves_a_key_twice_in_a_row (xs : list turn)
    (self : RealtimeTracker) (h : list effect) :
  keys_consistent (self, h) ->
  keys_consistent (state_of (run cb xs self h), history_of (run cb xs self h)).
Proof.
  intros H. destruct (run_reach cb xs self h) as (s' & h' & -> & Hr).
  exact (reach_keys _ _ Hr H).
Qed.

End TrackerKeys.

Lemma run_never_saves_a_key_twice_in_a_row_witness :
  Tracker.keys_consistent (Scenario.started, []) /\
  Tracker.saved_keys
    (history_of (Tracker.run Scenario.cb_ok Scenario.day Scenario.started []))
  = ["Google Chrome_1000"; "Visual Studio Code_1002"] /\
  Tracker.keys_consistent
    (state_of (Tracker.run Scenario.cb_ok Scenario.day Scenario.started []),
     history_of (Tracker.run Scenario.cb_ok Scenario.day Scenario.started [])).
Proof.
  assert (H0 : Tracker.keys_consistent (Scenario.started, []))
    by (split; [reflexivity | exact I]).
  split; [exact H0|]. split; [vm_compute; reflexivity|].
  exact (run_never_saves_a_key_twice_in_a_row Scenario.cb_ok Scenario.day
           Scenario.started [] H0).
Defined.

(* --------------------------------------------------------------------- *)
(** ** The session key tells sessions apart *)
(* --------------------------------------------------------------------- *)

Section SessionKey.
Import Tracker.

Lemma string_of_uint_no_underscore (d : Decimal.uint) :
  all_chars not_underscore (NilEmpty.string_of_uint d) = true.
Proof. induction d; simpl; auto. Qed.

Lemma str_of_int_no_underscore (n : Z) :
  all_chars not_underscore (str_of_int n) = true.
Proof.
  unfold str_of_int, NilZero.string_of_int, NilZero.string_of_uint.
  destruct (Z.to_int n) as [d|d]; destruct d; simpl;
    auto using string_of_uint_no_underscore.
Qed.

Lemma to_int_proper (n : Z) :
  Z.to_int n <> Decimal.Pos Decimal.Nil /\
  Z.to_int n <> Decimal.Neg Decimal.Nil.
Proof.
  destruct n as [|p|p]; simpl; split; try discriminate;
    intros [= H]; now apply (Unsigned.to_uint_nonnil p).
Qed.

Lemma str_of_int_inj (n n' : Z) : str_of_int n = str_of_int n' -> n = n'.
Proof.
  unfold str_of_int. intros H. apply DecimalZ.to_int_inj.
  destruct (to_int_proper n) as [H1 H2], (to_int_proper n') as [H1' H2'].
  pose proof (NilZero.isi _ H1 H2) as E.
  pose proof (NilZero.isi _ H1' H2') as E'.
  rewrite H in E. rewrite E in E'. now injection E'.
Qed.

(** A string is cut in one way only at its last underscore. *)
Lemma cut_at_underscore (a1 a2 d1 d2 : string) :
  all_chars not_underscore d1 = true ->
  all_chars not_underscore d2 = true ->
  a1 ++ "_" ++ d1 = a2 ++ "_" ++ d2 -> a1 = a2 /\ d1 = d2.
Proof.
  intros H1 H2. revert a2.
  induction a1 as [|c1 a1 IH]; intros [|c2 a2]; intros E.
  - change (String "_" d1 = String "_" d2) in E. injection E as ->. auto.
  - change (String "_" d1 = String c2 (a2 ++ "_" ++ d2)) in E.
    injection E as _ ->. rewrite all_chars_append in H1.
    change (all_chars not_underscore ("_" ++ d2)) with false in H1.
    now rewrite andb_false_r in H1.
  - change (String c1 (a1 ++ "_" ++ d1) = String "_" d2) in E.
    injection E as _ <-. rewrite all_chars_append in H2.
    change (all_chars not_underscore ("_" ++ d1)) with false in H2.
    now rewrite andb_false_r in H2.
  - change (String c1 (a1 ++ "_" ++ d1) = String c2 (a2 ++ "_" ++ d2)) in E.
    injection E as -> E. destruct (IH _ E) as [-> ->]. auto.
Qed.

(** X4: two session keys are equal exactly when the normalized application
    names are equal and the start times fall in the same second (have the
    same truncation): the key never confuses two applications, nor two
    seconds. *)
Theorem session_key_inj (app1 app2 : string) (start1 start2 : Q) :
  session_key app1 start1 = session_key app2 start2 <->
  app1 = app2 /\ py_int start1 = py_int start2.
Proof.
  unfold session_key. split.
  - intros H.
    destruct (cut_at_underscore _ _ _ _
                (str_of_int_no_underscore (py_int start1))
                (str_of_int_no_underscore (py_int start2)) H) as [-> E].
    split; [reflexivity | now apply str_of_int_inj].
  - now intros [-> ->].
Qed.

End SessionKey.

Lemma session_key_inj_witness :
  Tracker.session_key "Google Chrome" 1010
  = Tracker.session_key "Google Chrome" 1010.7 /\
  py_int 1010 = py_int 1010.7.
Proof.
  assert (H : Tracker.session_key "Google Chrome" 1010
              = Tracker.session_key "Google Chrome" 1010.7) by reflexivity.
  split; [exact H|].
  exact (proj2 (proj1 (session_key_inj "Google Chrome" "Google Chrome"
                         1010 1010.7) H)).
Defined.

(* --------------------------------------------------------------------- *)
(** ** Stopping and starting again *)
(* --------------------------------------------------------------------- *)

Section StopAndRestart.
Import Tracker.
Variable cb : callbacks.

Lemma is_idle_start p m k i a d :
  IdleDetector.is_idle (IdleDetector.start p m k i a d) = IdleDetector.is_idle d.
Proof.
  unfold IdleDetector.start.
  destruct (negb p); [reflexivity|].
  now destruct (IdleDetector._running d).
Qed.

Lemma is_idle_stop d :
  IdleDetector.is_idle (IdleDetector.stop d) = IdleDetector.is_idle d.
Proof.
  unfold IdleDetector.stop. now destruct (negb (IdleDetector._running d)).
Qed.

(** [stop_tracking] on a tracker that tracks with a session open. *)
Lemma stop_open end_ self h app start :
  is_tracking self = true ->
  open_session self = Some (app, start) ->
  let c := _save_and_broadcast_session cb app
             (or_empty (current_window_title self)) start end_
             (set_is_tracking false self) h in
  stop_tracking cb end_ self h =
  (Returned tt,
   set_idle_detector (IdleDetector.stop (idle_detector (state_of c)))
     (state_of c),
   history_of c).
Proof.
  intros Htrack Hopen c. unfold stop_tracking. unfold bind at 1. unfold get.
  rewrite Htrack. cbn [negb]. unfold bind, modify. rewrite Hopen.
  fold c. pose proof (close_returns cb app
                        (or_empty (current_window_title self)) start end_
                        (set_is_tracking false self) h) as (Hres & _).
  fold c in Hres. destruct c as [[o s1] h1].
  unfold result_of in Hres. simpl in Hres. subst o. reflexivity.
Qed.

(** X5: [stop_tracking] saves the open session but does not reset it.  So
    after [start_tracking] the session of the application still in front
    goes on from its old start, and when the user then switches to another
    application, the close of that session has the key saved at the stop:
    it is skipped as a duplicate, and nothing is saved or broadcast for the
    time up to the switch but the [session_start] of the new session. *)
Theorem stop_keeps_session_then_close_is_skipped
    (self : RealtimeTracker) (h : list effect) (A : string) (start0 : Q)
    (t_stop : Q) (PYNPUT_AVAILABLE : bool) (mouse keyboard : IdleDetector.hook)
    (wiA : window_info) (t2 : Q) (wiB : window_info) (t3 : Q) :
  is_tracking self = true ->
  open_session self = Some (A, start0) ->
  IdleDetector.is_user_idle (idle_detector self) = false ->
  (1 <= t_stop - start0)%Q ->
  wi_app_name wiA = A ->
  wi_app_name wiB <> A ->
  let r1 := stop_tracking cb t_stop self h in
  let r2 := start_tracking PYNPUT_AVAILABLE mouse keyboard
              (state_of r1) (history_of r1) in
  let r3 := run cb [Tick (Some wiA) t2] (state_of r2) (history_of r2) in
  let r4 := run cb [Tick (Some wiB) t3] (state_of r3) (history_of r3) in
  open_session (state_of r1) = Some (A, start0) /\
  last_saved_session (state_of r1) = Some (close_key A start0) /\
  open_session (state_of r3) = Some (A, start0) /\
  history_of r3 = history_of r1 /\
  history_of r4 =
    (history_of r1 ++
     [WsBroadcast (start_event wiB t3)
        (ws_broadcast_returns cb (history_of r1) (start_event wiB t3))])%list /\
  session_start_time (state_of r4) = Some t3.
Proof.
  intros Htrack Hopen Hidle Hd HA HB r1 r2 r3 r4.
  apply py_int_ge_1 in Hd.
  destruct (open_session_app _ _ _ Hopen) as (Happ & Hstart & _).
  set (c := _save_and_broadcast_session cb A
              (or_empty (current_window_title self)) start0 t_stop
              (set_is_tracking false self) h).
  assert (Hr1 : r1 = (Returned tt,
                      set_idle_detector
                        (IdleDetector.stop (idle_detector (state_of c)))
                        (state_of c),
                      history_of c))
    by (apply stop_open; assumption).
  assert (Hkey : last_saved_session (state_of c) = Some (close_key A start0))
    by (apply close_records_key; assumption).
  destruct (close_returns cb A (or_empty (current_window_title self)) start0
              t_stop (set_is_tracking false self) h) as (_ & [k0 Hst] & _).
  fold c in Hst. rewrite Hst in Hkey, Hr1. simpl in Hkey. subst k0.
  set (s1 := set_idle_detector _ _) in Hr1.
  set (h1 := history_of c) in *.
  assert (Hr2 : r2 = (Returned tt,
                      set_idle_detector
                        (IdleDetector.start PYNPUT_AVAILABLE mouse keyboard
                           true true (idle_detector s1))
                        (set_is_tracking true s1), h1)).
  { subst r2. rewrite Hr1. reflexivity. }
  set (s2 := set_idle_detector _ (set_is_tracking true s1)) in Hr2.
  assert (Hidle2 : IdleDetector.is_user_idle (idle_detector s2) = false).
  { unfold IdleDetector.is_user_idle. subst s2 s1. simpl.
    now rewrite is_idle_start, is_idle_stop. }
  assert (Hopen2 : open_session s2 = Some (A, start0)) by exact Hopen.
  set (s3 := if opt_str_neq (Some (wi_window_title wiA))
                  (current_window_title s2)
             then set_current_window_title (Some (wi_window_title wiA)) s2
             else s2).
  assert (Hr3 : r3 = (Returned tt, s3, h1)).
  { subst r3. rewrite Hr2. unfold state_of, history_of. cbn [fst snd].
    simpl run. unfold bind at 1. unfold bind at 1. unfold get.
    change (is_tracking s2) with true. cbv iota.
    rewrite tick_same_app; [reflexivity | exact Hidle2 |].
    change (current_app s2) with (current_app self).
    rewrite Happ, HA. simpl. now rewrite String.eqb_refl. }
  assert (Hopen3 : open_session s3 = Some (A, start0)).
  { subst s3. now destruct (opt_str_neq _ _). }
  assert (Hidle3 : IdleDetector.is_user_idle (idle_detector s3) = false).
  { subst s3. now destruct (opt_str_neq _ _). }
  assert (Hkey3 : last_saved_session s3 = Some (close_key A start0)).
  { subst s3. now destruct (opt_str_neq _ _). }
  assert (Htrack3 : is_tracking s3 = true).
  { subst s3. now destruct (opt_str_neq _ _). }
  assert (Hr4 : r4 = (Returned tt, opened wiB t3 s3,
                      (h1 ++ [WsBroadcast (start_event wiB t3)
                                (ws_broadcast_returns cb h1
                                   (start_event wiB t3))])%list)).
  { subst r4. rewrite Hr3. unfold state_of, history_of. cbn [fst snd].
    simpl run. unfold bind at 1. unfold bind at 1. unfold get.
    rewrite Htrack3.
    rewrite tick_new_app; [|exact Hidle3|].
    - rewrite Hopen3.
      rewrite close_duplicate
        by (rewrite Hkey3; apply is_duplicate_same).
      reflexivity.
    - destruct (open_session_app _ _ _ Hopen3) as (-> & _).
      now apply opt_str_neq_Some. }
  rewrite Hr4, Hr3, Hr1. unfold state_of, history_of. cbn [fst snd].
  repeat split; try assumption; reflexivity.
Qed.

End StopAndRestart.

Lemma stop_keeps_session_then_close_is_skipped_witness :
  let r1 := Tracker.stop_tracking Scenario.cb_ok 1020 Scenario.on_chrome [] in
  let r2 := Tracker.start_tracking true IdleDetector.Hooked IdleDetector.Hooked
              (state_of r1) (history_of r1) in
  let r3 := Tracker.run Scenario.cb_ok
              [Tracker.Tick (Some Scenario.chrome_window) 1021]
              (state_of r2) (history_of r2) in
  let r4 := Tracker.run Scenario.cb_ok
              [Tracker.Tick (Some Scenario.code_window) 1030]
              (state_of r3) (history_of r3) in
  length (history_of r1) = 2%nat /\
  Tracker.open_session (state_of r3) = Some ("chrome.exe", 1010%Q) /\
  history_of r4 =
    (history_of r1 ++
     [Tracker.WsBroadcast (Tracker.start_event Scenario.code_window 1030)
        true])%list.
Proof.
  intros r1 r2 r3 r4.
  destruct (stop_keeps_session_then_close_is_skipped Scenario.cb_ok
              Scenario.on_chrome [] "chrome.exe" 1010 1020 true
              IdleDetector.Hooked IdleDetector.Hooked
              Scenario.chrome_window 1021 Scenario.code_window 1030)
    as (_ & _ & H3 & _ & H4 & _);
    try reflexivity; try discriminate.
  split; [reflexivity|]. split; [exact H3 | exact H4].
Defined.

(* --------------------------------------------------------------------- *)
(** ** Heartbeats and the current session *)
(* --------------------------------------------------------------------- *)

Section Liveness.
Import Tracker.

(** X6: a pass of the heartbeat loop returns normally and leaves the
    tracker as it was, whatever [ws_broadcast] does.  It sends a heartbeat
    exactly when [get_current_session()], asked at the same time, reports a
    session that is not idle, and then with the same application, title,
    category and elapsed seconds; otherwise it calls nothing. *)
Theorem heartbeat_agrees_with_current_session
    (returns : list heartbeat_call -> heartbeat -> bool) (now : Q)
    (self : RealtimeTracker) (h : list heartbeat_call) :
  let r := _heartbeat_loop_body returns now self h in
  result_of r = Returned tt /\ state_of r = self /\
  match get_current_session now self with
  | Some v =>
      if sv_is_idle v then history_of r = h
      else
        let p := {| hb_app := sv_app v;
                    hb_window_title := sv_window_title v;
                    hb_elapsed_sec := sv_elapsed_sec v;
                    hb_category := sv_category v;
                    hb_timestamp := now |} in
        history_of r = (h ++ [WsHeartbeat p (returns h p)])%list
  | None => history_of r = h
  end.
Proof.
  intros r.
  assert (Hr : exists h', r = (Returned tt, self, h') /\
             match get_current_session now self with
             | Some v =>
                 if sv_is_idle v then h' = h
                 else
                   h' = (h ++ [WsHeartbeat
                                 {| hb_app := sv_app v;
                                    hb_window_title := sv_window_title v;
                                    hb_elapsed_sec := sv_elapsed_sec v;
                                    hb_category := sv_category v;
                                    hb_timestamp := now |}
                                 (returns h
                                    {| hb_app := sv_app v;
                                       hb_window_title := sv_window_title v;
                                       hb_elapsed_sec := sv_elapsed_sec v;
                                       hb_category := sv_category v;
                                       hb_timestamp := now |})])%list
             | None => h' = h
             end).
  { subst r. unfold _heartbeat_loop_body, get_current_session.
    unfold try_except at 1. unfold bind, get.
    destruct (open_session self) as [[app start]|]; [|unfold ret; eauto].
    cbn [sv_is_idle sv_app sv_window_title sv_elapsed_sec sv_category].
    destruct (IdleDetector.is_user_idle (idle_detector self)); cbn [negb];
      [unfold ret; eauto|].
    unfold try_except, call, ret.
    destruct (returns h _); eauto. }
  destruct Hr as (h' & -> & Hh). now repeat split.
Qed.

(** X7: [get_current_session()] reports a session exactly when one is open,
    and reports its start time.  After the pass of the idle monitor that
    starts an idle episode it reports none; after [stop_tracking()] it still
    reports the session that was open. *)
Theorem current_session_after_idle_and_stop (cb : callbacks)
    (self : RealtimeTracker) (h : list effect) (A : string) (start0 : Q)
    (t_idle end_idle ts_idle t_stop now : Q) :
  is_tracking self = true ->
  open_session self = Some (A, start0) ->
  let d := idle_detector self in
  IdleDetector.is_idle d = false ->
  IdleDetector._monitor_task d && IdleDetector._running d = true ->
  IdleDetector.idle_callback d = true ->
  (inject_Z (IdleDetector.idle_threshold d)
   <= t_idle - IdleDetector.last_activity_time d)%Q ->
  (exists v, get_current_session now self = Some v /\
             sv_start_time v = start0 /\
             sv_elapsed_sec v = py_int (now - start0)) /\
  get_current_session now
    (state_of (idle_monitor_pass cb t_idle end_idle ts_idle self h)) = None /\
  (exists v, get_current_session now
               (state_of (stop_tracking cb t_stop self h)) = Some v /\
             sv_start_time v = start0).
Proof.
  intros Htrack Hopen d Hidle Hrun Hcb Hthr. split; [|split].
  - unfold get_current_session. rewrite Hopen. eauto.
  - destruct (idle_monitor_fires cb self h A start0 t_idle end_idle ts_idle
                Hopen Hidle Hrun Hcb Hthr) as (k & calls & b & -> & _).
    reflexivity.
  - rewrite (stop_open cb t_stop self h A start0 Htrack Hopen).
    destruct (close_returns cb A (or_empty (current_window_title self)) start0
                t_stop (set_is_tracking false self) h) as (_ & [k0 Hst] & _).
    unfold state_of at 1. cbn [fst snd]. rewrite Hst.
    unfold get_current_session.
    change (open_session _) with (open_session self). rewrite Hopen. eauto.
Qed.

End Liveness.

Lemma current_session_after_idle_and_stop_witness :
  (exists v, Tracker.get_current_session 1100 Scenario.on_chrome = Some v /\
             Tracker.sv_elapsed_sec v = 90%Z) /\
  Tracker.get_current_session 1300
    (state_of (Tracker.idle_monitor_pass Scenario.cb_ok 1200 1200 1200
                 Scenario.on_chrome [])) = None /\
  (exists v, Tracker.get_current_session 1300
               (state_of (Tracker.stop_tracking Scenario.cb_ok 1020
                            Scenario.on_chrome [])) = Some v /\
             Tracker.sv_start_time v = 1010%Q).
Proof.
  destruct (current_session_after_idle_and_stop Scenario.cb_ok
              Scenario.on_chrome [] "chrome.exe" 1010 1200 1200 1200 1020 1300)
    as (_ & Hidle & Hstop); try reflexivity; try discriminate.
  split; [|split; [exact Hidle | exact Hstop]].
  eexists. split; reflexivity.
Defined.

Section SameApplication.
Import Tracker.
Variable cb : callbacks.

(** X8: a pass that is not idle and sees the application of the current
    session again calls neither callback and keeps the session: its
    application and its start time stay, and the window title becomes the
    one just seen. *)
Theorem same_app_pass_only_refreshes_title
    (self : RealtimeTracker) (h : list effect) (wi : window_info) (now : Q) :
  IdleDetector.is_user_idle (idle_detector self) = false ->
  current_app self = Some (wi_app_name wi) ->
  let r := _tracking_loop_body cb (Some wi) now self h in
  result_of r = Returned tt /\ history_of r = h /\
  current_app (state_of r) = current_app self /\
  session_start_time (state_of r) = session_start_time self /\
  last_saved_session (state_of r) = last_saved_session self /\
  current_window_title (state_of r) = Some (wi_window_title wi).
Proof.
  intros Hidle Happ r. subst r. rewrite tick_same_app; try assumption.
  - unfold result_of, state_of, history_of. cbn [fst snd].
    destruct (current_window_title self) as [t|] eqn:Ht; simpl.
    + destruct (String.eqb (wi_window_title wi) t) eqn:E; simpl.
      * apply String.eqb_eq in E. subst t. now repeat split.
      * now repeat split.
    + now repeat split.
  - rewrite Happ. simpl. now rewrite String.eqb_refl.
Qed.

End SameApplication.

Lemma same_app_pass_only_refreshes_title_witness :
  let r := Tracker._tracking_loop_body Scenario.cb_ok
             (Some (Tracker.mk_window "chrome.exe" "Calendar")) 1015
             Scenario.on_chrome [] in
  history_of r = [] /\
  Tracker.session_start_time (state_of r) = Some 1010%Q /\
  Tracker.current_window_title (state_of r) = Some "Calendar".
Proof.
  intros r.
  destruct (same_app_pass_only_refreshes_title Scenario.cb_ok
              Scenario.on_chrome [] (Tracker.mk_window "chrome.exe" "Calendar")
              1015) as (_ & Hh & _ & Hs & _ & Ht); try reflexivity.
  split; [exact Hh|]. split; [exact Hs | exact Ht].
Defined.

(* --------------------------------------------------------------------- *)
(** ** The idle detector: one callback per idle episode *)
(* --------------------------------------------------------------------- *)

Section IdleEpisodes.
Import IdleDetector.

Lemma fires_not_idle o d : fires o d = true -> is_idle d = false.
Proof.
  destruct o; simpl; try discriminate.
  unfold _monitor_idle_state_body.
  destruct (is_idle d); [|reflexivity].
  simpl. now rewrite andb_false_r.
Qed.

Lemma fires_sets_idle p o d : fires o d = true -> is_idle (run_op p o d) = true.
Proof.
  destruct o; simpl; try discriminate.
  destruct (_monitor_task d && _running d); [|discriminate].
  unfold _monitor_idle_state_body.
  destruct (negb (is_idle d) && _); simpl; [reflexivity | discriminate].
Qed.

Lemma fires_after_threshold o d :
  fires o d = true ->
  exists now, o = OpMonitor now /\
    (inject_Z (idle_threshold d) <= now - last_activity_time d)%Q.
Proof.
  destruct o as [| | |now| |]; simpl; try discriminate.
  unfold _monitor_idle_state_body.
  destruct (negb (is_idle d)); simpl;
    [|now rewrite andb_false_r].
  destruct (Qle_bool _ _) eqn:E; simpl; [|now rewrite andb_false_r].
  intros _. exists now. split; [reflexivity | now apply Qle_bool_iff].
Qed.

Lemma idle_never_fires p os d :
  forallb (fun o => negb (is_activity o)) os = true ->
  is_idle d = true -> count_fires p os d = 0%nat.
Proof.
  revert d. induction os as [|o os IH]; intros d Hos Hi; [reflexivity|].
  simpl in *. apply andb_true_iff in Hos as [Ho Hos].
  apply negb_true_iff in Ho.
  destruct (fires o d) eqn:Hf.
  - apply fires_not_idle in Hf. congruence.
  - simpl. apply IH; [assumption|]. now apply run_op_keeps_idle.
Qed.

(** X9: along operations among which no input event occurs (passes of the
    monitor at any times, [start], [stop], reads), [idle_callback] is
    awaited at most once, and not at all when the detector is already idle:
    an idle episode is announced once, however long it lasts.  The pass that
    announces it sees at least [idle_threshold] seconds since the last
    activity. *)
Theorem idle_callback_once_per_episode
    (PYNPUT_AVAILABLE : bool) (os : list op) (d : t) :
  forallb (fun o => negb (is_activity o)) os = true ->
  (count_fires PYNPUT_AVAILABLE os d <= 1)%nat /\
  (is_idle d = true -> count_fires PYNPUT_AVAILABLE os d = 0%nat) /\
  (forall o, fires o d = true ->
     exists now, o = OpMonitor now /\
       (inject_Z (idle_threshold d) <= now - last_activity_time d)%Q).
Proof.
  intros Hos. split; [|split].
  - revert d. induction os as [|o os IH]; intros d; simpl; [lia|].
    simpl in Hos. apply andb_true_iff in Hos as [Ho Hos].
    destruct (fires o d) eqn:Hf.
    + rewrite (idle_never_fires _ os _ Hos (fires_sets_idle _ _ _ Hf)). lia.
    + specialize (IH Hos (run_op PYNPUT_AVAILABLE o d)). lia.
  - now apply idle_never_fires.
  - intros o. apply fires_after_threshold.
Qed.

End IdleEpisodes.

Lemma idle_callback_once_per_episode_witness :
  let os :=
    [IdleDetector.OpStart IdleDetector.Hooked IdleDetector.Hooked true true;
     IdleDetector.OpMonitor 1100; IdleDetector.OpMonitor 1200;
     IdleDetector.OpMonitor 1205; IdleDetector.OpIsUserIdle;
     IdleDetector.OpMonitor 1900] in
  forallb (fun o => negb (IdleDetector.is_activity o)) os = true /\
  (IdleDetector.count_fires true os (IdleDetector.init 180 1000) <= 1)%nat /\
  IdleDetector.count_fires true os (IdleDetector.init 180 1000) = 1%nat.
Proof.
  intros os. split; [reflexivity|]. split; [|reflexivity].
  apply (idle_callback_once_per_episode true os (IdleDetector.init 180 1000)).
  reflexivity.
Defined.

(* --------------------------------------------------------------------- *)
(** ** save_usage_with_retry for any bound *)
(* --------------------------------------------------------------------- *)

Section RetryInGeneral.
Import Database.
Variable db : nat -> attempt_result.

Lemma attempt_cases (r : attempt_result) :
  r = Committed \/ lock_busy r = true \/ hard_failure r = true.
Proof.
  destruct r as [|message|]; simpl; auto.
  destruct (is_locked message); auto.
Qed.

Lemma lock_busy_not_committed r : lock_busy r = true -> r <> Committed.
Proof. now destruct r. Qed.

Lemma hard_failure_not_committed r : hard_failure r = true -> r <> Committed.
Proof. now destruct r. Qed.

Lemma hard_failure_not_busy r : hard_failure r = true -> lock_busy r = false.
Proof.
  destruct r as [|message|]; simpl; try reflexivity; try discriminate.
  now intros ->%negb_true_iff.
Qed.

(** The loop on the last [m] attempts of a range of [N]. *)
Lemma retry_suffix_true (N m a : nat) :
  (a + m = N)%nat ->
  (retry_loop db (Z.of_nat N) (seq a m)).1 = true ->
  exists k, (a <= k < N)%nat /\ db k = Committed /\
            forall j, (a <= j < k)%nat -> lock_busy (db j) = true.
Proof.
  revert a. induction m as [|m IH]; intros a Hm; [discriminate|].
  change (seq a (S m)) with (a :: seq (S a) m).
  destruct (attempt_cases (db a)) as [Hc|[Hb|Hh]].
  - rewrite (committed_step _ _ _ _ Hc). intros _.
    exists a. split; [lia|]. split; [exact Hc|]. intros j Hj. lia.
  - rewrite (lock_busy_step _ _ _ _ Hb).
    destruct (Z.of_nat a =? Z.of_nat N - 1)%Z; [discriminate|].
    cbn [fst]. intros Hr.
    destruct (IH (S a) ltac:(lia) Hr) as (k & Hk & Hck & Hj).
    exists k. split; [lia|]. split; [exact Hck|].
    intros j Hj'. destruct (Nat.eq_dec j a) as [->|]; [exact Hb|].
    apply Hj. lia.
  - rewrite (hard_failure_step _ _ _ _ Hh). discriminate.
Qed.

Lemma retry_suffix_commits (N m a k : nat) :
  (a + m = N)%nat -> (a <= k < N)%nat -> db k = Committed ->
  (forall j, (a <= j < k)%nat -> lock_busy (db j) = true) ->
  (retry_loop db (Z.of_nat N) (seq a m)).1 = true /\
  attempts_made (retry_loop db (Z.of_nat N) (seq a m)).2 = S (k - a).
Proof.
  revert a. induction m as [|m IH]; intros a Hm Hk Hc Hj; [lia|].
  change (seq a (S m)) with (a :: seq (S a) m).
  destruct (Nat.eq_dec k a) as [->|Hne].
  - rewrite (committed_step _ _ _ _ Hc). split; [reflexivity|].
    rewrite Nat.sub_diag. reflexivity.
  - assert (Hb : lock_busy (db a) = true) by (apply Hj; lia).
    rewrite (lock_busy_step _ _ _ _ Hb).
    destruct (Z.eqb_spec (Z.of_nat a) (Z.of_nat N - 1)) as [E|_]; [lia|].
    cbn [fst snd].
    destruct (IH (S a)) as [Hr Hn]; [lia | lia | exact Hc | |].
    { intros j Hj'. apply Hj. lia. }
    split; [exact Hr|].
    rewrite !attempts_made_cons. cbn [is_try]. rewrite Hn. lia.
Qed.

(** X10: for any bound [max_retries], [save_usage_with_retry] returns
    [True] exactly when some attempt below the bound commits and all the
    attempts before it failed on a busy lock; the commit is then the last
    attempt made.  With a bound of zero or less it makes no attempt and
    returns [False]. *)
Theorem save_usage_with_retry_succeeds_iff (max_retries : Z) :
  ((save_usage_with_retry db max_retries).1 = true <->
   exists k : nat,
     (Z.of_nat k < max_retries)%Z /\ db k = Committed /\
     forall j : nat, (j < k)%nat -> lock_busy (db j) = true) /\
  (forall k : nat,
     (Z.of_nat k < max_retries)%Z -> db k = Committed ->
     (forall j : nat, (j < k)%nat -> lock_busy (db j) = true) ->
     attempts_made (save_usage_with_retry db max_retries).2 = S k) /\
  ((max_retries <= 0)%Z -> save_usage_with_retry db max_retries = (false, [])).
Proof.
  unfold save_usage_with_retry.
  destruct (Z.le_gt_cases max_retries 0) as [Hle|Hgt].
  { replace (Z.to_nat max_retries) with 0%nat by lia. simpl.
    split; [|split; [|reflexivity]].
    - split; [discriminate|]. intros (k & Hk & _). lia.
    - intros k Hk. lia. }
  assert (E : max_retries = Z.of_nat (Z.to_nat max_retries)) by lia.
  set (N := Z.to_nat max_retries) in *. rewrite E.
  split; [split|split].
  - intros Hr.
    destruct (retry_suffix_true N N 0 eq_refl Hr) as (k & Hk & Hc & Hj).
    exists k. split; [lia|]. split; [exact Hc|]. intros j Hj'. apply Hj. lia.
  - intros (k & Hk & Hc & Hj).
    assert (Hj0 : forall j, (0 <= j < k)%nat -> lock_busy (db j) = true)
      by (intros j Hj'; apply Hj; lia).
    exact (proj1 (retry_suffix_commits N N 0 k eq_refl ltac:(lia) Hc Hj0)).
  - intros k Hk Hc Hj.
    assert (Hj0 : forall j, (0 <= j < k)%nat -> lock_busy (db j) = true)
      by (intros j Hj'; apply Hj; lia).
    rewrite (proj2 (retry_suffix_commits N N 0 k eq_refl ltac:(lia) Hc Hj0)).
    f_equal. lia.
  - lia.
Qed.

Lemma delays_prefix (max_retries : Z) (attempts : list nat) :
  delays (retry_loop db max_retries attempts).2 `prefix_of`
  map backoff attempts.
Proof.
  induction attempts as [|a rest IH]; simpl; [reflexivity|].
  destruct (db a) as [|message|]; simpl; try apply prefix_nil.
  destruct (is_locked message); simpl; [|apply prefix_nil].
  destruct (Z.of_nat a =? max_retries - 1)%Z; simpl.
  - apply prefix_cons, prefix_nil.
  - now apply prefix_cons.
Qed.

Lemma delays_busy (max_retries : Z) (attempts : list nat) :
  length (delays (retry_loop db max_retries attempts).2)
  = busy_attempts db (retry_loop db max_retries attempts).2.
Proof.
  unfold busy_attempts.
  induction attempts as [|a rest IH]; [reflexivity|].
  assert (Hno : forall c rest',
             is_busy_try db c = false ->
             filter (fun c => is_busy_try db c = true) (c :: rest')
             = filter (fun c => is_busy_try db c = true) rest').
  { intros c rest' Hc. apply filter_cons_False. now rewrite Hc. }
  cbn [retry_loop].
  destruct (db a) as [|message|] eqn:E.
  - cbn [snd delays]. rewrite Hno; [reflexivity|].
    unfold is_busy_try. now rewrite E.
  - destruct (is_locked message) eqn:L.
    + assert (Hyes : is_busy_try db (TryCommit a) = true)
        by (unfold is_busy_try, lock_busy; now rewrite E).
      destruct (Z.of_nat a =? max_retries - 1)%Z; cbn [snd delays];
        rewrite filter_cons_True by exact Hyes;
        rewrite !Hno by reflexivity; cbn [length];
        [reflexivity | now rewrite IH].
    + cbn [snd delays]. rewrite Hno; [now rewrite Hno|].
      unfold is_busy_try, lock_busy. now rewrite E.
  - cbn [snd delays]. rewrite Hno; [now rewrite Hno|].
    unfold is_busy_try. now rewrite E.
Qed.

(** X11: [save_usage_with_retry] sleeps once after each attempt that failed
    on a busy lock, the last one included, and at no other time; the delays
    are, in order, those of the attempts 0, 1, 2, ...: [(2 ** attempt) * 0.1]
    seconds, each twice the one before; so there are [max_retries] of them
    at most. *)
Theorem save_usage_with_retry_backoff (max_retries : Z) :
  let calls := (save_usage_with_retry db max_retries).2 in
  delays calls `prefix_of` map backoff (seq 0 (Z.to_nat max_retries)) /\
  length (delays calls) = busy_attempts db calls /\
  (length (delays calls) <= Z.to_nat max_retries)%nat /\
  (forall attempt, backoff (S attempt) == 2 * backoff attempt)%Q.
Proof.
  intros calls. subst calls.
  pose proof (delays_prefix max_retries (seq 0 (Z.to_nat max_retries)))
    as Hp.
  fold (save_usage_with_retry db max_retries) in Hp.
  split; [exact Hp|]. split; [apply delays_busy|]. split.
  - apply prefix_length in Hp.
    now rewrite length_map, length_seq in Hp.
  - intros attempt. unfold backoff.
    rewrite Nat2Z.inj_succ, Z.pow_succ_r by lia.
    rewrite inject_Z_mult. ring.
Qed.

End RetryInGeneral.

Lemma save_usage_with_retry_succeeds_iff_witness :
  (Database.save_usage_with_retry
     (Database.results
        [Scenario.locked; Scenario.locked; Scenario.locked; Scenario.locked;
         Database.Committed]) 5).1 = true /\
  Database.attempts_made
    (Database.save_usage_with_retry
       (Database.results
          [Scenario.locked; Scenario.locked; Scenario.locked; Scenario.locked;
           Database.Committed]) 5).2 = 5%nat /\
  Database.save_usage_with_retry (Database.results []) (-1) = (false, []).
Proof.
  destruct (save_usage_with_retry_succeeds_iff
              (Database.results
                 [Scenario.locked; Scenario.locked; Scenario.locked;
                  Scenario.locked; Database.Committed]) 5)
    as ([_ Hiff] & Hn & _).
  destruct (save_usage_with_retry_succeeds_iff (Database.results []) (-1))
    as (_ & _ & Hzero).
  assert (Hbusy : forall j : nat, (j < 4)%nat ->
            Database.lock_busy
              (Database.results
                 [Scenario.locked; Scenario.locked; Scenario.locked;
                  Scenario.locked; Database.Committed] j) = true).
  { intros j Hj. destruct j as [|[|[|[|j]]]]; try reflexivity. lia. }
  split; [|split].
  - apply Hiff. exists 4%nat. split; [lia|]. split; [reflexivity | exact Hbusy].
  - apply (Hn 4%nat); [lia | reflexivity | exact Hbusy].
  - apply Hzero. lia.
Defined.

(* --------------------------------------------------------------------- *)
(** ** The registry across broadcasts *)
(* --------------------------------------------------------------------- *)

Section Registry.
Import ConnectionManager.
Context {message : Type}.

Lemma failed_cons (w : WebSocket) (m : message) (b : bool) cs :
  failed (SendJson w m b :: cs) = if b then failed cs else w :: failed cs.
Proof. now destruct b. Qed.

Lemma failed_stable (fails : WebSocket -> bool) (m : message) l h w :
  w ∈ failed (sends_to (stable fails) m l h) <-> w ∈ l /\ fails w = true.
Proof.
  revert h. induction l as [|c l IH]; intros h.
  - unfold failed; simpl. rewrite !elem_of_nil. tauto.
  - cbn [sends_to]. rewrite failed_cons. unfold stable at 1.
    destruct (fails c) eqn:E; cbn [negb].
    + rewrite !elem_of_cons, IH.
      split; [intros [->|[? ?]]; auto | intros [[->|?] ?]; auto].
    + rewrite elem_of_cons, IH.
      split; [intros [? ?]; auto | intros [[->|?] ?]; [congruence | auto]].
Qed.

Lemma failed_none (fails : WebSocket -> bool) (m : message) l h :
  (forall w, w ∈ l -> fails w = false) ->
  failed (sends_to (stable fails) m l h) = [].
Proof.
  intros H. destruct (failed (sends_to (stable fails) m l h)) as [|w ws] eqn:E;
    [reflexivity|].
  assert (Hw : w ∈ failed (sends_to (stable fails) m l h))
    by (rewrite E; apply elem_of_cons; auto).
  apply failed_stable in Hw as [Hin Hf]. rewrite (H w Hin) in Hf. discriminate.
Qed.


(** X12: when each connection either always fails or never does, and no
    other coroutine changes the registry during the sends, a broadcast
    leaves in the registry exactly the connections that do not fail, and the
    broadcast that follows, of any message, reaches every one of them once,
    fails on none and removes none. *)
Theorem broadcast_after_pruning (fails : WebSocket -> bool) (m1 m2 : message)
    (active : gset WebSocket) (h : list (send message))
    (others1 others2 : list (option change)) :
  let r1 := broadcast (stable fails) others1 m1 active h in
  let r2 := broadcast (stable fails) others2 m2 (state_of r1)
              (history_of r1) in
  undisturbed active others1 ->
  undisturbed (state_of r1) others2 ->
  (forall w, w ∈ state_of r1 <-> w ∈ active /\ fails w = false) /\
  result_of r2 = Returned tt /\
  state_of r2 = state_of r1 /\
  exists sends,
    history_of r2 = (history_of r1 ++ sends)%list /\
    failed sends = [] /\
    map connection_of sends = elements (state_of r1).
Proof.
  intros r1 r2 H1.
  set (s1 := active ∖ list_to_set
               (failed (sends_to (stable fails) m1 (elements active) h))).
  set (h1 := (h ++ sends_to (stable fails) m1 (elements active) h)%list).
  assert (E1 : r1 = (Returned tt, s1, h1))
    by (now apply broadcast_spec).
  subst r2. rewrite E1. unfold state_of, history_of.
  cbn [fst snd]. intros H2.
  rewrite (broadcast_spec _ _ _ _ _ H2).
  unfold result_of. cbn [fst snd].
  assert (Hs1 : forall w, w ∈ s1 <-> w ∈ active /\ fails w = false).
  { intros w. subst s1.
    rewrite elem_of_difference, elem_of_list_to_set, failed_stable,
      elem_of_elements.
    destruct (fails w); split; intros [? ?]; split; auto;
      try congruence; try tauto.
    intros [_ ?]. discriminate. }
  assert (Hnone : failed (sends_to (stable fails) m2 (elements s1) h1) = []).
  { apply failed_none. intros w Hw. apply elem_of_elements in Hw.
    now apply Hs1 in Hw. }
  split; [exact Hs1|]. split; [reflexivity|]. split.
  - rewrite Hnone. simpl. now rewrite difference_empty_L.
  - eexists. split; [reflexivity|]. split; [exact Hnone|].
    apply connection_of_sends_to.
Qed.


End Registry.

Lemma broadcast_after_pruning_witness :
  let fails := fun w : ConnectionManager.WebSocket => (w =? 3)%positive in
  let r1 := ConnectionManager.broadcast (ConnectionManager.stable fails)
              [Some (ConnectionManager.Disconnects 9%positive)]
              "session_end" Scenario.five [] in
  let r2 := ConnectionManager.broadcast (ConnectionManager.stable fails)
              [None; Some (ConnectionManager.Connects 4%positive)]
              "session_start" (state_of r1) (history_of r1) in
  state_of r1 = {[ 1%positive; 2%positive; 4%positive; 5%positive ]} /\
  result_of r2 = Returned tt /\
  state_of r2 = state_of r1.
Proof.
  intros fails r1 r2.
  assert (Hnot : 9%positive ∉ Scenario.five).
  { unfold Scenario.five.
    rewrite !not_elem_of_union, !not_elem_of_singleton.
    repeat split; discriminate. }
  destruct (broadcast_after_pruning fails "session_end" "session_start"
              Scenario.five []
              [Some (ConnectionManager.Disconnects 9%positive)]
              [None; Some (ConnectionManager.Connects 4%positive)])
    as (_ & Hres & Hst & _).
  - constructor; [exact Hnot | constructor].
  - constructor; [exact I|]. constructor; [|constructor].
    vm_compute. reflexivity.
  - split; [vm_compute; reflexivity|]. split; [exact Hres | exact Hst].
Defined.


(* --------------------------------------------------------------------- *)
(** ** More of tracker/utils.py *)
(* --------------------------------------------------------------------- *)

Section Categories.

Lemma dict_get_value (d : list (string * string)) (k v : string) :
  dict_get d k = Some v -> In v (map snd d).
Proof.
  induction d as [|[k' v'] d IH]; simpl; [discriminate|].
  destruct (String.eqb k' k); [intros [= ->]; auto | auto].
Qed.

End Categories.

Section UtilsFacts.

(** X14: whatever the application name, its category has a weight of its
    own in [PRODUCTIVITY_WEIGHTS], which [get_productivity_score] returns,
    and that weight lies between 0 and 1: the default weight is never what
    scores a category given by [get_app_category]. *)
Theorem category_always_weighted (app_name : string) :
  exists w : Q,
    lookup_key PRODUCTIVITY_WEIGHTS (get_app_category app_name) = Some w /\
    get_productivity_score (get_app_category app_name) = w /\
    (0 <= w)%Q /\ (w <= 1)%Q.
Proof.
  assert (Hw : weighted (get_app_category app_name) = true).
  { unfold get_app_category.
    destruct (dict_get APP_CATEGORIES app_name) as [v|] eqn:E; [|reflexivity].
    apply dict_get_value in E.
    assert (Hall : forallb weighted (map snd APP_CATEGORIES) = true)
      by reflexivity.
    rewrite forallb_forall in Hall. now apply Hall. }
  unfold weighted in Hw. unfold get_productivity_score.
  destruct (lookup_key PRODUCTIVITY_WEIGHTS (get_app_category app_name))
    as [w|]; [|discriminate].
  apply andb_true_iff in Hw as [H0 H1].
  exists w. repeat split; now apply Qle_bool_iff.
Qed.

Lemma first_char_lstrip (s : string) (c : ascii) :
  first_char (lstrip s) = Some c -> isspace c = false.
Proof.
  induction s as [|c' s IH]; simpl; [discriminate|].
  destruct (isspace c') eqn:E; [exact IH|].
  simpl. now intros [= <-].
Qed.

Lemma first_char_rstrip (s : string) (c : ascii) :
  first_char (rstrip s) = Some c -> first_char s = Some c.
Proof.
  destruct s as [|c' s]; simpl; [discriminate|].
  destruct (rstrip s); [destruct (isspace c'); [discriminate|]|]; simpl; auto.
Qed.

Lemma last_char_rstrip (s : string) (c : ascii) :
  last_char (rstrip s) = Some c -> isspace c = false.
Proof.
  induction s as [|c' s IH]; simpl; [discriminate|].
  destruct (rstrip s) as [|c2 r] eqn:E.
  - destruct (isspace c') eqn:Es; simpl; [discriminate|]. now intros [= <-].
  - exact IH.
Qed.

Lemma strip_trimmed (s : string) (c : ascii) :
  first_char (strip s) = Some c \/ last_char (strip s) = Some c ->
  isspace c = false.
Proof.
  unfold strip. intros [H|H].
  - apply first_char_rstrip in H. now apply first_char_lstrip in H.
  - now apply last_char_rstrip in H.
Qed.

(** X15: for every title and every [max_length], the first and the last
    character of what [sanitize_window_title] returns, when it is not empty,
    are not white space. *)
Theorem sanitize_window_title_trimmed (title : string) (max_length : Z)
    (c : ascii) :
  first_char (sanitize_window_title title max_length) = Some c \/
  last_char (sanitize_window_title title max_length) = Some c ->
  isspace c = false.
Proof.
  unfold sanitize_window_title.
  destruct (negb (truthy_str title)); [intros [H|H]; discriminate|].
  apply strip_trimmed.
Qed.

Lemma sanitize_window_title_trimmed_witness :
  sanitize_window_title "  Inbox - Mail  " default_max_length = "Inbox - Mail" /\
  isspace "I" = false /\ isspace "l" = false.
Proof.
  split; [reflexivity|]. split.
  - apply (sanitize_window_title_trimmed "  Inbox - Mail  "
             default_max_length "I"). left. reflexivity.
  - apply (sanitize_window_title_trimmed "  Inbox - Mail  "
             default_max_length "l"). right. reflexivity.
Defined.

(** X16: from one hour on, [format_duration] shows hours and minutes only:
    all the seconds of a minute give the same text, that of the whole
    minute. *)
Theorem format_duration_drops_seconds (seconds : Z) :
  (3600 <= seconds)%Z ->
  format_duration seconds = format_duration (60 * (seconds / 60)).
Proof.
  intros H. unfold format_duration.
  assert (H60 : (60 <= seconds / 60)%Z)
    by (apply Z.div_le_lower_bound; lia).
  replace (60 * (seconds / 60) / 60)%Z with (seconds / 60)%Z
    by (rewrite Z.mul_comm, Z.div_mul; lia).
  destruct (Z.ltb_spec seconds 60); [lia|].
  destruct (Z.ltb_spec (60 * (seconds / 60)) 60); [lia|].
  destruct (Z.ltb_spec (seconds / 60) 60); [lia|].
  reflexivity.
Qed.

Lemma format_duration_drops_seconds_witness :
  (3600 <= 3725)%Z /\
  format_duration 3725 = "1h 2m" /\
  format_duration 3725 = format_duration (60 * (3725 / 60)).
Proof.
  split; [lia|]. split; [reflexivity|].
  apply (format_duration_drops_seconds 3725). lia.
Defined.

End UtilsFacts.

(* --------------------------------------------------------------------- *)
(** ** normalize_app_name does not look at the case *)
(* --------------------------------------------------------------------- *)

Section CaseInsensitive.

Ltac all_ascii c := destruct c as [[] [] [] [] [] [] [] []]; reflexivity.

Lemma lower_char_idem (c : ascii) : lower_char (lower_char c) = lower_char c.
Proof. all_ascii c. Qed.

Lemma clean_lower_char (c : ascii) :
  clean_char (lower_char c) = lower_char (clean_char c).
Proof. all_ascii c. Qed.

Lemma isspace_lower_char (c : ascii) : isspace (lower_char c) = isspace c.
Proof. all_ascii c. Qed.

Lemma case_stable_clean_char (c : ascii) : case_stable (clean_char c) = true.
Proof. all_ascii c. Qed.

Lemma map_chars_map_chars (f g : ascii -> ascii) (s : string) :
  map_chars f (map_chars g s) = map_chars (fun c => f (g c)) s.
Proof. induction s as [|c s IH]; simpl; [reflexivity | now rewrite IH]. Qed.

Lemma map_chars_ext (f g : ascii -> ascii) (s : string) :
  (forall c, f c = g c) -> map_chars f s = map_chars g s.
Proof.
  intros H. induction s as [|c s IH]; simpl; [reflexivity|].
  now rewrite H, IH.
Qed.

Lemma lower_idem (s : string) : lower (lower s) = lower s.
Proof.
  unfold lower. rewrite map_chars_map_chars.
  apply map_chars_ext, lower_char_idem.
Qed.

Lemma clean_lower (s : string) :
  map_chars clean_char (lower s) = lower (map_chars clean_char s).
Proof.
  unfold lower. rewrite !map_chars_map_chars.
  apply map_chars_ext, clean_lower_char.
Qed.

Lemma rev_app_map_chars (f : ascii -> ascii) (s1 s2 : string) :
  String.rev_app (map_chars f s1) (map_chars f s2)
  = map_chars f (String.rev_app s1 s2).
Proof.
  revert s2. induction s1 as [|c s1 IH]; intros s2; simpl; [reflexivity|].
  apply (IH (String c s2)).
Qed.

Lemma rev_lower (s : string) : String.rev (lower s) = lower (String.rev s).
Proof. apply (rev_app_map_chars lower_char s ""). Qed.

Lemma truthy_lower (s : string) : truthy_str (lower s) = truthy_str s.
Proof. now destruct s. Qed.

Lemma split_go_lower (cur s : string) :
  split_go (lower cur) (lower s) = map lower (split_go cur s).
Proof.
  revert cur. induction s as [|c s IH]; intros cur; simpl.
  - rewrite truthy_lower. destruct (truthy_str cur); [|reflexivity].
    simpl. now rewrite rev_lower.
  - rewrite isspace_lower_char. destruct (isspace c).
    + rewrite truthy_lower. destruct (truthy_str cur); simpl.
      * rewrite rev_lower. f_equal. apply (IH "").
      * apply (IH "").
    + apply (IH (String c cur)).
Qed.

Lemma all_chars_rev_app (p : ascii -> bool) (s1 s2 : string) :
  all_chars p s1 = true -> all_chars p s2 = true ->
  all_chars p (String.rev_app s1 s2) = true.
Proof.
  revert s2. induction s1 as [|c s1 IH]; intros s2; simpl; [auto|].
  intros [Hc H1]%andb_true_iff H2. apply IH; [exact H1|].
  simpl. now rewrite Hc.
Qed.

Lemma all_chars_split_go (p : ascii -> bool) (cur s : string) :
  all_chars p cur = true -> all_chars p s = true ->
  Forall (fun w => all_chars p w = true) (split_go cur s).
Proof.
  revert cur. induction s as [|c s IH]; intros cur Hcur; simpl.
  - intros _. destruct (truthy_str cur); constructor; [|constructor].
    now apply all_chars_rev_app.
  - intros [Hc Hs]%andb_true_iff. destruct (isspace c).
    + destruct (truthy_str cur).
      * constructor; [now apply all_chars_rev_app | now apply IH].
      * now apply IH.
    + apply IH; [|exact Hs]. simpl. now rewrite Hc.
Qed.

Lemma all_chars_map_chars (p : ascii -> bool) (f : ascii -> ascii) (s : string) :
  (forall c, p (f c) = true) -> all_chars p (map_chars f s) = true.
Proof.
  intros H. induction s as [|c s IH]; simpl; [reflexivity|].
  now rewrite H, IH.
Qed.

Lemma capitalize_lower (w : string) :
  all_chars case_stable w = true -> capitalize (lower w) = capitalize w.
Proof.
  destruct w as [|c r]; simpl; [reflexivity|].
  intros [Hc _]%andb_true_iff. unfold case_stable in Hc.
  apply Ascii.eqb_eq in Hc. fold (lower r). fold (lower (lower r)).
  now rewrite Hc, lower_idem.
Qed.

(** X17: [normalize_app_name] gives the same name whatever the case of the
    raw name: lower-casing the raw name first changes nothing, be the name
    in [APP_NAME_MAPPING] or not. *)
Theorem normalize_app_name_ignores_case (raw_name : string) :
  normalize_app_name (lower raw_name) = normalize_app_name raw_name.
Proof.
  unfold normalize_app_name. rewrite truthy_lower, lower_idem.
  destruct (negb (truthy_str raw_name)); [reflexivity|].
  destruct (dict_get APP_NAME_MAPPING _); [reflexivity|].
  f_equal. rewrite clean_lower. unfold split.
  change "" with (lower "") at 1. rewrite split_go_lower, map_map.
  apply map_ext_in. intros w Hw. apply capitalize_lower.
  pose proof (all_chars_split_go case_stable ""
                (map_chars clean_char raw_name) eq_refl
                (all_chars_map_chars _ _ _ case_stable_clean_char)) as Hall.
  rewrite Forall_forall in Hall. apply Hall. now apply list_elem_of_In.
Qed.

End CaseInsensitive.

(* --------------------------------------------------------------------- *)
(** ** Input events and the countdown to idle *)
(* --------------------------------------------------------------------- *)

Section Countdown.
Import IdleDetector.

(** X18: an input event ends the idle state and restarts the countdown:
    after an event at time [t] the detector is not idle, and a pass of the
    monitor at time [t'] announces an idle episode only if [t' - t] has
    reached the threshold.  [active_callback] is called by the event exactly
    when the detector was idle and the callback is set.  The release of a
    mouse button is not an input event: it changes nothing. *)
Theorem activity_restarts_countdown (d : t) (current_time later : Q) :
  let r := _on_activity current_time d in
  is_idle r.1 = false /\
  last_activity_time r.1 = current_time /\
  r.2 = is_idle d && active_callback d /\
  (fires (OpMonitor later) r.1 = true ->
   (inject_Z (idle_threshold d) <= later - current_time)%Q) /\
  _on_mouse_click false current_time d = (d, false) /\
  _on_mouse_click true current_time d = r.
Proof.
  intros r.
  assert (Hfirst : is_idle r.1 = false /\
                   last_activity_time r.1 = current_time /\
                   idle_threshold r.1 = idle_threshold d /\
                   r.2 = is_idle d && active_callback d).
  { subst r. unfold _on_activity.
    destruct (is_idle d) eqn:Hi; cbn [fst snd andb]; repeat split;
      try exact Hi. }
  destruct Hfirst as (H1 & H2 & H3 & H4).
  split; [exact H1|]. split; [exact H2|]. split; [exact H4|].
  split; [|split; reflexivity].
  intros Hf. destruct (fires_after_threshold _ _ Hf) as (now & [= <-] & H).
  now rewrite H2, H3 in H.
Qed.

End Countdown.

(* --------------------------------------------------------------------- *)
(** ** After stop_tracking *)
(* --------------------------------------------------------------------- *)

Section AfterStop.
Import Tracker.
Variable cb : callbacks.

Lemma stop_clears_is_tracking end_ self h :
  is_tracking (state_of (stop_tracking cb end_ self h)) = false.
Proof.
  unfold stop_tracking. unfold bind at 1. unfold get.
  destruct (is_tracking self) eqn:Ht; cbn [negb]; [|exact Ht].
  unfold bind, modify.
  destruct (open_session self) as [[app start]|]; [|reflexivity].
  pose proof (close_returns cb app (or_empty (current_window_title self))
                start end_ (set_is_tracking false self) h)
    as (Hres & [k Hst] & _).
  destruct (_save_and_broadcast_session cb app _ start end_ _ h)
    as [[o s1] h1].
  unfold result_of, state_of in *. cbn [fst snd] in *. subst o s1.
  reflexivity.
Qed.

(** X19: once [stop_tracking()] has run, the tracking loop makes no further
    pass, whatever the probe would return, and a second [stop_tracking()]
    does nothing: no callback is called and the tracker stays as the stop
    left it. *)
Theorem nothing_after_stop (end_ : Q) (self : RealtimeTracker)
    (h : list effect) (passes : list (option window_info * Q)) (end2 : Q) :
  let r := stop_tracking cb end_ self h in
  _tracking_loop cb passes (state_of r) (history_of r)
    = (Returned tt, state_of r, history_of r) /\
  run cb (ticks passes) (state_of r) (history_of r)
    = (Returned tt, state_of r, history_of r) /\
  stop_tracking cb end2 (state_of r) (history_of r)
    = (Returned tt, state_of r, history_of r).
Proof.
  intros r. pose proof (stop_clears_is_tracking end_ self h) as Hoff.
  fold r in Hoff. split; [|split].
  - destruct passes as [|[wi now] rest]; simpl; [reflexivity|].
    unfold bind, get. now rewrite Hoff.
  - induction passes as [|[wi now] rest IH]; simpl; [reflexivity|].
    unfold bind at 1. unfold bind at 1. unfold get. rewrite Hoff.
    unfold ret at 1. exact IH.
  - unfold stop_tracking. unfold bind, get. now rewrite Hoff.
Qed.

End AfterStop.

(* --------------------------------------------------------------------- *)
(** ** Every failed attempt is rolled back *)
(* --------------------------------------------------------------------- *)

Section Rollbacks.
Import Database.
Variable db : nat -> attempt_result.

Lemma rollbacks_cons (c : db_call) (calls : list db_call) :
  rollbacks (c :: calls) =
  ((if is_rollback c then 1 else 0) + rollbacks calls)%nat.
Proof.
  unfold rollbacks. rewrite filter_cons.
  destruct (is_rollback c) eqn:E; simpl.
  - destruct (decide (true = true)); [reflexivity | congruence].
  - destruct (decide (false = true)); [discriminate | reflexivity].
Qed.

Lemma retry_loop_rollbacks max_retries attempts :
  let r := retry_loop db max_retries attempts in
  (attempts_made r.2 = rollbacks r.2 + (if r.1 then 1 else 0))%nat.
Proof.
  induction attempts as [|a rest IH]; simpl; [reflexivity|].
  destruct (db a) as [|message|]; simpl; [reflexivity| |reflexivity].
  destruct (is_locked message); [|reflexivity].
  destruct (Z.of_nat a =? max_retries - 1)%Z; [reflexivity|].
  cbn [fst snd]. rewrite !attempts_made_cons, !rollbacks_cons.
  cbn [is_try is_rollback]. simpl in IH. lia.
Qed.

(** X20: whatever the bound and however the attempts end,
    [save_usage_with_retry] rolls the session back after every attempt that
    fails: the attempts are as many as the rollbacks, plus the one that
    commits when the function returns [True]. *)
Theorem every_failed_attempt_is_rolled_back (max_retries : Z) :
  let r := save_usage_with_retry db max_retries in
  (attempts_made r.2 = rollbacks r.2 + (if r.1 then 1 else 0))%nat.
Proof. apply retry_loop_rollbacks. Qed.

End Rollbacks.

(* --------------------------------------------------------------------- *)
(** ** The persistence callback of main.py *)
(* --------------------------------------------------------------------- *)

Section SaveUsageCallback.
Import ConnectionManager Database Main.
Context {message : Type}.
Variable send_json_returns : list (send message) -> WebSocket -> message -> bool.
Variable db : nat -> attempt_result.
Variable summary_update : message.

(** X21: [save_usage_callback] when [SessionLocal()] and [db.close()]
    return.  A save that fails, even after three lock-busy attempts, raises
    nothing to the tracker: the callback returns, sends nothing and leaves
    the registry as it was.  When [save_usage_with_retry] returned [True]
    the callback ends as [broadcast(summary_update)] ends, with the same
    registry and the same calls: it returns when the broadcast does, which
    is the case when no other coroutine changes the registry during the
    sends, the failing connections being pruned, and it lets the exception
    of the broadcast through otherwise.  When [SessionLocal()] raises
    nothing is attempted, and when [db.close()] raises the exception goes to
    the caller. *)
Theorem save_usage_callback_spec (others : list (option change))
    (active : gset WebSocket) (h : list (send message)) :
  let saved := save_usage_with_retry db default_max_retries in
  let r := save_usage_callback send_json_returns true db summary_update true
             others active h in
  let b := broadcast send_json_returns others summary_update active h in
  (saved.1 = false -> r = (Returned saved.2, active, h)) /\
  (saved.1 = true ->
     state_of r = state_of b /\ history_of r = history_of b /\
     (result_of b = Returned tt -> result_of r = Returned saved.2) /\
     (result_of b = Raised -> result_of r = Raised)) /\
  (saved.1 = true -> undisturbed active others ->
     let sends := sends_to send_json_returns summary_update
                    (elements active) h in
     r = (Returned saved.2, active ∖ list_to_set (failed sends),
          (h ++ sends)%list)) /\
  save_usage_callback send_json_returns false db summary_update true others
    active h = (Raised, active, h) /\
  result_of (save_usage_callback send_json_returns true db summary_update
               false others active h) = Raised.
Proof.
  intros saved r b. subst r b. unfold save_usage_callback. cbn [negb].
  fold saved.
  split; [|split; [|split; [|split]]].
  - intros ->. reflexivity.
  - intros ->. unfold bind.
    destruct (broadcast send_json_returns others summary_update active h)
      as [[[[]|] a'] h'];
      unfold ret, result_of, state_of, history_of; cbn [fst snd];
      repeat split; congruence.
  - intros -> Hu. unfold bind.
    now rewrite broadcast_spec.
  - reflexivity.
  - unfold result_of. destruct saved.1.
    + unfold bind.
      now destruct (broadcast send_json_returns others summary_update
                      active h) as [[[[]|] a'] h'].
    + reflexivity.
Qed.

End SaveUsageCallback.

Lemma save_usage_callback_spec_witness :
  let committed := fun _ : nat => Database.Committed in
  let left_meanwhile :=
    Main.save_usage_callback Scenario.third_fails true committed
      "summary_update" true
      [Some (ConnectionManager.Disconnects 4%positive)] Scenario.five [] in
  let alone :=
    Main.save_usage_callback Scenario.third_fails true committed
      "summary_update" true [] Scenario.five [] in
  let not_saved :=
    Main.save_usage_callback Scenario.third_fails true
      (fun _ : nat => Scenario.locked)
      "summary_update" true [] Scenario.five [] in
  result_of left_meanwhile = Raised /\
  result_of alone = Returned [Database.TryCommit 0] /\
  state_of alone = {[ 1%positive; 2%positive; 4%positive; 5%positive ]} /\
  state_of not_saved = Scenario.five /\ history_of not_saved = [].
Proof.
  intros committed left_meanwhile alone not_saved.
  destruct (save_usage_callback_spec Scenario.third_fails committed
              "summary_update"
              [Some (ConnectionManager.Disconnects 4%positive)]
              Scenario.five []) as (_ & Hends & _).
  destruct (Hends eq_refl) as (_ & _ & _ & Hraised).
  destruct (save_usage_callback_spec Scenario.third_fails committed
              "summary_update" [] Scenario.five []) as (_ & _ & Halone & _).
  specialize (Halone eq_refl ltac:(constructor)).
  destruct (save_usage_callback_spec Scenario.third_fails
              (fun _ : nat => Scenario.locked)
              "summary_update" [] Scenario.five []) as (Hnot & _).
  specialize (Hnot eq_refl).
  split; [apply Hraised; vm_compute; reflexivity|].
  fold alone in Halone. fold not_saved in Hnot.
  rewrite Halone, Hnot. unfold result_of, state_of, history_of. cbn [fst snd].
  split; [reflexivity|]. split; [vm_compute; reflexivity|].
  split; reflexivity.
Defined.

(* --------------------------------------------------------------------- *)
(** ** Names without letters or digits *)
(* --------------------------------------------------------------------- *)

Section NamesWithoutLetters.

Ltac all_ascii c := destruct c as [[] [] [] [] [] [] [] []]; reflexivity.

Lemma not_alnum_lower_char (c : ascii) :
  implb (not_alnum c) (not_alnum (lower_char c)) = true.
Proof. all_ascii c. Qed.

Lemma not_alnum_clean_char (c : ascii) :
  implb (not_alnum c) (isspace (clean_char c)) = true.
Proof. all_ascii c. Qed.

Lemma all_chars_map_impl (p q : ascii -> bool) (f : ascii -> ascii) (s : string) :
  (forall c, implb (p c) (q (f c)) = true) ->
  all_chars p s = true -> all_chars q (map_chars f s) = true.
Proof.
  intros H. induction s as [|c s IH]; simpl; [reflexivity|].
  intros [Hc Hs]%andb_true_iff. specialize (H c). rewrite Hc in H.
  simpl in H. now rewrite H, IH.
Qed.

Lemma split_go_spaces (s : string) :
  all_chars isspace s = true -> split_go "" s = [].
Proof.
  induction s as [|c s IH]; simpl; [reflexivity|].
  intros [Hc Hs]%andb_true_iff. rewrite Hc. simpl. now apply IH.
Qed.

Lemma dict_get_key (d : list (string * string)) (k v : string) :
  dict_get d k = Some v -> In k (map fst d).
Proof.
  induction d as [|[k' v'] d IH]; simpl; [discriminate|].
  destruct (String.eqb k' k) eqn:E; [|auto].
  apply String.eqb_eq in E. auto.
Qed.

Lemma no_key_without_letters (k : string) :
  all_chars not_alnum k = true -> dict_get APP_NAME_MAPPING k = None.
Proof.
  intros Hk. destruct (dict_get APP_NAME_MAPPING k) as [v|] eqn:E;
    [|reflexivity].
  apply dict_get_key in E.
  assert (Hall : forallb (fun k' => negb (all_chars not_alnum k'))
                   (map fst APP_NAME_MAPPING) = true) by reflexivity.
  rewrite forallb_forall in Hall. specialize (Hall k E).
  now rewrite Hk in Hall.
Qed.

(** X22: the name ["UNKNOWN"] is given to the empty raw name only: a raw
    name that is not empty but holds no ASCII letter and no digit (only
    punctuation, white space or other characters) is normalized to the
    empty string. *)
Theorem normalize_app_name_without_letters (raw_name : string) :
  truthy_str raw_name = true ->
  all_chars not_alnum raw_name = true ->
  normalize_app_name raw_name = "".
Proof.
  intros Ht Hraw. unfold normalize_app_name. rewrite Ht. cbn [negb].
  assert (Hlow : all_chars not_alnum (strip (lower raw_name)) = true).
  { apply all_chars_strip.
    now apply (all_chars_map_impl not_alnum not_alnum lower_char);
      [apply not_alnum_lower_char|]. }
  rewrite no_key_without_letters.
  - unfold split. rewrite split_go_spaces; [reflexivity|].
    now apply (all_chars_map_impl not_alnum isspace clean_char);
      [apply not_alnum_clean_char|].
  - destruct (endswith _ _); [now apply all_chars_slice_to | exact Hlow].
Qed.

Lemma normalize_app_name_without_letters_witness :
  truthy_str "--- (?)" = true /\
  all_chars not_alnum "--- (?)" = true /\
  normalize_app_name "--- (?)" = "" /\
  normalize_app_name "" = "UNKNOWN".
Proof.
  split; [reflexivity|]. split; [reflexivity|]. split; [|reflexivity].
  apply (normalize_app_name_without_letters "--- (?)"); reflexivity.
Defined.

End NamesWithoutLetters.

(* --------------------------------------------------------------------- *)
(** ** The tracking loop and its passes taken one by one *)
(* --------------------------------------------------------------------- *)

Section LoopAndTurns.
Import Tracker.
Variable cb : callbacks.

Lemma close_keeps_is_tracking app title start end_ self h :
  is_tracking (state_of (_save_and_broadcast_session cb app title start end_
                           self h)) = is_tracking self.
Proof.
  destruct (close_returns cb app title start end_ self h)
    as (_ & [k ->] & _). reflexivity.
Qed.

Lemma tick_keeps_is_tracking wi now self h :
  is_tracking (state_of (_tracking_loop_body cb wi now self h))
  = is_tracking self.
Proof.
  destruct (IdleDetector.is_user_idle (idle_detector self)) eqn:Hidle.
  { now rewrite tick_idle. }
  destruct wi as [wi|]; [|now rewrite tick_no_window].
  destruct (opt_str_neq (Some (wi_app_name wi)) (current_app self)) eqn:Hneq.
  - rewrite tick_new_app by assumption. unfold state_of at 1. cbn [fst snd].
    change (is_tracking (opened wi now ?s)) with (is_tracking s).
    destruct (open_session self) as [[app start]|]; [|reflexivity].
    apply close_keeps_is_tracking.
  - rewrite tick_same_app by assumption. unfold state_of. cbn [fst snd].
    now destruct (opt_str_neq _ (current_window_title self)).
Qed.

(** X23: [_tracking_loop], fed with the results of the probe and of the
    clock pass after pass, does what its passes do when they are taken one
    by one as turns; and its passes never change [is_tracking]: only
    [stop_tracking] ends the loop. *)
Theorem tracking_loop_is_its_passes
    (passes : list (option window_info * Q)) (self : RealtimeTracker)
    (h : list effect) :
  _tracking_loop cb passes self h = run cb (ticks passes) self h /\
  is_tracking (state_of (_tracking_loop cb passes self h)) = is_tracking self.
Proof.
  revert self h. induction passes as [|[wi now] rest IH]; intros self h.
  - split; reflexivity.
  - simpl. unfold bind, get.
    destruct (is_tracking self) eqn:Ht.
    + pose proof (tick_keeps_is_tracking wi now self h) as Hk.
      destruct (tick_reach cb wi now self h) as (s1 & h1 & E & _).
      rewrite E in *. unfold state_of in Hk. cbn [fst snd] in Hk.
      destruct (IH s1 h1) as [IH1 IH2]. split; [exact IH1|].
      now rewrite IH2, Hk.
    + unfold ret at 1 2 3. split; [|exact Ht].
      clear IH. induction rest as [|[wi' now'] rest IH']; [reflexivity|].
      simpl. unfold bind, get. rewrite Ht.
      unfold ret at 1. exact IH'.
Qed.

End LoopAndTurns.

Lemma activity_restarts_countdown_witness :
  let idle_since_1200 :=
    IdleDetector.run_ops true
      [IdleDetector.OpStart IdleDetector.Hooked IdleDetector.Hooked true true;
       IdleDetector.OpMonitor 1200] (IdleDetector.init 180 1000) in
  let r := IdleDetector._on_activity 1300 idle_since_1200 in
  IdleDetector.is_idle idle_since_1200 = true /\
  IdleDetector.is_idle r.1 = false /\
  r.2 = true /\
  IdleDetector.fires (IdleDetector.OpMonitor 1480) r.1 = true /\
  (inject_Z (IdleDetector.idle_threshold idle_since_1200) <= 1480 - 1300)%Q.
Proof.
  intros idle_since_1200 r.
  destruct (activity_restarts_countdown idle_since_1200 1300 1480)
    as (Hactive & _ & _ & Hfires & _).
  split; [reflexivity|]. split; [exact Hactive|]. split; [reflexivity|].
  split; [reflexivity|]. apply Hfires. reflexivity.
Defined.
